(** * Shallow embedding of the Scrape_EMA extraction pipeline

    The four scrapers (EMA, FDA, PMDA, WHO) of [src/app/scrapers] are modelled
    as functions in a small writer/error monad [M]: a computation returns a
    Python-style result (a value, or a raised exception) together with the
    trace of outward effects it performed (page fetches and sleeps).
    [try ... except Exception] blocks become [try_except].

    Library code the scrapers call (dateutil, strptime, urljoin, the network,
    the clock, the Selenium-rendered locators of FDA and WHO) is gathered in
    the record [Env]; theorems quantify over it, and concrete environments
    are built for examples and counterexamples. *)

From Stdlib Require Import String Ascii List ZArith Bool Lia.
Import ListNotations.
Open Scope string_scope.
Open Scope Z_scope.

(* ------------------------------------------------------------------ *)
(** ** Python exceptions, results and the effect monad *)

Inductive exn : Type :=
| ValueError        (** dateutil / strptime could not parse *)
| OverflowError     (** datetime / timedelta out of range *)
| RequestError      (** requests / WebDriver failure *)
| HTTPError         (** [response.raise_for_status()] on a 4xx/5xx *)
| KeyError
| OtherError.

Inductive res (A : Type) : Type :=
| Ok (a : A)
| Raise (e : exn).
Arguments Ok {A} a.
Arguments Raise {A} e.

(** Outward effects, in the order they happen. Delays are in milliseconds. *)
Inductive event : Type :=
| Fetch (url : string)
| Sleep (ms : Z).

Definition M (A : Type) : Type := (res A * list event)%type.

Definition ret {A} (a : A) : M A := (Ok a, []).
Definition raise {A} (e : exn) : M A := (Raise e, []).
Definition emit (e : event) : M unit := (Ok tt, [e]).

Definition bind {A B} (m : M A) (k : A -> M B) : M B :=
  match m with
  | (Ok a, t1) => let (r, t2) := k a in (r, (t1 ++ t2)%list)
  | (Raise e, t1) => (Raise e, t1)
  end.

(** [try: m  except Exception as e: h e] *)
Definition try_except {A} (m : M A) (h : exn -> M A) : M A :=
  match m with
  | (Raise e, t1) => let (r, t2) := h e in (r, (t1 ++ t2)%list)
  | ok => ok
  end.

Notation "x <- m ;; k" := (bind m (fun x => k))
  (at level 61, m at next level, right associativity).
Notation "m ;;; k" := (bind m (fun _ => k))
  (at level 61, right associativity).

Definition sleep (ms : Z) : M unit := emit (Sleep ms).

(** A value computed without effects, or the exception it raised. *)
Definition of_res {A} (r : res A) : M A := (r, []).

(* ------------------------------------------------------------------ *)
(** ** Python strings *)

(** Python [str] values are modelled as UTF-8 encoded [string]s. [len] counts
    code points: every byte that is not a continuation byte (10xxxxxx). *)
Definition is_cont_byte (c : ascii) : bool :=
  let n := nat_of_ascii c in Nat.leb 128 n && Nat.ltb n 192.

Fixpoint pylen (s : string) : nat :=
  match s with
  | EmptyString => 0
  | String c s' => (if is_cont_byte c then 0 else 1) + pylen s'
  end%nat.

(** [str.lower()] on the ASCII range (every phrase the code looks for is
    ASCII). *)
Definition lower_ascii (c : ascii) : ascii :=
  let n := nat_of_ascii c in
  if Nat.leb 65 n && Nat.leb n 90 then ascii_of_nat (n + 32) else c.

Fixpoint lower (s : string) : string :=
  match s with
  | EmptyString => EmptyString
  | String c s' => String (lower_ascii c) (lower s')
  end.

(** [needle in hay] *)
Fixpoint contains (needle hay : string) : bool :=
  if String.prefix needle hay then true
  else match hay with
       | EmptyString => false
       | String _ h' => contains needle h'
       end.

Fixpoint ends_with (suffix s : string) : bool :=
  if String.eqb suffix s then true
  else match s with
       | EmptyString => false
       | String _ s' => ends_with suffix s'
       end.

(** Python truthiness of a string: [not s] iff [s] is empty. *)
Definition nonempty (s : string) : bool := negb (String.eqb s EmptyString).

(** [sep.join(xs)] *)
Definition join (sep : string) (xs : list string) : string :=
  String.concat sep xs.

(** [s in l] for a list of strings. *)
Definition mem_str (s : string) (l : list string) : bool :=
  existsb (String.eqb s) l.


(* ------------------------------------------------------------------ *)
(** ** BeautifulSoup documents *)

(** A parsed element: its tag name, its stripped text fragments (so
    [get_text(strip=True)] is their concatenation and
    [get_text(separator='\n', strip=True)] their newline join), its
    attributes, and the CSS query function [el.select(css)] restricted to
    its descendants, in document order. A whole document ([soup]) is an
    element too. *)
Set Warnings "-register-all".
Inductive element : Type :=
| El (name : string) (lines : list string) (attrs : list (string * string))
     (sub : string -> list element).

Definition el_name (e : element) : string := let 'El n _ _ _ := e in n.
Definition el_lines (e : element) : list string := let 'El _ l _ _ := e in l.
Definition el_attrs (e : element) : list (string * string) :=
  let 'El _ _ a _ := e in a.

(** [el.select(css)] *)
Definition select (e : element) (css : string) : list element :=
  let 'El _ _ _ f := e in f css.

(** [el.select_one(css)] *)
Definition select_one (e : element) (css : string) : option element :=
  hd_error (select e css).

(** [el.get_text(strip=True)] *)
Definition get_text (e : element) : string := String.concat EmptyString (el_lines e).

(** [el.get_text(separator='\n', strip=True)] *)
Definition get_text_nl (e : element) : string :=
  String.concat (String (ascii_of_nat 10) EmptyString) (el_lines e).

Fixpoint assoc (k : string) (l : list (string * string)) : option string :=
  match l with
  | [] => None
  | (k', v) :: l' => if String.eqb k k' then Some v else assoc k l'
  end.

(** [el.get(attr)] *)
Definition get_attr (e : element) (a : string) : option string :=
  assoc a (el_attrs e).

Definition doc := element.

(* ------------------------------------------------------------------ *)
(** ** Datetimes *)

(** A value returned by [dateutil.parser.parse] or [datetime.strptime]:
    wall-clock seconds since 1970-01-01 and the UTC offset in seconds when
    the value is timezone-aware. Aware datetimes used for comparison are
    modelled by their instant: UTC seconds since the epoch. *)
Record pdt : Type := mk_pdt { p_naive : Z; p_tzoff : option Z }.

(** Bounds of Python's [datetime] (year 1 to 9999), in wall-clock seconds. *)
Definition DATETIME_MIN : Z := -62135596800.
Definition DATETIME_MAX : Z := 253402300799.
(** [timedelta(days=d)] requires [|d| <= 999999999]. *)
Definition TIMEDELTA_MAX_DAYS : Z := 999999999.
Definition DAY : Z := 86400.

(** Asia/Tokyo through pytz: [tz.localize] and [astimezone] use JST (+9:00);
    [dt.replace(tzinfo=tz)] attaches the zone's first entry, LMT (+9:19). *)
Definition JST_OFFSET : Z := 32400.
Definition TOKYO_LMT_OFFSET : Z := 33540.

(** [parsed.replace(tzinfo=self.tz)]: any parsed offset is dropped. *)
Definition replace_tokyo (p : pdt) : Z := p_naive p - TOKYO_LMT_OFFSET.

(* ------------------------------------------------------------------ *)
(** ** The environment: library code the scrapers call *)

(** An HTTP response / rendered page. *)
Record page : Type := mk_page { status : Z; content : doc; body_size : Z }.

(** [{'url', 'date_text', 'title'}] built by [WHOScraper._get_news_items]. *)
Record who_item : Type := mk_who_item
  { wi_url : string; wi_date_text : string; wi_title : string }.

Record Env : Type := mk_env {
  (** the instant [datetime.now()] reads during the run *)
  now : Z;
  (** UTC offset of the machine's local time ([datetime.now()] is naive) *)
  machine_offset : Z;
  (** [dateutil.parser.parse(text)] *)
  date_parse : string -> res pdt;
  (** [datetime.strptime(text, fmt)] *)
  strptime : string -> string -> res pdt;
  (** [urllib.parse.urljoin(base, href)] when it returns *)
  urljoin : string -> string -> string;
  (** [urljoin(base, href)] raises [ValueError] instead (its [urlsplit]
      rejects the URL, e.g. an [href] [//[...] whose bracket is not
      closed) *)
  urljoin_raises : string -> string -> bool;
  (** the network: [session.get(url)] / [driver.get(url)]; [None] when the
      request raises *)
  web : string -> option page;
  (** [FDAScraperSelenium._extract_date(soup)]: always a datetime (it falls
      back to the current time), never raises *)
  fda_extract_date : doc -> Z;
  (** [FDAScraperSelenium._get_guidance_data_from_table()]: Selenium render
      of the search page; (url, parsed table date or [None]) pairs *)
  fda_table_data : M (list (string * option Z));
  (** [FDAScraperSelenium._get_guidance_urls()] *)
  fda_guidance_urls : M (list string);
  (** [WHOScraper._get_news_items()] (Selenium) *)
  who_news_items : M (list who_item);
  (** [_extract_summary] / [_extract_content] of PMDA and WHO; no claim
      reads the text they produce *)
  pmda_extract_summary : doc -> string;
  pmda_extract_content : doc -> string;
  who_extract_summary : doc -> string;
  who_extract_content : doc -> string
}.

(** [datetime.now(self.tz) - timedelta(days=days_back)] (EMA). *)
Definition cutoff_aware (E : Env) (days_back : Z) : M Z :=
  if TIMEDELTA_MAX_DAYS <? Z.abs days_back then raise OverflowError
  else let local := now E + JST_OFFSET - days_back * DAY in
       if (local <? DATETIME_MIN) || (DATETIME_MAX <? local) then raise OverflowError
       else ret (now E - days_back * DAY).

(** [self.tz.localize(datetime.now()) - timedelta(days=days_back)]
    (FDA, PMDA, WHO): the machine's wall clock labelled JST. *)
Definition cutoff_localized (E : Env) (days_back : Z) : M Z :=
  if TIMEDELTA_MAX_DAYS <? Z.abs days_back then raise OverflowError
  else let local := now E + machine_offset E - days_back * DAY in
       if (local <? DATETIME_MIN) || (DATETIME_MAX <? local) then raise OverflowError
       else ret (local - JST_OFFSET).

(** [_is_within_date_range]: [article_date >= cutoff_date] (all four). *)
Definition is_within_date_range (article_date cutoff_date : Z) : bool :=
  cutoff_date <=? article_date.

(** [session.get(url, timeout=...)] followed by [raise_for_status()]. *)
Definition session_get_checked (E : Env) (url : string) : M page :=
  emit (Fetch url) ;;;
  match web E url with
  | None => raise RequestError
  | Some p => if 400 <=? status p then raise HTTPError else ret p
  end.

(** [session.get(url)] / [driver.get(url)] without a status check. *)
Definition session_get (E : Env) (url : string) : M page :=
  emit (Fetch url) ;;;
  match web E url with
  | None => raise RequestError
  | Some p => ret p
  end.

(** An emitted article dictionary. [published_at_iso] is
    [published_at.isoformat()]; it is represented by the datetime it was
    rendered from. [category] is only set by PMDA. *)
Record attachment : Type := mk_attachment
  { att_title : string; att_url : string; att_index : nat; att_size : Z }.

Record article : Type := mk_article {
  title : string;
  url : string;
  published_at : Z;
  published_at_iso : Z;
  summary_or_lead : string;
  first_paragraphs : string;
  documents : list attachment;
  category : option string
}.

Definition set_published (d : Z) (a : article) : article :=
  {| title := title a; url := url a; published_at := d; published_at_iso := d;
     summary_or_lead := summary_or_lead a; first_paragraphs := first_paragraphs a;
     documents := documents a; category := category a |}.

Definition set_category (c : string) (a : article) : article :=
  {| title := title a; url := url a; published_at := published_at a;
     published_at_iso := published_at_iso a;
     summary_or_lead := summary_or_lead a; first_paragraphs := first_paragraphs a;
     documents := documents a; category := Some c |}.

(** [s[:n]] on code points. *)
Fixpoint take_cp (n : nat) (s : string) : string :=
  match s with
  | EmptyString => EmptyString
  | String c s' =>
      if is_cont_byte c then String c (take_cp n s')
      else match n with
           | O => EmptyString
           | S n' => String c (take_cp n' s')
           end
  end.

(** [content[:200] + "..." if len(content) > 200 else content] *)
Definition lead_of (content : string) : string :=
  if Nat.ltb 200 (pylen content) then take_cp 200 content ++ "..." else content.

(* ------------------------------------------------------------------ *)
(** ** Configuration ([config.py]) *)

Definition EMA_BASE_URL := "https://www.ema.europa.eu".
Definition EMA_NEWS_URL := EMA_BASE_URL ++ "/en/news".
Definition FDA_BASE_URL := "https://www.fda.gov".
Definition FDA_CRAWL_DELAY_MS : Z := 30000.
Definition SLEEP_BETWEEN_REQUESTS_MS : Z := 1500.
Definition MAX_PARAGRAPHS_PER_ARTICLE : nat := 3.
Definition MAX_ARTICLES_TO_PROCESS : nat := 20.

Definition NEWS_CARD_SELECTORS : list string :=
  [".ecl-card"; ".news-card"; ".article-card"; "[class*='card']"].
Definition TITLE_SELECTORS : list string :=
  [".ecl-card__title a"; ".news-title a"; "h3 a"; "h2 a"; ".title a"].
Definition DATE_SELECTORS : list string :=
  [".ecl-card__meta"; ".news-date"; ".date"; "[class*='date']"; "time"].
Definition CONTENT_SELECTORS : list string :=
  [".ecl-content-block__body p"; ".news-content p"; ".article-content p";
   ".content p"; "main p"].

(** The error-page phrases checked by the FDA, PMDA and WHO title
    extractors. *)
Definition ERROR_PHRASES : list string :=
  ["page not found"; "not available"; "error"; "404"].

Definition has_error_phrase (t : string) : bool :=
  existsb (fun ph => contains ph (lower t)) ERROR_PHRASES.

(* ------------------------------------------------------------------ *)
(** ** EMA ([ema_scraper.py], class [EMANewsScraper]) *)

Module EMA.

(** [_extract_title]: the text of the first selector that matches (even an
    empty one), else the [<title>] text. *)
Fixpoint title_loop (soup : doc) (sels : list string) : option string :=
  match sels with
  | [] => option_map get_text (select_one soup "title")
  | s :: rest =>
      match select_one soup s with
      | Some el => Some (get_text el)
      | None => title_loop soup rest
      end
  end.

Definition extract_title (soup : doc) : option string :=
  title_loop soup TITLE_SELECTORS.

(** [parsed_date] made aware (UTC when naive) and converted to Asia/Tokyo;
    the instant is what the comparisons see. *)
Definition localize_utc (p : pdt) : Z :=
  match p_tzoff p with
  | None => p_naive p
  | Some off => p_naive p - off
  end.

(** The text a date element offers: its [datetime] attribute when truthy,
    else its stripped text. *)
Definition date_text_of (el : element) : string :=
  match get_attr el "datetime" with
  | Some v => if nonempty v then v else get_text el
  | None => get_text el
  end.

(** [_extract_date]: first selector whose text parses; when none does, the
    current time ("フォールバック: 現在時刻"). *)
Fixpoint date_loop (E : Env) (soup : doc) (sels : list string) : res (option Z) :=
  match sels with
  | [] => Ok (Some (now E))
  | s :: rest =>
      match select_one soup s with
      | None => date_loop E soup rest
      | Some el =>
          match date_parse E (date_text_of el) with
          | Ok p => Ok (Some (localize_utc p))
          | Raise _ => date_loop E soup rest
          end
      end
  end.

Definition extract_date (E : Env) (soup : doc) : res (option Z) :=
  date_loop E soup DATE_SELECTORS.

(** [if text and len(text) > 50] *)
Definition long_paragraph (t : string) : bool := nonempty t && Nat.ltb 50 (pylen t).

Definition keep_paragraphs (els : list element) : list string :=
  filter long_paragraph (map get_text (firstn MAX_PARAGRAPHS_PER_ARTICLE els)).

(** The selector loop: the first selector with any element decides (the
    loop breaks even when none of its paragraphs is kept). *)
Fixpoint content_loop (soup : doc) (sels : list string) : list string :=
  match sels with
  | [] => []
  | s :: rest =>
      match select soup s with
      | [] => content_loop soup rest
      | els => keep_paragraphs els
      end
  end.

Definition CONTENT_NOT_AVAILABLE := "Content not available".

Definition PARA_SEP : string :=
  String (ascii_of_nat 10) (String (ascii_of_nat 10) EmptyString).

(** [_extract_content] *)
Definition extract_content (soup : doc) : string :=
  let paragraphs :=
    match content_loop soup CONTENT_SELECTORS with
    | [] => keep_paragraphs (select soup "p")
    | ps => ps
    end in
  match paragraphs with
  | [] => CONTENT_NOT_AVAILABLE
  | ps => join PARA_SEP ps
  end.

(** The anchors with [href] of the list that follows the
    [<h3>Related documents</h3>] heading
    ([soup.find('h3', string=re.compile('Related documents', re.I))
      .find_next('ul').find_all('a', href=True)]); empty when either is
    missing. *)
Definition RELATED_DOCUMENT_LINKS := "h3:Related documents ~ ul a[href]".

Definition is_document_href (href : string) : bool :=
  ends_with ".pdf" href || contains "download" (lower href).

(** [_download_related_documents]: one fetch per document link; a failed
    fetch skips the sleep ([continue]). A [urljoin] that raises ends the
    loop in the outer [except], which returns the documents so far. *)
Fixpoint download_loop (E : Env) (links : list element) (docs : list attachment)
  : M (list attachment) :=
  match links with
  | [] => ret docs
  | link :: rest =>
      match get_attr link "href" with
      | Some href =>
          if nonempty href && is_document_href href then
            if urljoin_raises E EMA_BASE_URL href then ret docs else
            let doc_url := urljoin E EMA_BASE_URL href in
            let doc_title := get_text link in
            r <- try_except
                   (resp <- session_get E doc_url ;;
                    let docs' :=
                      if status resp =? 200 then
                        (docs ++ [mk_attachment doc_title doc_url (length docs) (body_size resp)])%list
                      else docs in
                    ret (Some docs'))
                   (fun _ => ret None) ;;
            match r with
            | None => download_loop E rest docs
            | Some docs' => sleep SLEEP_BETWEEN_REQUESTS_MS ;;; download_loop E rest docs'
            end
          else download_loop E rest docs
      | None => download_loop E rest docs
      end
  end.

Definition download_related_documents (E : Env) (soup : doc) (article_url : string)
  : M (list attachment) :=
  download_loop E (select soup RELATED_DOCUMENT_LINKS) [].

Definition DOC_KEYWORDS : list string :=
  ["reflection paper"; "guideline"; "consultation"; "draft"].

(** [_scrape_article] *)
Definition scrape_article (E : Env) (u : string) : M (option article) :=
  try_except
    (resp <- session_get_checked E u ;;
     let soup := content resp in
     match extract_title soup with
     | None => ret None
     | Some t =>
         if negb (nonempty t) then ret None else
         match extract_date E soup with
         | Raise e => raise e
         | Ok None => ret None
         | Ok (Some pub) =>
             let c := extract_content soup in
             docs <- (if existsb (fun k => contains k (lower t)) DOC_KEYWORDS
                      then download_related_documents E soup u else ret []) ;;
             ret (Some {| title := t; url := u; published_at := pub;
                          published_at_iso := pub; summary_or_lead := lead_of c;
                          first_paragraphs := c; documents := docs;
                          category := None |})
         end
     end)
    (fun _ => ret None).

(** The [href] of a card's link: the card itself when it is an [<a>], else
    its first descendant [<a href>] ([card.find('a', href=True)]). *)
Definition card_link (card : element) : option element :=
  if String.eqb (el_name card) "a" then Some card else select_one card "a[href]".

(** The URL-collection loop of [_get_news_urls]; a [urljoin] that raises
    ends it with [ValueError]. *)
Fixpoint collect_urls (E : Env) (cards : list element) (urls : list string)
  : res (list string) :=
  match cards with
  | [] => Ok urls
  | card :: rest =>
      let urls' :=
        match card_link card with
        | Some link =>
            match get_attr link "href" with
            | Some href =>
                if nonempty href && contains "/en/news/" href then
                  if urljoin_raises E EMA_BASE_URL href then Raise ValueError else
                  let full_url := urljoin E EMA_BASE_URL href in
                  Ok (if mem_str full_url urls then urls else (urls ++ [full_url])%list)
                else Ok urls
            | None => Ok urls
            end
        | None => Ok urls
        end in
      match urls' with
      | Ok urls' => collect_urls E rest urls'
      | Raise e => Raise e
      end
  end.

(** The selector loop: the first selector with a match wins. *)
Fixpoint first_cards (soup : doc) (sels : list string) : option (list element) :=
  match sels with
  | [] => None
  | s :: rest =>
      match select soup s with
      | [] => first_cards soup rest
      | cards => Some cards
      end
  end.

(** Fallback: every [<a href>] whose [href] contains ["/en/news/"]. *)
Definition fallback_cards (soup : doc) : list element :=
  filter (fun a => match get_attr a "href" with
                   | Some h => contains "/en/news/" h
                   | None => false
                   end) (select soup "a[href]").

Definition cards_of (soup : doc) : list element :=
  match first_cards soup NEWS_CARD_SELECTORS with
  | Some cards => cards
  | None => fallback_cards soup
  end.

Definition urls_of_listing (E : Env) (soup : doc) : res (list string) :=
  collect_urls E (cards_of soup) [].

(** [_get_news_urls]: its one [try] covers the fetch and the card loop. *)
Definition get_news_urls (E : Env) : M (list string) :=
  try_except
    (resp <- session_get_checked E EMA_NEWS_URL ;;
     of_res (urls_of_listing E (content resp)))
    (fun _ => ret []).

(** The per-article loop of [get_news_articles]. *)
Fixpoint articles_loop (E : Env) (cutoff : Z) (us : list string) (acc : list article)
  : M (list article) :=
  match us with
  | [] => ret acc
  | u :: rest =>
      acc' <- try_except
                (art <- scrape_article E u ;;
                 let acc1 :=
                   match art with
                   | Some a => if is_within_date_range (published_at a) cutoff
                               then (acc ++ [a])%list else acc
                   | None => acc
                   end in
                 sleep SLEEP_BETWEEN_REQUESTS_MS ;;; ret acc1)
                (fun _ => ret acc) ;;
      articles_loop E cutoff rest acc'
  end.

(** [get_news_articles(days_back)] *)
Definition get_news_articles (E : Env) (days_back : Z) : M (list article) :=
  cutoff <- cutoff_aware E days_back ;;
  try_except
    (news_urls <- get_news_urls E ;;
     articles_loop E cutoff (firstn MAX_ARTICLES_TO_PROCESS news_urls) [])
    (fun _ => ret []).

End EMA.

(* ------------------------------------------------------------------ *)
(** ** [str.strip()] on Unicode whitespace *)

Definition string_rev (s : string) : string :=
  string_of_list_ascii (rev (list_ascii_of_string s)).

Definition str2 (a b : nat) : string :=
  String (ascii_of_nat a) (String (ascii_of_nat b) EmptyString).
Definition str3 (a b c : nat) : string :=
  String (ascii_of_nat a) (String (ascii_of_nat b) (String (ascii_of_nat c) EmptyString)).

(** [s] with the prefix [a] removed, if [s] starts with [a]. *)
Fixpoint strip_prefix (a s : string) : option string :=
  match a, s with
  | EmptyString, _ => Some s
  | String c a', String d s' => if Ascii.eqb c d then strip_prefix a' s' else None
  | String _ _, EmptyString => None
  end.

Fixpoint match_alt (alts : list string) (s : string) : option string :=
  match alts with
  | [] => None
  | a :: rest =>
      match strip_prefix a s with
      | Some r => Some r
      | None => match_alt rest s
      end
  end.

(** The characters [str.isspace()] accepts, as UTF-8: U+0009..U+000D,
    U+001C..U+001F, U+0020, U+0085, U+00A0, U+1680, U+2000..U+200A,
    U+2028, U+2029, U+202F, U+205F and U+3000. *)
Definition PY_WHITESPACE : list string :=
  (map (fun n => String (ascii_of_nat n) EmptyString) [9; 10; 11; 12; 13; 28; 29; 30; 31; 32]%nat
   ++ [str2 194 133; str2 194 160; str3 225 154 128]
   ++ map (str3 226 128) [128; 129; 130; 131; 132; 133; 134; 135; 136; 137; 138; 168; 169; 175]%nat
   ++ [str3 226 129 159; str3 227 128 128])%list.

(** Drop leading characters among [ws]; every step drops at least one
    byte, so [fuel = length s] is enough. *)
Fixpoint strip_leading (ws : list string) (fuel : nat) (s : string) : string :=
  match fuel with
  | O => s
  | S f =>
      match match_alt ws s with
      | Some r => strip_leading ws f r
      | None => s
      end
  end.

(** [s.strip()]: the trailing side is stripped on the reversed bytes with
    the reversed encodings. *)
Definition py_strip (s : string) : string :=
  let l := strip_leading PY_WHITESPACE (String.length s) s in
  string_rev (strip_leading (map string_rev PY_WHITESPACE) (String.length l) (string_rev l)).

(* ------------------------------------------------------------------ *)
(** ** Title extraction shared by FDA, PMDA and WHO *)

(** The text a title candidate offers: [element.get('content', '').strip()]
    for a [<meta>], else [element.get_text(strip=True)]. *)
Definition title_text_of (el : element) : string :=
  if String.eqb (el_name el) "meta" then
    py_strip (match get_attr el "content" with Some v => v | None => EmptyString end)
  else get_text el.

(** The [_extract_title] loop of [FDAScraperSelenium], [PMDAScraper] and
    [WHOScraper] (the three bodies are identical, only the selector lists
    differ): the first candidate longer than 10 code points is returned,
    unless it contains an error-page phrase, in which case [None] is. *)
Fixpoint checked_title_loop (soup : doc) (sels : list string) : option string :=
  match sels with
  | [] => None
  | s :: rest =>
      match select_one soup s with
      | Some el =>
          let t := title_text_of el in
          if nonempty t && Nat.ltb 10 (pylen t) then
            if has_error_phrase t then None else Some t
          else checked_title_loop soup rest
      | None => checked_title_loop soup rest
      end
  end.

(** An article page as the PMDA and WHO [_scrape_article] return it, before
    the caller adds the listing date (and, for PMDA, the category). *)
Record detail : Type := mk_detail
  { d_title : string; d_url : string; d_summary : string; d_content : string }.

Definition article_of_detail (d : detail) (pub : Z) (cat : option string) : article :=
  {| title := d_title d; url := d_url d; published_at := pub; published_at_iso := pub;
     summary_or_lead := d_summary d; first_paragraphs := d_content d;
     documents := []; category := cat |}.

(* ------------------------------------------------------------------ *)
(** ** FDA ([fda_scraper_selenium.py], class [FDAScraperSelenium]) *)

Module FDA.

Definition TITLE_SELECTORS : list string :=
  ["h1.fda-page-title"; "h1.page-title"; "h1"; "meta[property='og:title']";
   "meta[name='dcterms.title']"].

Definition extract_title (soup : doc) : option string :=
  checked_title_loop soup TITLE_SELECTORS.

Definition CONTENT_SELECTORS : list string :=
  [".field--name-body"; ".region-content"; ".node__content";
   ".block-system-main-block"; "div[property='schema:text']"; "div.content"].

Definition long_block (t : string) : bool := nonempty t && Nat.ltb 50 (pylen t).

(** The selector loop of [_extract_content]: the first selector whose
    elements give a kept block decides. *)
Fixpoint content_loop (soup : doc) (sels : list string) : list string :=
  match sels with
  | [] => []
  | s :: rest =>
      match filter long_block (map get_text_nl (select soup s)) with
      | [] => content_loop soup rest
      | ps => ps
      end
  end.

Definition extract_content (soup : doc) : string :=
  let paragraphs :=
    match content_loop soup CONTENT_SELECTORS with
    | [] => filter long_block (map get_text (select soup "p"))
    | ps => ps
    end in
  match paragraphs with
  | [] => EMA.CONTENT_NOT_AVAILABLE
  | ps => join EMA.PARA_SEP ps
  end.

(** [_scrape_document]: rendered with Selenium ([driver.get], no status
    check). *)
Definition scrape_document (E : Env) (u : string) : M (option article) :=
  try_except
    (resp <- session_get E u ;;
     let soup := content resp in
     match extract_title soup with
     | None => ret None
     | Some t =>
         let pub := fda_extract_date E soup in
         let c := extract_content soup in
         ret (Some {| title := t; url := u; published_at := pub;
                      published_at_iso := pub; summary_or_lead := lead_of c;
                      first_paragraphs := c; documents := []; category := None |})
     end)
    (fun _ => ret None).

(** The table-data loop of [scrape_fda_guidance]: no cap on the number of
    rows, and a crawl delay after every row. *)
Fixpoint table_loop (E : Env) (cutoff : Z) (rows : list (string * option Z))
  (acc : list article) : M (list article) :=
  match rows with
  | [] => ret acc
  | (u, table_date) :: rest =>
      acc' <- try_except
        (acc1 <- match table_date with
                 | None =>
                     document <- scrape_document E u ;;
                     match document with
                     | Some d => if is_within_date_range (published_at d) cutoff
                                 then ret (acc ++ [d])%list else ret acc
                     | None => ret acc
                     end
                 | Some td =>
                     if is_within_date_range td cutoff then
                       document <- scrape_document E u ;;
                       match document with
                       | Some d => ret (acc ++ [set_published td d])%list
                       | None => ret acc
                       end
                     else ret acc
                 end ;;
         sleep FDA_CRAWL_DELAY_MS ;;; ret acc1)
        (fun _ => ret acc) ;;
      table_loop E cutoff rest acc'
  end.

(** The fallback loop over [guidance_urls[:MAX_ARTICLES_TO_PROCESS]];
    [i] is the index, [n] is [len(guidance_urls)]. *)
Fixpoint fallback_loop (E : Env) (cutoff : Z) (i n : Z) (us : list string)
  (acc : list article) : M (list article) :=
  match us with
  | [] => ret acc
  | u :: rest =>
      acc' <- try_except
        (document <- scrape_document E u ;;
         let acc1 :=
           match document with
           | Some d => if is_within_date_range (published_at d) cutoff
                       then (acc ++ [d])%list else acc
           | None => acc
           end in
         (if i <? n - 1 then sleep FDA_CRAWL_DELAY_MS else ret tt) ;;;
         ret acc1)
        (fun _ => ret acc) ;;
      fallback_loop E cutoff (i + 1) n rest acc'
  end.

(** [scrape_fda_guidance(days_back)] *)
Definition scrape_fda_guidance (E : Env) (days_back : Z) : M (list article) :=
  cutoff <- cutoff_localized E days_back ;;
  try_except
    (table_data <- fda_table_data E ;;
     documents <- table_loop E cutoff table_data [] ;;
     match documents with
     | [] =>
         guidance_urls <- fda_guidance_urls E ;;
         match guidance_urls with
         | [] => ret []
         | _ => fallback_loop E cutoff 0 (Z.of_nat (length guidance_urls))
                  (firstn MAX_ARTICLES_TO_PROCESS guidance_urls) []
         end
     | _ => ret documents
     end)
    (fun _ => ret []).

End FDA.

(* ------------------------------------------------------------------ *)
(** ** String helpers used by PMDA and WHO *)

(** [s.replace(old, new)] (left to right, non-overlapping); [fuel] bounds
    the scan and [length s] is always enough. *)
Fixpoint replace_fuel (fuel : nat) (old new s : string) : string :=
  match fuel with
  | O => s
  | S f =>
      match s with
      | EmptyString => EmptyString
      | String c s' =>
          if String.prefix old s && nonempty old then
            new ++ replace_fuel f old new
                      (substring (String.length old) (String.length s - String.length old) s)
          else String c (replace_fuel f old new s')
      end
  end.

Definition replace (old new s : string) : string :=
  replace_fuel (String.length s) old new s.

Definition NEWLINE : ascii := ascii_of_nat 10.

(** [s] ends with one character other than a newline followed by [x]. *)
Fixpoint ends_dot (x s : string) : bool :=
  match s with
  | EmptyString => false
  | String c s' => (negb (Ascii.eqb c NEWLINE) && String.eqb s' x) || ends_dot x s'
  end.

(** [re.search('.' + ext + '$', s, re.IGNORECASE)]: [$] also matches
    before a final newline. *)
Definition re_dot_ext_end (ext s : string) : bool :=
  let l := lower s in ends_dot ext l || ends_dot (ext ++ String NEWLINE EmptyString) l.

Definition is_ascii_digit (c : ascii) : bool :=
  let n := nat_of_ascii c in Nat.leb 48 n && Nat.leb n 57.

Definition obind {A B} (o : option A) (f : A -> option B) : option B :=
  match o with Some a => f a | None => None end.

(** Consume exactly [n] digits. *)
Fixpoint take_digits (n : nat) (s : string) : option string :=
  match n with
  | O => Some s
  | S n' => match s with
            | String c s' => if is_ascii_digit c then take_digits n' s' else None
            | EmptyString => None
            end
  end.

Definition after_marker (m s : string) : option string :=
  if String.prefix m s
  then Some (substring (String.length m) (String.length s - String.length m) s)
  else None.

(** [\d{1,2}] followed by the marker [m] (greedy, with backtracking). *)
Definition dd_then (m s : string) : option string :=
  match obind (take_digits 2 s) (after_marker m) with
  | Some r => Some r
  | None => obind (take_digits 1 s) (after_marker m)
  end.

(** [\d{4}年\d{1,2}月\d{1,2}日] anchored at the start of [s] ([\d] is
    read as an ASCII digit). *)
Definition jp_date_at (s : string) : bool :=
  match obind (obind (take_digits 4 s) (after_marker "年"))
          (fun r => obind (dd_then "月" r) (dd_then "日")) with
  | Some _ => true
  | None => false
  end.

(** [re.search(r'\d{4}年\d{1,2}月\d{1,2}日', s)] *)
Fixpoint has_jp_date (s : string) : bool :=
  jp_date_at s || match s with
                  | EmptyString => false
                  | String _ s' => has_jp_date s'
                  end.

(* ------------------------------------------------------------------ *)
(** ** PMDA ([pmda_scraper.py], class [PMDAScraper]) *)

Module PMDA.

Definition PMDA_BASE_URL := "https://www.pmda.go.jp".
Definition PMDA_NEWS_URL := PMDA_BASE_URL ++ "/0017.html".
Definition DATE_UNKNOWN := "日付不明".
Definition CATEGORY_OTHER := "その他".
Definition EXCLUDED_CATEGORIES : list string := ["採用"; "調達"].

Record news_item : Type := mk_news_item
  { ni_url : string; ni_date_text : string; ni_category : string; ni_title : string }.

Definition EXCLUDE_SUBSTRINGS : list string :=
  ["/english/"; "/sitemap"; "/contact"; "/privacy"; "/accessibility";
   "/site-policy"; "/link"; "/search"; "/user/"; "javascript:"; "mailto:"; "#";
   "apology_objects"].
Definition EXCLUDE_EXTENSIONS : list string := ["pdf"; "doc"; "docx"; "xls"; "xlsx"].

(** [_is_news_url(url, text)] *)
Definition is_news_url (u text : string) : bool :=
  if negb (nonempty u) || negb (nonempty text) then false
  else if existsb (fun p => contains p (lower u)) EXCLUDE_SUBSTRINGS
          || existsb (fun e => re_dot_ext_end e u) EXCLUDE_EXTENSIONS then false
  else if Nat.ltb (pylen text) 10 then false
  else String.prefix "/" u || contains "pmda.go.jp" u.

Definition text_of_opt (o : option element) : string :=
  match o with Some e => get_text e | None => EmptyString end.

(** One [<li>] of a [ul.list__news]; [None] when the item is skipped,
    also when its [urljoin] raises (the per-item [except]). *)
Definition main_item (E : Env) (item : element) : option news_item :=
  match select_one item "p.date" with
  | None => None
  | Some date_element =>
      let date_text := get_text date_element in
      let cat := text_of_opt (select_one item "p.category") in
      if mem_str cat EXCLUDED_CATEGORIES then None
      else
        let t := text_of_opt (select_one item "p.title") in
        match select_one item "a[href]" with
        | None => None
        | Some link =>
            match get_attr link "href" with
            | Some href =>
                if nonempty href && is_news_url href t then
                  if urljoin_raises E PMDA_BASE_URL href then None
                  else Some (mk_news_item (urljoin E PMDA_BASE_URL href) date_text cat t)
                else None
            | None => None
            end
        end
  end.

Fixpoint main_items (E : Env) (items : list element) : list news_item :=
  match items with
  | [] => []
  | it :: rest =>
      match main_item E it with
      | Some n => n :: main_items E rest
      | None => main_items E rest
      end
  end.

(** The general-list fallback: every link of an item whose text carries a
    Japanese date becomes a news item of unknown date and category
    ["その他"]; a [urljoin] that raises drops the item's remaining links
    (the per-item [except]). *)
Fixpoint fallback_links (E : Env) (t : string) (links : list element) : list news_item :=
  match links with
  | [] => []
  | link :: rest =>
      match get_attr link "href" with
      | Some href =>
          if nonempty href && is_news_url href t then
            if urljoin_raises E PMDA_BASE_URL href then []
            else mk_news_item (urljoin E PMDA_BASE_URL href) DATE_UNKNOWN CATEGORY_OTHER t
                   :: fallback_links E t rest
          else fallback_links E t rest
      | None => fallback_links E t rest
      end
  end.

Definition fallback_item (E : Env) (item : element) : list news_item :=
  if has_jp_date (get_text item) then
    fallback_links E (text_of_opt (select_one item "p.title")) (select item "a")
  else [].

Definition items_of_listing (E : Env) (soup : doc) : list news_item :=
  let news_items :=
    flat_map (fun l => main_items E (select l "li")) (select soup "ul.list__news") in
  match news_items with
  | [] => flat_map (fallback_item E) (select soup "ul li, ol li")
  | _ => news_items
  end.

(** [_get_news_urls] *)
Definition get_news_urls (E : Env) : M (list news_item) :=
  try_except
    (resp <- session_get_checked E PMDA_NEWS_URL ;;
     ret (items_of_listing E (content resp)))
    (fun _ => ret []).

(** [_parse_date_from_text] *)
Definition parse_date_from_text (E : Env) (date_text : string) : res (option Z) :=
  if negb (nonempty date_text) || String.eqb date_text DATE_UNKNOWN then Ok None
  else
    let r :=
      if contains "年" date_text && contains "月" date_text && contains "日" date_text
      then date_parse E (replace "日" EmptyString (replace "月" "-" (replace "年" "-" date_text)))
      else date_parse E date_text in
    match r with
    | Ok p => Ok (Some (replace_tokyo p))
    | Raise _ => Ok None
    end.

Definition TITLE_SELECTORS : list string :=
  ["h1"; ".page-title"; ".article-title"; ".news-title"; "title";
   "meta[property='og:title']"; "meta[name='dcterms.title']"].

(** [_scrape_article] *)
Definition scrape_article (E : Env) (u : string) : M (option detail) :=
  try_except
    (resp <- session_get_checked E u ;;
     let soup := content resp in
     match checked_title_loop soup TITLE_SELECTORS with
     | None => ret None
     | Some t =>
         ret (Some (mk_detail t u (pmda_extract_summary E soup) (pmda_extract_content E soup)))
     end)
    (fun _ => ret None).

(** The per-item loop of [scrape_pmda_news]; [n] is [len(news_items)]. *)
Fixpoint news_loop (E : Env) (cutoff i n : Z) (items : list news_item)
  (acc : list article) : M (list article) :=
  match items with
  | [] => ret acc
  | it :: rest =>
      acc' <- try_except
        (match parse_date_from_text E (ni_date_text it) with
         | Raise e => raise e
         | Ok parsed =>
             let published := match parsed with Some p => p | None => now E end in
             acc1 <- (if is_within_date_range published cutoff then
                        det <- scrape_article E (ni_url it) ;;
                        match det with
                        | Some d => ret (acc ++ [article_of_detail d published (Some (ni_category it))])%list
                        | None => ret acc
                        end
                      else ret acc) ;;
             (if i <? n - 1 then sleep SLEEP_BETWEEN_REQUESTS_MS else ret tt) ;;;
             ret acc1
         end)
        (fun _ => ret acc) ;;
      news_loop E cutoff (i + 1) n rest acc'
  end.

(** [scrape_pmda_news(days_back)] *)
Definition scrape_pmda_news (E : Env) (days_back : Z) : M (list article) :=
  cutoff <- cutoff_localized E days_back ;;
  try_except
    (news_items <- get_news_urls E ;;
     match news_items with
     | [] => ret []
     | _ => news_loop E cutoff 0 (Z.of_nat (length news_items))
              (firstn MAX_ARTICLES_TO_PROCESS news_items) []
     end)
    (fun _ => ret []).

End PMDA.

(* ------------------------------------------------------------------ *)
(** ** WHO ([who_scraper.py], class [WHOScraper]) *)

Module WHO.

Definition DATE_UNKNOWN := "日付不明".

Definition DATE_FORMATS : list string :=
  ["%Y-%m-%d"; "%Y/%m/%d"; "%d/%m/%Y"; "%m/%d/%Y"; "%d-%m-%Y"; "%m-%d-%Y";
   "%B %d, %Y"; "%d %B %Y"; "%Y年%m月%d日"].

(** The body of the [try] of [_parse_date_from_text]: each format in turn
    ([ValueError] moves on to the next, any other exception leaves the
    [try]), then [dateutil]. *)
Fixpoint try_formats (E : Env) (t : string) (fmts : list string) : res Z :=
  match fmts with
  | [] =>
      match date_parse E t with
      | Ok p => Ok (replace_tokyo p)
      | Raise e => Raise e
      end
  | f :: rest =>
      match strptime E t f with
      | Ok p => Ok (replace_tokyo p)
      | Raise ValueError => try_formats E t rest
      | Raise e => Raise e
      end
  end.

(** [_parse_date_from_text] *)
Definition parse_date_from_text (E : Env) (date_text : string) : res (option Z) :=
  if negb (nonempty date_text) || String.eqb date_text DATE_UNKNOWN then Ok None
  else match try_formats E (py_strip date_text) DATE_FORMATS with
       | Ok d => Ok (Some d)
       | Raise _ => Ok None
       end.

Definition TITLE_SELECTORS := PMDA.TITLE_SELECTORS.

(** [_scrape_article] *)
Definition scrape_article (E : Env) (u : string) : M (option detail) :=
  try_except
    (resp <- session_get_checked E u ;;
     let soup := content resp in
     match checked_title_loop soup TITLE_SELECTORS with
     | None => ret None
     | Some t =>
         ret (Some (mk_detail t u (who_extract_summary E soup) (who_extract_content E soup)))
     end)
    (fun _ => ret None).

(** The per-item loop of [scrape_who_news]; [n] is [len(news_items)]. *)
Fixpoint news_loop (E : Env) (cutoff i n : Z) (items : list who_item)
  (acc : list article) : M (list article) :=
  match items with
  | [] => ret acc
  | it :: rest =>
      acc' <- try_except
        (match parse_date_from_text E (wi_date_text it) with
         | Raise e => raise e
         | Ok parsed =>
             let published := match parsed with Some p => p | None => now E end in
             acc1 <- (if String.eqb (wi_date_text it) DATE_UNKNOWN
                         || is_within_date_range published cutoff then
                        det <- scrape_article E (wi_url it) ;;
                        match det with
                        | Some d => ret (acc ++ [article_of_detail d published None])%list
                        | None => ret acc
                        end
                      else ret acc) ;;
             (if i <? n - 1 then sleep SLEEP_BETWEEN_REQUESTS_MS else ret tt) ;;;
             ret acc1
         end)
        (fun _ => ret acc) ;;
      news_loop E cutoff (i + 1) n rest acc'
  end.

(** [scrape_who_news(days_back)] *)
Definition scrape_who_news (E : Env) (days_back : Z) : M (list article) :=
  cutoff <- cutoff_localized E days_back ;;
  try_except
    (news_items <- who_news_items E ;;
     match news_items with
     | [] => ret []
     | _ => news_loop E cutoff 0 (Z.of_nat (length news_items))
              (firstn MAX_ARTICLES_TO_PROCESS news_items) []
     end)
    (fun _ => ret []).

End WHO.

(* ------------------------------------------------------------------ *)
(** ** Fixtures: concrete documents and environments *)

Module Fixtures.

(** An element without descendants. *)
Definition leaf (name : string) (lines : list string) (attrs : list (string * string))
  : element := El name lines attrs (fun _ => []).

Fixpoint lookup_q (q : list (string * list element)) (s : string) : list element :=
  match q with
  | [] => []
  | (k, v) :: q' => if String.eqb k s then v else lookup_q q' s
  end.

(** An element (or document) answering the given CSS queries. *)
Definition node (name : string) (lines : list string) (attrs : list (string * string))
  (q : list (string * list element)) : element := El name lines attrs (lookup_q q).

Definition document (q : list (string * list element)) : doc := node "[document]" [] [] q.

Definition anchor (href : string) (text : string) : element :=
  leaf "a" [text] [("href", href)].

(** [urllib.parse.urljoin] on a base without a path: absolute URLs are
    kept, absolute paths are appended to the base. *)
Definition simple_urljoin (base href : string) : string :=
  if String.prefix "http://" href || String.prefix "https://" href then href
  else if String.prefix "/" href then base ++ href
  else base ++ "/" ++ href.

(** The network location of a URL: what follows [//] (at the start, or
    after an [http:]/[https:] scheme) up to the first [/], [?] or [#]. *)
Fixpoint netloc_chars (s : string) : string :=
  match s with
  | EmptyString => EmptyString
  | String c s' =>
      if Ascii.eqb c "/" || Ascii.eqb c "?" || Ascii.eqb c "#" then EmptyString
      else String c (netloc_chars s')
  end.

Definition netloc_of (u : string) : option string :=
  if String.prefix "//" u then Some (netloc_chars (substring 2 (String.length u) u))
  else if String.prefix "http://" u then Some (netloc_chars (substring 7 (String.length u) u))
  else if String.prefix "https://" u then Some (netloc_chars (substring 8 (String.length u) u))
  else None.

(** [urlsplit]'s check [('[' in netloc) != (']' in netloc)] ->
    [ValueError('Invalid IPv6 URL')]; the fixtures' bases have no
    brackets. *)
Definition simple_urljoin_raises (base href : string) : bool :=
  match netloc_of href with
  | Some n => negb (Bool.eqb (contains "[" n) (contains "]" n))
  | None => false
  end.

Fixpoint lookup_page (pages : list (string * page)) (u : string) : option page :=
  match pages with
  | [] => None
  | (k, p) :: ps => if String.eqb k u then Some p else lookup_page ps u
  end.

Definition ok_page (d : doc) : page := mk_page 200 d 1000.

(** 2023-11-14T22:13:20Z *)
Definition NOW : Z := 1700000000.

(** An environment where every date string fails to parse, the machine
    clock is JST, and the network serves [pages]. *)
Definition env (pages : list (string * page)) : Env :=
  {| now := NOW; machine_offset := JST_OFFSET;
     date_parse := fun _ => Raise ValueError;
     strptime := fun _ _ => Raise ValueError;
     urljoin := simple_urljoin; urljoin_raises := simple_urljoin_raises;
     web := lookup_page pages;
     fda_extract_date := fun _ => NOW;
     fda_table_data := ret []; fda_guidance_urls := ret [];
     who_news_items := ret [];
     pmda_extract_summary := fun _ => "summary";
     pmda_extract_content := fun _ => "content";
     who_extract_summary := fun _ => "summary";
     who_extract_content := fun _ => "content" |}.

(** The same with the FDA locators returning the given rows and URLs, and
    the FDA detail-date extractor reading [dates]. *)
Definition fda_env (pages : list (string * page)) (rows : list (string * option Z))
  (urls : list string) (detail_date : doc -> Z) : Env :=
  {| now := NOW; machine_offset := JST_OFFSET;
     date_parse := fun _ => Raise ValueError;
     strptime := fun _ _ => Raise ValueError;
     urljoin := simple_urljoin; urljoin_raises := simple_urljoin_raises;
     web := lookup_page pages;
     fda_extract_date := detail_date;
     fda_table_data := (Ok rows, [Fetch "https://www.fda.gov/regulatory-information/search-fda-guidance-documents"; Sleep 3000]);
     fda_guidance_urls := (Ok urls, [Fetch "https://www.fda.gov/regulatory-information/search-fda-guidance-documents"; Sleep 3000]);
     who_news_items := ret [];
     pmda_extract_summary := fun _ => "summary";
     pmda_extract_content := fun _ => "content";
     who_extract_summary := fun _ => "summary";
     who_extract_content := fun _ => "content" |}.

(** The WHO environment with the given listing items. *)
Definition who_env (pages : list (string * page)) (items : list who_item) : Env :=
  {| now := NOW; machine_offset := JST_OFFSET;
     date_parse := fun _ => Raise ValueError;
     strptime := fun _ _ => Raise ValueError;
     urljoin := simple_urljoin; urljoin_raises := simple_urljoin_raises;
     web := lookup_page pages;
     fda_extract_date := fun _ => NOW;
     fda_table_data := ret []; fda_guidance_urls := ret [];
     who_news_items := (Ok items, [Fetch "https://www.who.int/news"; Sleep 3000]);
     pmda_extract_summary := fun _ => "summary";
     pmda_extract_content := fun _ => "content";
     who_extract_summary := fun _ => "summary";
     who_extract_content := fun _ => "content" |}.

(** EMA: a listing with one card linking to an error page titled
    "404 Page not found". *)
Definition ema_card : element :=
  node "div" [] [("class", "ecl-card")] [("a[href]", [anchor "/en/news/x" "x"])].
Definition ema_listing : doc := document [(".ecl-card", [ema_card])].
Definition ema_error_page : doc :=
  document [(".ecl-card__title a", [leaf "a" ["404 Page not found"] []])].
Definition ema_error_env : Env :=
  env [(EMA_NEWS_URL, ok_page ema_listing);
       (EMA_BASE_URL ++ "/en/news/x", ok_page ema_error_page)].

(** A date element whose text does not parse. *)
Definition undated_page : doc :=
  document [(".date", [leaf "span" ["sometime last week"] []])].

(** WHO: 21 listing items of unknown date (more than
    [MAX_ARTICLES_TO_PROCESS]). *)
Definition WHO_ITEM_URL := "https://www.who.int/news/item/measles-update".
Definition who_item_k : who_item :=
  mk_who_item WHO_ITEM_URL WHO.DATE_UNKNOWN "Measles outbreak update".
Definition who_page : doc :=
  document [("h1", [leaf "h1" ["Measles outbreak update"] []])].
Definition who_21_env : Env :=
  who_env [(WHO_ITEM_URL, ok_page who_page)] (repeat who_item_k 21).

(** FDA: guidance pages. *)
Definition FDA_DOC_1 :=
  "https://www.fda.gov/regulatory-information/search-fda-guidance-documents/doc-one".
Definition FDA_DOC_2 :=
  "https://www.fda.gov/regulatory-information/search-fda-guidance-documents/doc-two".
Definition fda_page_1 : doc :=
  document [("h1", [leaf "h1" ["Guidance Document One"] []])].
Definition fda_page_2 : doc :=
  document [("h1", [leaf "h1" ["Guidance Document Two"] []])].
Definition fda_pages : list (string * page) :=
  [(FDA_DOC_1, ok_page fda_page_1); (FDA_DOC_2, ok_page fda_page_2)].

(** 21 table rows dated now. *)
Definition fda_21_env : Env :=
  fda_env fda_pages (repeat (FDA_DOC_1, Some NOW) 21) [] (fun _ => NOW).

(** One table row dated five days ago; the fallback listing offers
    document two. Detail pages carry no date (the extractor's
    current-time fallback). *)
Definition FIVE_DAYS_AGO : Z := NOW - 5 * DAY.
Definition fda_fallback_env : Env :=
  fda_env fda_pages [(FDA_DOC_1, Some FIVE_DAYS_AGO)] [FDA_DOC_2] (fun _ => NOW).

(** The same table row, with the fallback listing offering the same URL
    again. *)
Definition fda_same_url_env : Env :=
  fda_env fda_pages [(FDA_DOC_1, Some FIVE_DAYS_AGO)] [FDA_DOC_1] (fun _ => NOW).

(** EMA listing where no card selector matches: five anchors, two off-site
    and three news links. *)
(** A listing whose second news link is [//[/en/news/x]: [urljoin] reads
    [\[] as the start of an unclosed IPv6 host. *)
Definition bad_href_listing : doc :=
  document [("a[href]",
    [anchor "/en/news/first-item" "first";
     anchor "//[/en/news/x" "broken";
     anchor "/en/news/third-item" "third"])].

Definition five_anchor_listing : doc :=
  document [("a[href]",
    [anchor "/en/news/first-item" "first";
     anchor "https://example.org/about" "off-site";
     anchor "/en/news/second-item" "second";
     anchor "https://example.org/contact" "off-site";
     anchor "/en/news/third-item" "third"])].

(** EMA content block: a 10-character and an 80-character paragraph. *)
Definition P10 := "Short text".
Definition P80 :=
  "The committee recommended approval of the medicine for adults with the diseases.".
Definition two_paragraph_page : doc :=
  document [(".ecl-content-block__body p", [leaf "p" [P10] []; leaf "p" [P80] []])].

(** PMDA: a recruitment (採用) item in [ul.list__news]. *)
Definition PMDA_RECRUIT_HREF := "/recruit/0001.html".
Definition recruit_link : element := anchor PMDA_RECRUIT_HREF "Recruitment notice 2025".
Definition recruit_li : element :=
  node "li" ["2025年10月7日"; "採用"; "Recruitment notice 2025"] []
    [("p.date", [leaf "p" ["2025年10月7日"] []]);
     ("p.category", [leaf "p" ["採用"] []]);
     ("p.title", [leaf "p" ["Recruitment notice 2025"] []]);
     ("a[href]", [recruit_link]); ("a", [recruit_link])].
Definition pmda_listing : doc :=
  document [("ul.list__news", [node "ul" [] [("class", "list__news")] [("li", [recruit_li])]]);
            ("ul li, ol li", [recruit_li])].
Definition pmda_recruit_page : doc :=
  document [("h1", [leaf "h1" ["Recruitment notice 2025"] []])].
Definition pmda_recruit_env : Env :=
  env [(PMDA.PMDA_NEWS_URL, ok_page pmda_listing);
       (PMDA.PMDA_BASE_URL ++ PMDA_RECRUIT_HREF, ok_page pmda_recruit_page)].

End Fixtures.

Import Fixtures.


(* ------------------------------------------------------------------ *)
(** ** Per-item outcomes and reference definitions *)

(** The result part of a computation (the trace dropped). *)
Definition run {A} (m : M A) : res A := fst m.

Fixpoint filter_some {A B} (f : A -> option B) (l : list A) : list B :=
  match l with
  | [] => []
  | x :: xs => match f x with
               | Some y => y :: filter_some f xs
               | None => filter_some f xs
               end
  end.

(** What one EMA candidate URL contributes to the result for [cutoff]. *)
Definition ema_outcome (E : Env) (cutoff : Z) (u : string) : option article :=
  match run (EMA.scrape_article E u) with
  | Ok (Some a) => if is_within_date_range (published_at a) cutoff then Some a else None
  | _ => None
  end.

(** What one FDA table row contributes. *)
Definition fda_row_outcome (E : Env) (cutoff : Z) (row : string * option Z) : option article :=
  let (u, table_date) := row in
  match table_date with
  | None =>
      match run (FDA.scrape_document E u) with
      | Ok (Some d) => if is_within_date_range (published_at d) cutoff then Some d else None
      | _ => None
      end
  | Some td =>
      if is_within_date_range td cutoff then
        match run (FDA.scrape_document E u) with
        | Ok (Some d) => Some (set_published td d)
        | _ => None
        end
      else None
  end.

(** What one FDA fallback URL contributes. *)
Definition fda_fb_outcome (E : Env) (cutoff : Z) (u : string) : option article :=
  match run (FDA.scrape_document E u) with
  | Ok (Some d) => if is_within_date_range (published_at d) cutoff then Some d else None
  | _ => None
  end.

(** What one PMDA listing item contributes. *)
Definition pmda_outcome (E : Env) (cutoff : Z) (it : PMDA.news_item) : option article :=
  match PMDA.parse_date_from_text E (PMDA.ni_date_text it) with
  | Raise _ => None
  | Ok parsed =>
      let published := match parsed with Some p => p | None => now E end in
      if is_within_date_range published cutoff then
        match run (PMDA.scrape_article E (PMDA.ni_url it)) with
        | Ok (Some d) => Some (article_of_detail d published (Some (PMDA.ni_category it)))
        | _ => None
        end
      else None
  end.

(** What one WHO listing item contributes. *)
Definition who_outcome (E : Env) (cutoff : Z) (it : who_item) : option article :=
  match WHO.parse_date_from_text E (wi_date_text it) with
  | Raise _ => None
  | Ok parsed =>
      let published := match parsed with Some p => p | None => now E end in
      if String.eqb (wi_date_text it) WHO.DATE_UNKNOWN
         || is_within_date_range published cutoff then
        match run (WHO.scrape_article E (wi_url it)) with
        | Ok (Some d) => Some (article_of_detail d published None)
        | _ => None
        end
      else None
  end.

(** The candidate URL sequence of EMA cards, in document order, before
    de-duplication. *)
Definition ema_card_url (E : Env) (card : element) : option string :=
  match EMA.card_link card with
  | Some link =>
      match get_attr link "href" with
      | Some href =>
          if nonempty href && contains "/en/news/" href
          then Some (urljoin E EMA_BASE_URL href) else None
      | None => None
      end
  | None => None
  end.

Definition ema_candidate_urls (E : Env) (cards : list element) : list string :=
  filter_some (ema_card_url E) cards.

(** Whether the [urljoin] of a card's kept [href] raises. *)
Definition ema_card_raises (E : Env) (card : element) : bool :=
  match EMA.card_link card with
  | Some link =>
      match get_attr link "href" with
      | Some href =>
          nonempty href && contains "/en/news/" href && urljoin_raises E EMA_BASE_URL href
      | None => false
      end
  | None => false
  end.

(** First occurrences of a sequence, in order: [x] is kept and every later
    copy of [x] dropped. *)
Fixpoint first_occurrences (l : list string) : list string :=
  match l with
  | [] => []
  | x :: xs => x :: remove string_dec x (first_occurrences xs)
  end.

(** The URLs fetched by a trace. *)
Definition fetches (t : list event) : list string :=
  filter_some (fun e => match e with Fetch u => Some u | Sleep _ => None end) t.

(* ------------------------------------------------------------------ *)
(** ** Case-insensitive search of a literal ([re.search(p, s, re.I)]) *)

Definition upper_ascii (c : ascii) : ascii :=
  let n := nat_of_ascii c in
  if Nat.leb 97 n && Nat.leb n 122 then ascii_of_nat (n - 32) else c.

Definition is_ascii_letter (c : ascii) : bool :=
  negb (Ascii.eqb (lower_ascii c) (upper_ascii c)).

(** The non-ASCII letters that [re.IGNORECASE] matches with an ASCII
    letter: U+0130 and U+0131 with [i], U+017F with [s], U+212A (the Kelvin
    sign) with [k]; in UTF-8. *)
Definition fold_extras (l : ascii) : list string :=
  if Ascii.eqb l "i"%char then [str2 196 176; str2 196 177]
  else if Ascii.eqb l "s"%char then [str2 197 191]
  else if Ascii.eqb l "k"%char then [str3 226 132 170]
  else [].

(** The characters one ASCII pattern character matches under [re.I]. *)
Definition ci_alts (c : ascii) : list string :=
  if is_ascii_letter c then
    ([String (lower_ascii c) EmptyString; String (upper_ascii c) EmptyString]
       ++ fold_extras (lower_ascii c))%list
  else [String c EmptyString].

(** Match the literal pattern [p] at the start of [s]; the rest of [s]. *)
Fixpoint ci_prefix (p s : string) : option string :=
  match p with
  | EmptyString => Some s
  | String c p' =>
      match match_alt (ci_alts c) s with
      | Some r => ci_prefix p' r
      | None => None
      end
  end.

(** The three pattern shapes the scrapers use: a literal [p], [p$] and
    [^p$] ([$] matches at the end or before a final newline). *)
Inductive rx : Type :=
| RLit (p : string)
| REnd (p : string)
| RWhole (p : string).

Definition at_end (r : string) : bool :=
  String.eqb r EmptyString || String.eqb r (String NEWLINE EmptyString).

Definition rx_at (x : rx) (s : string) : bool :=
  match x with
  | RLit p => match ci_prefix p s with Some _ => true | None => false end
  | REnd p | RWhole p => match ci_prefix p s with Some r => at_end r | None => false end
  end.

Fixpoint search_from (x : rx) (s : string) : bool :=
  rx_at x s || match s with
               | EmptyString => false
               | String _ s' => search_from x s'
               end.

(** [re.search(x, s, re.I) is not None] *)
Definition re_search_ci (x : rx) (s : string) : bool :=
  match x with
  | RWhole _ => rx_at x s
  | _ => search_from x s
  end.

(* ------------------------------------------------------------------ *)
(** ** FDA guidance locators ([fda_scraper_selenium.py]) *)

Module FDALocate.

Definition FDA_GUIDANCE_URL :=
  FDA_BASE_URL ++ "/regulatory-information/search-fda-guidance-documents".

Definition guidance_patterns : list rx :=
  map RLit
    ["/search-fda-guidance-documents/"; "/guidance-documents/";
     "/regulatory-information/search-fda-guidance-documents/";
     "/drugs/guidance-compliance-regulatory-information/";
     "/medical-devices/device-regulation-and-guidance/";
     "/food/guidance-documents-regulatory-information/";
     "/vaccines/guidance-documents/"; "/tobacco-products/guidance-documents/";
     "/radiation-emitting-products/guidance-documents/";
     "/biologics/guidance-documents/"; "/animal-veterinary/guidance-documents/"].

Definition exclude_patterns : list rx :=
  [RLit "/apology_objects/"; RLit "/user/"; RLit "/admin/"; RLit "/comment/";
   RLit "/filter/"; RLit "/node/"; RLit "/file/"; RLit "/taxonomy/"; REnd ".pdf";
   RLit "javascript:"; RLit "mailto:"; REnd "#"; RWhole "/"; RLit "/media/";
   RLit "/images/"; RLit "/css/"; RLit "/js/"; RLit "/sites/"; RLit "/themes/";
   RLit "/modules/"; RLit "/libraries/"; RLit "/core/"; RLit "/profiles/";
   REnd "/contact"; REnd "/about"; REnd "/news"; RWhole "/search"].

(** [_is_guidance_document_url(url)] *)
Definition is_guidance_document_url (url : string) : bool :=
  if negb (nonempty url) then false
  else if negb (existsb (fun p => re_search_ci p url) guidance_patterns) then false
  else if existsb (fun p => re_search_ci p url) exclude_patterns then false
  else true.

(** A loop appending to a Python list that an exception may cut short:
    the list as the loop left it, and the exception that stopped it. *)
Definition partial (A : Type) : Type := (list A * option exn)%type.

(** The body shared by the link loops: [href = link.get('href')]; when
    [href and accepted(href)], [urljoin(FDA_BASE_URL, href)] is appended
    unless already in [urls]; no [try] surrounds the [urljoin]. *)
Definition add_link (E : Env) (accepted : string -> bool) (link : element)
  (urls : list string) : partial string :=
  match get_attr link "href" with
  | Some href =>
      if nonempty href && accepted href then
        if urljoin_raises E FDA_BASE_URL href then (urls, Some ValueError) else
        let full_url := urljoin E FDA_BASE_URL href in
        (if mem_str full_url urls then urls else (urls ++ [full_url])%list, None)
      else (urls, None)
  | None => (urls, None)
  end.

Fixpoint add_links (E : Env) (accepted : string -> bool) (links : list element)
  (urls : list string) : partial string :=
  match links with
  | [] => (urls, None)
  | link :: rest =>
      match add_link E accepted link urls with
      | (urls', None) => add_links E accepted rest urls'
      | stopped => stopped
      end
  end.

Definition TABLE_ROWS := "table tr, tbody tr, .table tr".
Definition RESULT_LINKS :=
  "a[href*='/regulatory-information/search-fda-guidance-documents/']".

(** The link of the Summary cell of a table row. *)
Definition summary_link (row : element) : option element :=
  match select_one row "td:first-child, th:first-child" with
  | Some summary_cell => select_one summary_cell "a"
  | None => None
  end.

Fixpoint table_rows_loop (E : Env) (rows : list element) (urls : list string)
  : partial string :=
  match rows with
  | [] => (urls, None)
  | row :: rest =>
      let r :=
        match summary_link row with
        | Some link => add_link E is_guidance_document_url link urls
        | None => (urls, None)
        end in
      match r with
      | (urls', None) => table_rows_loop E rest urls'
      | stopped => stopped
      end
  end.

(** [href and self._is_guidance_document_url(href) and
    'search-fda-guidance-documents' in href] (after the [href] test). *)
Definition is_result_href (href : string) : bool :=
  is_guidance_document_url href && contains "search-fda-guidance-documents" href.

(** [_extract_urls_from_table(soup)]: a [urljoin] that raises ends the
    body in its [except], which returns [urls] as it stands (the
    result-link pass is then skipped). *)
Definition extract_urls_from_table (E : Env) (soup : doc) : list string :=
  match table_rows_loop E (select soup TABLE_ROWS) [] with
  | (urls, Some _) => urls
  | ([], None) => fst (add_links E is_result_href (select soup RESULT_LINKS) [])
  | (urls, None) => urls
  end.

Definition GUIDANCE_SELECTORS : list string :=
  ["a[href*='/guidance-documents/']"; "a[href*='/regulatory-information/']";
   ".lcds-section-nav__link"; "a[href*='guidance']"; "a[href*='document']"].

Fixpoint selector_loop (E : Env) (soup : doc) (sels : list string)
  (urls : list string) : partial string :=
  match sels with
  | [] => (urls, None)
  | sel :: rest =>
      match add_links E is_guidance_document_url (select soup sel) urls with
      | (urls', None) => selector_loop E soup rest urls'
      | stopped => stopped
      end
  end.

Definition CATEGORY_URLS : list string :=
  ["https://www.fda.gov/regulatory-information/search-fda-guidance-documents/search-general-and-cross-cutting-topics-guidance-documents";
   "https://www.fda.gov/regulatory-information/search-fda-guidance-documents/advisory-committee-guidance-documents";
   "https://www.fda.gov/regulatory-information/search-fda-guidance-documents/import-and-export-guidance-documents";
   "https://www.fda.gov/regulatory-information/search-fda-guidance-documents/cross-cutting-guidance-documents"].

Definition RECENT_GUIDANCE_URLS : list string :=
  ["https://www.fda.gov/regulatory-information/search-fda-guidance-documents/computer-software-assurance-production-and-quality-system-software-guidance-industry-and-food-and-drug";
   "https://www.fda.gov/regulatory-information/search-fda-guidance-documents/e20-adaptive-designs-clinical-trials";
   "https://www.fda.gov/regulatory-information/search-fda-guidance-documents/clinical-trial-endpoints-development-cancer-drugs-and-biologics-guidance-industry";
   "https://www.fda.gov/regulatory-information/search-fda-guidance-documents/real-world-evidence-program"].

Fixpoint add_categories (cats urls : list string) : list string :=
  match cats with
  | [] => urls
  | c :: rest => add_categories rest (if mem_str c urls then urls else (urls ++ [c])%list)
  end.

(** [_check_url_exists(url)]: a synchronous XHR [HEAD] run through the
    driver; [head_status url] is the status the script returns, [None]
    when [execute_script] raises. *)
Definition check_url_exists (head_status : string -> option Z) (url : string) : bool :=
  match head_status url with
  | Some st => Z.eqb st 200
  | None => false
  end.

Fixpoint add_recent (head_status : string -> option Z) (recents urls : list string)
  : list string :=
  match recents with
  | [] => urls
  | r :: rest =>
      add_recent head_status rest
        (if mem_str r urls then urls
         else if check_url_exists head_status r then (urls ++ [r])%list else urls)
  end.

(** [WebDriverWait(driver, 15).until(<body> present)] then [time.sleep(3)];
    the [TimeoutException] after 15 s is caught. *)
Definition wait_for_body (soup : doc) : M unit :=
  match select_one soup "body" with
  | Some _ => sleep 3000
  | None => sleep 15000
  end.

(** The URLs read off the search page: the table URLs, else the selector
    loop, whose exception (if any) is the function's. *)
Definition page_urls (E : Env) (soup : doc) : partial string :=
  match extract_urls_from_table E soup with
  | [] => selector_loop E soup GUIDANCE_SELECTORS []
  | table_urls => (table_urls, None)
  end.

(** [_get_guidance_urls()]; [driver.get] raises when the page cannot be
    loaded, and a [urljoin] of the selector loop raises into the same
    [except]. *)
Definition get_guidance_urls (E : Env) (head_status : string -> option Z)
  : M (list string) :=
  try_except
    (p <- session_get E FDA_GUIDANCE_URL ;;
     let soup := content p in
     wait_for_body soup ;;;
     match page_urls E soup with
     | (_, Some e) => raise e
     | (urls, None) =>
         let urls := add_categories CATEGORY_URLS urls in
         ret (add_recent head_status RECENT_GUIDANCE_URLS urls)
     end)
    (fun _ => ret []).







End FDALocate.

(* ------------------------------------------------------------------ *)
(** ** Summary and first paragraphs ([PMDAScraper] and [WHOScraper]) *)

(** [_extract_summary] and [_extract_content] are the same code in
    [pmda_scraper.py] and [who_scraper.py] except for the texts PMDA
    refuses; [keep] is that extra test. *)
Module PWText.

Definition META_SELECTORS : list string :=
  ["meta[name='description']"; "meta[property='og:description']"; "meta[name='keywords']"].

Definition SUMMARY_SELECTORS : list string :=
  [".summary"; ".lead"; ".excerpt"; ".abstract"; ".description";
   ".content p:first-of-type"; ".main-content p:first-of-type";
   "article p:first-of-type"; "main p:first-of-type"].

Definition NO_SUMMARY := "要約情報がありません。".

(** [summary[:300] + "..." if len(summary) > 300 else summary] *)
Definition cut_300 (summary : string) : string :=
  if Nat.ltb 300 (pylen summary) then (take_cp 300 summary ++ "...")%string else summary.

(** The meta-tag loop: [element.get('content', '').strip()]. *)
Fixpoint meta_summary (keep : string -> bool) (soup : doc) (sels : list string)
  : option string :=
  match sels with
  | [] => None
  | sel :: rest =>
      match select_one soup sel with
      | Some element =>
          let summary := py_strip (match get_attr element "content" with
                                   | Some c => c
                                   | None => EmptyString
                                   end) in
          if nonempty summary && Nat.ltb 20 (pylen summary) && keep summary
          then Some summary
          else meta_summary keep soup rest
      | None => meta_summary keep soup rest
      end
  end.

(** The content-selector loop. *)
Fixpoint selector_summary (keep : string -> bool) (soup : doc) (sels : list string)
  : option string :=
  match sels with
  | [] => None
  | sel :: rest =>
      match select_one soup sel with
      | Some element =>
          let summary := get_text element in
          if nonempty summary && Nat.ltb 20 (pylen summary) && keep summary
          then Some (cut_300 summary)
          else selector_summary keep soup rest
      | None => selector_summary keep soup rest
      end
  end.

(** The fallback over [soup.select('p')]. *)
Fixpoint paragraph_summary (keep : string -> bool) (ps : list element) : option string :=
  match ps with
  | [] => None
  | p :: rest =>
      let summary := get_text p in
      if nonempty summary && Nat.ltb 30 (pylen summary) && keep summary
      then Some (cut_300 summary)
      else paragraph_summary keep rest
  end.

(** [_extract_summary(soup)] *)
Definition extract_summary (keep : string -> bool) (soup : doc) : string :=
  match meta_summary keep soup META_SELECTORS with
  | Some s => s
  | None =>
      match selector_summary keep soup SUMMARY_SELECTORS with
      | Some s => s
      | None =>
          match paragraph_summary keep (select soup "p") with
          | Some s => s
          | None => NO_SUMMARY
          end
      end
  end.

Definition CONTENT_SELECTORS : list string :=
  [".content"; ".article-content"; ".news-content"; ".main-content"; ".body";
   "article"; "main"].

Fixpoint first_select_one (soup : doc) (sels : list string) : option element :=
  match sels with
  | [] => None
  | sel :: rest =>
      match select_one soup sel with
      | Some e => Some e
      | None => first_select_one soup rest
      end
  end.

(** The element the paragraphs are read from. *)
Definition content_root (soup : doc) : element :=
  match first_select_one soup CONTENT_SELECTORS with
  | Some e => e
  | None => soup
  end.

(** [content_text += text + "\n\n"] over the kept paragraphs. *)
Fixpoint paragraphs_text (keep : string -> bool) (ps : list element) : string :=
  match ps with
  | [] => EmptyString
  | p :: rest =>
      let text := get_text p in
      ((if nonempty text && Nat.ltb 30 (pylen text) && keep text
        then text ++ EMA.PARA_SEP else EmptyString) ++ paragraphs_text keep rest)%string
  end.

(** [s.split('\n')] *)
Fixpoint split_nl (s : string) : list string :=
  match s with
  | EmptyString => [EmptyString]
  | String c s' =>
      if Ascii.eqb c NEWLINE then EmptyString :: split_nl s'
      else match split_nl s' with
           | [] => [String c EmptyString]
           | x :: xs => String c x :: xs
           end
  end.

(** The line loop of the fallback, with its [break] after three lines. *)
Fixpoint first_lines (keep : string -> bool) (lines acc : list string) : list string :=
  match lines with
  | [] => acc
  | line :: rest =>
      let line := py_strip line in
      if nonempty line && Nat.ltb 30 (pylen line) && keep line then
        let acc' := (acc ++ [line])%list in
        if Nat.leb 3 (length acc') then acc' else first_lines keep rest acc'
      else first_lines keep rest acc
  end.

(** [_extract_content(soup)]; [all_text] is [soup.get_text()], the page
    text with its whitespace (the element model keeps stripped fragments
    only). *)
Definition extract_content (keep_p keep_line : string -> bool) (all_text : doc -> string)
  (soup : doc) : string :=
  let paragraphs := firstn MAX_PARAGRAPHS_PER_ARTICLE (select (content_root soup) "p") in
  let content_text := paragraphs_text keep_p paragraphs in
  let content_text :=
    if nonempty content_text then content_text
    else
      let c := join EMA.PARA_SEP (first_lines keep_line (split_nl (all_text soup)) []) in
      if Nat.ltb 500 (pylen c) then (take_cp 500 c ++ "...")%string else c in
  py_strip content_text.

(** PMDA's boilerplate texts. *)
Definition PMDA_ORG_BLURB :=
  "医薬品・医療機器・再生医療等製品の承認審査・安全対策・健康被害救済の3つの業務を行う組織".
Definition PMDA_NAME := "独立行政法人 医薬品医療機器総合機構".

Definition pmda_keep_summary (s : string) : bool := negb (contains PMDA_ORG_BLURB s).
Definition pmda_keep_paragraph (s : string) : bool :=
  negb (contains PMDA_ORG_BLURB s) && negb (contains PMDA_NAME s)
  && negb (contains "PMDAについて" s).
Definition pmda_keep_line (s : string) : bool :=
  negb (contains PMDA_ORG_BLURB s) && negb (contains PMDA_NAME s).

(** [PMDAScraper._extract_summary] / [_extract_content] *)
Definition pmda_extract_summary (soup : doc) : string := extract_summary pmda_keep_summary soup.
Definition pmda_extract_content (all_text : doc -> string) (soup : doc) : string :=
  extract_content pmda_keep_paragraph pmda_keep_line all_text soup.

(** [WHOScraper._extract_summary] / [_extract_content] *)
Definition who_extract_summary (soup : doc) : string := extract_summary (fun _ => true) soup.
Definition who_extract_content (all_text : doc -> string) (soup : doc) : string :=
  extract_content (fun _ => true) (fun _ => true) all_text soup.

End PWText.

(* ------------------------------------------------------------------ *)
(** ** Fixtures for the FDA locators *)

Module LocateFixtures.

Definition E6_HREF := "/regulatory-information/search-fda-guidance-documents/e6r3-good-clinical-practice-gcp".



(** A search page without a table: only result links. *)
Definition links_page : doc :=
  document
    [("body", [leaf "body" [] []]);
     (FDALocate.RESULT_LINKS, [anchor E6_HREF "E6(R3) Good Clinical Practice"])].

(** A search page without a table whose first guidance-documents link has
    an href that [urljoin] rejects (its netloc opens an IPv6 bracket it never
    closes). *)
Definition bad_href_page : doc :=
  document
    [("body", [leaf "body" [] []]);
     ("a[href*='/guidance-documents/']",
        [anchor "//[/guidance-documents/x" "broken"; anchor E6_HREF "E6(R3)"])].

Definition locate_env (d : doc) : Env :=
  env [(FDALocate.FDA_GUIDANCE_URL, ok_page d)].


End LocateFixtures.

(* ------------------------------------------------------------------ *)
(** ** Monad lemmas *)

Lemma run_bind {A B} (m : M A) (k : A -> M B) :
  run (bind m k) = match run m with Ok a => run (k a) | Raise e => Raise e end.
Proof.
  unfold run, bind. destruct m as [[a|e] t1]; simpl; [|reflexivity].
  destruct (k a); reflexivity.
Qed.

Lemma run_try {A} (m : M A) (h : exn -> M A) :
  run (try_except m h) = match run m with Ok a => Ok a | Raise e => run (h e) end.
Proof.
  unfold run, try_except. destruct m as [[a|e] t1]; simpl; [reflexivity|].
  destruct (h e); reflexivity.
Qed.

Lemma run_ret {A} (a : A) : run (ret a) = Ok a.
Proof. reflexivity. Qed.

Lemma run_sleep ms : run (sleep ms) = Ok tt.
Proof. reflexivity. Qed.

Lemma run_raise {A} e : run (@raise A e) = Raise e.
Proof. reflexivity. Qed.

(** A [try] whose handler returns a value never raises. *)
Lemma run_try_ret {A} (m : M A) (x : A) :
  exists a, run (try_except m (fun _ => ret x)) = Ok a.
Proof. rewrite run_try. destruct (run m); [eauto|]. rewrite run_ret. eauto. Qed.

Create Rewrite HintDb run_db.
#[local] Hint Rewrite @run_bind @run_try @run_ret @run_sleep @run_raise : run_db.

Lemma in_filter_some {A B} (f : A -> option B) l y :
  In y (filter_some f l) <-> exists x, In x l /\ f x = Some y.
Proof.
  induction l as [|x xs IH]; simpl.
  - split; [contradiction|intros (? & [] & _)].
  - destruct (f x) eqn:Hf; simpl; rewrite ?IH; split.
    + intros [<-|(x' & Hin & Hx')]; eauto.
    + intros (x' & [<-|Hin] & Hx'); [left; congruence|eauto].
    + intros (x' & Hin & Hx'); eauto.
    + intros (x' & [<-|Hin] & Hx'); [congruence|eauto].
Qed.

(* ------------------------------------------------------------------ *)
(** ** The per-item loops: one item's failure never reaches the others *)

Ltac loop_step :=
  repeat match goal with
  | |- context [ run (bind ?m ?k) ] => rewrite (run_bind m k)
  | |- context [ run (try_except ?m ?h) ] => rewrite (run_try m h)
  | |- context [ run (ret ?a) ] => rewrite (run_ret a)
  | |- context [ run (sleep ?ms) ] => rewrite (run_sleep ms)
  | |- context [ run (raise ?e) ] => rewrite (run_raise e)
  end.

Lemma ema_articles_loop_run E c us acc :
  run (EMA.articles_loop E c us acc) = Ok (acc ++ filter_some (ema_outcome E c) us)%list.
Proof.
  revert acc; induction us as [|u us IH]; intros acc; cbn [EMA.articles_loop filter_some].
  - rewrite app_nil_r; reflexivity.
  - loop_step. unfold ema_outcome at 1.
    destruct (run (EMA.scrape_article E u)) as [[a|]|e]; loop_step;
      rewrite ?IH; try reflexivity.
    destruct (is_within_date_range (published_at a) c);
      [rewrite <- app_assoc; reflexivity | reflexivity].
Qed.

Ltac loop_cases :=
  repeat (loop_step; cbv zeta;
    match goal with
    | |- context [ PMDA.parse_date_from_text ?E ?t ] =>
        destruct (PMDA.parse_date_from_text E t) as [?|?]
    | |- context [ WHO.parse_date_from_text ?E ?t ] =>
        destruct (WHO.parse_date_from_text E t) as [?|?]
    | |- context [ if ?b then _ else _ ] =>
        lazymatch type of b with bool => destruct b end
    | |- context [ match run ?m with Ok _ => _ | Raise _ => _ end ] =>
        destruct (run m) as [[?|]|?]
    end); loop_step.

Ltac loop_finish IH :=
  loop_cases; rewrite ?IH; rewrite <- ?app_assoc; reflexivity.

Lemma fda_table_loop_run E c rows acc :
  run (FDA.table_loop E c rows acc) = Ok (acc ++ filter_some (fda_row_outcome E c) rows)%list.
Proof.
  revert acc; induction rows as [|[u td] rows IH]; intros acc;
    cbn [FDA.table_loop filter_some].
  - rewrite app_nil_r; reflexivity.
  - unfold fda_row_outcome at 1. destruct td; loop_finish IH.
Qed.

Lemma fda_fallback_loop_run E c i n us acc :
  run (FDA.fallback_loop E c i n us acc) = Ok (acc ++ filter_some (fda_fb_outcome E c) us)%list.
Proof.
  revert i acc; induction us as [|u us IH]; intros i acc;
    cbn [FDA.fallback_loop filter_some].
  - rewrite app_nil_r; reflexivity.
  - unfold fda_fb_outcome at 1. loop_finish IH.
Qed.

Lemma pmda_news_loop_run E c i n items acc :
  run (PMDA.news_loop E c i n items acc) = Ok (acc ++ filter_some (pmda_outcome E c) items)%list.
Proof.
  revert i acc; induction items as [|it items IH]; intros i acc;
    cbn [PMDA.news_loop filter_some].
  - rewrite app_nil_r; reflexivity.
  - unfold pmda_outcome at 1. loop_finish IH.
Qed.

Lemma who_news_loop_run E c i n items acc :
  run (WHO.news_loop E c i n items acc) = Ok (acc ++ filter_some (who_outcome E c) items)%list.
Proof.
  revert i acc; induction items as [|it items IH]; intros i acc;
    cbn [WHO.news_loop filter_some].
  - rewrite app_nil_r; reflexivity.
  - unfold who_outcome at 1. loop_finish IH.
Qed.

(* ------------------------------------------------------------------ *)
(** ** The four entry points *)

Lemma ema_get_news_urls_ok E : exists urls, run (EMA.get_news_urls E) = Ok urls.
Proof. apply run_try_ret. Qed.

Lemma pmda_get_news_urls_ok E : exists items, run (PMDA.get_news_urls E) = Ok items.
Proof. apply run_try_ret. Qed.

Lemma ema_pipeline_run E d c :
  run (cutoff_aware E d) = Ok c ->
  exists urls, run (EMA.get_news_urls E) = Ok urls /\
    run (EMA.get_news_articles E d)
    = Ok (filter_some (ema_outcome E c) (firstn MAX_ARTICLES_TO_PROCESS urls)).
Proof.
  intros Hc. destruct (ema_get_news_urls_ok E) as [urls Hu].
  exists urls; split; [exact Hu|].
  unfold EMA.get_news_articles. loop_step. rewrite Hc. loop_step.
  rewrite Hu, ema_articles_loop_run. reflexivity.
Qed.

Lemma fda_pipeline_run E d c :
  run (cutoff_localized E d) = Ok c ->
  run (FDA.scrape_fda_guidance E d)
  = match run (fda_table_data E) with
    | Raise _ => Ok []
    | Ok rows =>
        match filter_some (fda_row_outcome E c) rows with
        | [] =>
            match run (fda_guidance_urls E) with
            | Ok [] | Raise _ => Ok []
            | Ok us => Ok (filter_some (fda_fb_outcome E c) (firstn MAX_ARTICLES_TO_PROCESS us))
            end
        | docs => Ok docs
        end
    end.
Proof.
  intros Hc. unfold FDA.scrape_fda_guidance. loop_step. rewrite Hc. loop_step.
  destruct (run (fda_table_data E)) as [rows|e]; [|reflexivity].
  loop_step. rewrite fda_table_loop_run. simpl.
  destruct (filter_some (fda_row_outcome E c) rows) as [|a docs]; [|reflexivity].
  loop_step. destruct (run (fda_guidance_urls E)) as [[|u us]|e]; [reflexivity| |reflexivity].
  rewrite fda_fallback_loop_run. reflexivity.
Qed.

Lemma pmda_pipeline_run E d c :
  run (cutoff_localized E d) = Ok c ->
  exists items, run (PMDA.get_news_urls E) = Ok items /\
    run (PMDA.scrape_pmda_news E d)
    = Ok (filter_some (pmda_outcome E c) (firstn MAX_ARTICLES_TO_PROCESS items)).
Proof.
  intros Hc. destruct (pmda_get_news_urls_ok E) as [items Hi].
  exists items; split; [exact Hi|].
  unfold PMDA.scrape_pmda_news. loop_step. rewrite Hc. loop_step. rewrite Hi.
  destruct items as [|it items]; [reflexivity|].
  rewrite pmda_news_loop_run. reflexivity.
Qed.

Lemma who_pipeline_run E d c :
  run (cutoff_localized E d) = Ok c ->
  run (WHO.scrape_who_news E d)
  = Ok (match run (who_news_items E) with
        | Ok items => filter_some (who_outcome E c) (firstn MAX_ARTICLES_TO_PROCESS items)
        | Raise _ => []
        end).
Proof.
  intros Hc. unfold WHO.scrape_who_news. loop_step. rewrite Hc. loop_step.
  destruct (run (who_news_items E)) as [[|it items]|e]; [reflexivity| |reflexivity].
  rewrite who_news_loop_run. reflexivity.
Qed.

Lemma cutoff_aware_run E d c :
  run (cutoff_aware E d) = Ok c -> c = now E - d * DAY /\ Z.abs d <= TIMEDELTA_MAX_DAYS.
Proof.
  unfold cutoff_aware. destruct (TIMEDELTA_MAX_DAYS <? Z.abs d) eqn:H1; [discriminate|].
  destruct (_ || _); [discriminate|]. intros Hc; inversion Hc. split; [reflexivity|lia].
Qed.

Lemma cutoff_localized_run E d c :
  run (cutoff_localized E d) = Ok c ->
  c = now E + machine_offset E - d * DAY - JST_OFFSET /\ Z.abs d <= TIMEDELTA_MAX_DAYS.
Proof.
  unfold cutoff_localized. destruct (TIMEDELTA_MAX_DAYS <? Z.abs d) eqn:H1; [discriminate|].
  destruct (_ || _); [discriminate|]. intros Hc; inversion Hc. split; [reflexivity|lia].
Qed.

(* ------------------------------------------------------------------ *)
(** ** Titles *)

(** The FDA, PMDA and WHO title loop only returns non-empty candidates free
    of error-page phrases. *)
Lemma checked_title_loop_clean soup sels t :
  checked_title_loop soup sels = Some t ->
  nonempty t = true /\ has_error_phrase t = false.
Proof.
  induction sels as [|s sels IH]; cbn [checked_title_loop]; [discriminate|].
  destruct (select_one soup s) as [el|]; [|exact IH].
  destruct (nonempty (title_text_of el) && Nat.ltb 10 (pylen (title_text_of el))) eqn:Hl;
    [|exact IH].
  destruct (has_error_phrase (title_text_of el)) eqn:He; [discriminate|].
  intros Ht; inversion Ht; subst. apply andb_true_iff in Hl. tauto.
Qed.

(** C1 (code bug): EMA's [_extract_title] has no error-phrase check, unlike
    its FDA, PMDA and WHO siblings. A listing whose only card links to a page
    titled "404 Page not found" makes [get_news_articles] emit one record
    with exactly that title, which contains the error phrase "404". *)
Theorem ema_emits_error_page_title :
  match run (EMA.get_news_articles ema_error_env 7) with
  | Ok [a] => title a = "404 Page not found" /\ has_error_phrase (title a) = true
  | _ => False
  end.
Proof. vm_compute. split; reflexivity. Qed.

(* ------------------------------------------------------------------ *)
(** ** Dates *)

Lemma who_try_formats_all_fail E t fmts :
  (forall f, In f fmts -> exists e, strptime E t f = Raise e) ->
  (exists e, date_parse E t = Raise e) ->
  exists e, WHO.try_formats E t fmts = Raise e.
Proof.
  intros Hf Hd. induction fmts as [|f fmts IH]; cbn [WHO.try_formats].
  - destruct Hd as [e He]. rewrite He. eauto.
  - destruct (Hf f (or_introl eq_refl)) as [e He]. rewrite He.
    destruct e; eauto. apply IH. intros g Hg. apply Hf. right; exact Hg.
Qed.

Lemma who_parse_date_never_raises E t : exists o, WHO.parse_date_from_text E t = Ok o.
Proof.
  unfold WHO.parse_date_from_text.
  destruct (_ || _); [eauto|]. destruct (WHO.try_formats _ _ _); eauto.
Qed.

Lemma ema_date_loop_some E soup sels : exists d, EMA.date_loop E soup sels = Ok (Some d).
Proof.
  induction sels as [|s sels IH]; cbn [EMA.date_loop]; [eauto|].
  destruct (select_one soup s) as [el|]; [|exact IH].
  destruct (date_parse E (EMA.date_text_of el)); [eauto|exact IH].
Qed.

Lemma ema_date_loop_now E soup sels :
  (forall s el, In s sels -> select_one soup s = Some el ->
     exists e, date_parse E (EMA.date_text_of el) = Raise e) ->
  EMA.date_loop E soup sels = Ok (Some (now E)).
Proof.
  induction sels as [|s sels IH]; intros H; cbn [EMA.date_loop]; [reflexivity|].
  assert (IH' : EMA.date_loop E soup sels = Ok (Some (now E))).
  { apply IH. intros s' el Hs Hel. exact (H s' el (or_intror Hs) Hel). }
  destruct (select_one soup s) as [el|] eqn:Hel; [|exact IH'].
  destruct (H s el (or_introl eq_refl) Hel) as [e He]. rewrite He. exact IH'.
Qed.

(** C2 (corrected). The claim fails for EMA: when no date selector's text
    parses, [_extract_date] does not return "unparseable" but the current
    time. *)
Lemma ema_extract_date_substitutes_now :
  EMA.extract_date (env []) undated_page = Ok (Some NOW) /\
  EMA.extract_date (env []) undated_page <> Ok None.
Proof. split; [vm_compute; reflexivity | vm_compute; discriminate]. Qed.

(** C2 (amended): WHO's [_parse_date_from_text] never raises, and when every
    [strptime] format and [dateutil] fail it returns [None]; EMA's
    [_extract_date] never raises and never returns [None]: when no date
    selector's text parses it returns the current time, its own documented
    fallback. *)
Theorem date_normalizer_outcomes :
  (forall E t, exists o, WHO.parse_date_from_text E t = Ok o) /\
  (forall E t,
     (forall f, In f WHO.DATE_FORMATS -> exists e, strptime E (py_strip t) f = Raise e) ->
     (exists e, date_parse E (py_strip t) = Raise e) ->
     WHO.parse_date_from_text E t = Ok None) /\
  (forall E soup, exists d, EMA.extract_date E soup = Ok (Some d)) /\
  (forall E soup,
     (forall s el, In s DATE_SELECTORS -> select_one soup s = Some el ->
        exists e, date_parse E (EMA.date_text_of el) = Raise e) ->
     EMA.extract_date E soup = Ok (Some (now E))).
Proof.
  split; [exact who_parse_date_never_raises|].
  split.
  - intros E t Hf Hd. unfold WHO.parse_date_from_text.
    destruct (_ || _); [reflexivity|].
    destruct (who_try_formats_all_fail E (py_strip t) WHO.DATE_FORMATS Hf Hd) as [e He].
    rewrite He. reflexivity.
  - split; [intros; apply ema_date_loop_some | intros; apply ema_date_loop_now; assumption].
Qed.

(** Witness: a garbage WHO date text and the undated EMA page. *)
Lemma date_normalizer_outcomes_witness :
  WHO.parse_date_from_text (env []) "sometime last week" = Ok None /\
  EMA.extract_date (env []) undated_page = Ok (Some (now (env []))).
Proof.
  split.
  - apply (proj1 (proj2 date_normalizer_outcomes)).
    + intros f _. exists ValueError. reflexivity.
    + exists ValueError. reflexivity.
  - apply (proj2 (proj2 (proj2 date_normalizer_outcomes))).
    intros s el Hs Hel. simpl in Hs.
    repeat destruct Hs as [<-|Hs]; try contradiction;
      vm_compute in Hel; try discriminate; inversion Hel; subst;
      exists ValueError; reflexivity.
Defined.

(* ------------------------------------------------------------------ *)
(** ** Totality and isolation of the pipelines *)

Lemma cutoff_aware_raise E d e : run (cutoff_aware E d) = Raise e -> e = OverflowError.
Proof.
  unfold cutoff_aware. destruct (_ <? _); [intros H; inversion H; reflexivity|].
  destruct (_ || _); [intros H; inversion H; reflexivity|discriminate].
Qed.

Lemma cutoff_localized_raise E d e : run (cutoff_localized E d) = Raise e -> e = OverflowError.
Proof.
  unfold cutoff_localized. destruct (_ <? _); [intros H; inversion H; reflexivity|].
  destruct (_ || _); [intros H; inversion H; reflexivity|discriminate].
Qed.

Lemma cutoff_aware_ui_range E d :
  1 <= d <= 30 -> DATETIME_MIN + 30 * DAY <= now E + JST_OFFSET <= DATETIME_MAX ->
  exists c, run (cutoff_aware E d) = Ok c.
Proof.
  intros Hd Hn. unfold cutoff_aware, TIMEDELTA_MAX_DAYS, DAY in *.
  destruct (999999999 <? Z.abs d) eqn:H1; [apply Z.ltb_lt in H1; lia|].
  destruct (_ <? DATETIME_MIN) eqn:H2; [apply Z.ltb_lt in H2; lia|].
  destruct (DATETIME_MAX <? _) eqn:H3; [apply Z.ltb_lt in H3; lia|].
  simpl. eauto.
Qed.

Lemma cutoff_localized_ui_range E d :
  1 <= d <= 30 -> DATETIME_MIN + 30 * DAY <= now E + machine_offset E <= DATETIME_MAX ->
  exists c, run (cutoff_localized E d) = Ok c.
Proof.
  intros Hd Hn. unfold cutoff_localized, TIMEDELTA_MAX_DAYS, DAY in *.
  destruct (999999999 <? Z.abs d) eqn:H1; [apply Z.ltb_lt in H1; lia|].
  destruct (_ <? DATETIME_MIN) eqn:H2; [apply Z.ltb_lt in H2; lia|].
  destruct (DATETIME_MAX <? _) eqn:H3; [apply Z.ltb_lt in H3; lia|].
  simpl. eauto.
Qed.

Lemma ema_total E d :
  (exists l, run (EMA.get_news_articles E d) = Ok l) \/
  (run (cutoff_aware E d) = Raise OverflowError /\
   run (EMA.get_news_articles E d) = Raise OverflowError).
Proof.
  destruct (run (cutoff_aware E d)) as [c|e] eqn:Hc.
  - left. destruct (ema_pipeline_run E d c Hc) as (urls & _ & Hr). eauto.
  - right. pose proof (cutoff_aware_raise E d e Hc); subst e. split; [reflexivity|].
    unfold EMA.get_news_articles. loop_step. rewrite Hc. reflexivity.
Qed.

Lemma fda_total E d :
  (exists l, run (FDA.scrape_fda_guidance E d) = Ok l) \/
  (run (cutoff_localized E d) = Raise OverflowError /\
   run (FDA.scrape_fda_guidance E d) = Raise OverflowError).
Proof.
  destruct (run (cutoff_localized E d)) as [c|e] eqn:Hc.
  - left. rewrite (fda_pipeline_run E d c Hc).
    destruct (run (fda_table_data E)); [|eauto].
    destruct (filter_some _ _); [|eauto].
    destruct (run (fda_guidance_urls E)) as [[|]|]; eauto.
  - right. pose proof (cutoff_localized_raise E d e Hc); subst e. split; [reflexivity|].
    unfold FDA.scrape_fda_guidance. loop_step. rewrite Hc. reflexivity.
Qed.

Lemma pmda_total E d :
  (exists l, run (PMDA.scrape_pmda_news E d) = Ok l) \/
  (run (cutoff_localized E d) = Raise OverflowError /\
   run (PMDA.scrape_pmda_news E d) = Raise OverflowError).
Proof.
  destruct (run (cutoff_localized E d)) as [c|e] eqn:Hc.
  - left. destruct (pmda_pipeline_run E d c Hc) as (items & _ & Hr). eauto.
  - right. pose proof (cutoff_localized_raise E d e Hc); subst e. split; [reflexivity|].
    unfold PMDA.scrape_pmda_news. loop_step. rewrite Hc. reflexivity.
Qed.

Lemma who_total E d :
  (exists l, run (WHO.scrape_who_news E d) = Ok l) \/
  (run (cutoff_localized E d) = Raise OverflowError /\
   run (WHO.scrape_who_news E d) = Raise OverflowError).
Proof.
  destruct (run (cutoff_localized E d)) as [c|e] eqn:Hc.
  - left. rewrite (who_pipeline_run E d c Hc). eauto.
  - right. pose proof (cutoff_localized_raise E d e Hc); subst e. split; [reflexivity|].
    unfold WHO.scrape_who_news. loop_step. rewrite Hc. reflexivity.
Qed.

Lemma ema_isolation E d c urls u a :
  run (cutoff_aware E d) = Ok c -> run (EMA.get_news_urls E) = Ok urls ->
  In u (firstn MAX_ARTICLES_TO_PROCESS urls) ->
  run (EMA.scrape_article E u) = Ok (Some a) ->
  is_within_date_range (published_at a) c = true ->
  exists l, run (EMA.get_news_articles E d) = Ok l /\ In a l.
Proof.
  intros Hc Hu Hin Hs Hw. destruct (ema_pipeline_run E d c Hc) as (urls' & Hu' & Hr).
  rewrite Hu in Hu'. inversion Hu'; subst urls'.
  eexists; split; [exact Hr|]. apply in_filter_some. exists u; split; [exact Hin|].
  unfold ema_outcome. rewrite Hs, Hw. reflexivity.
Qed.

Lemma fda_table_isolation E d c rows u td d0 :
  run (cutoff_localized E d) = Ok c -> run (fda_table_data E) = Ok rows ->
  In (u, Some td) rows -> is_within_date_range td c = true ->
  run (FDA.scrape_document E u) = Ok (Some d0) ->
  exists l, run (FDA.scrape_fda_guidance E d) = Ok l /\ In (set_published td d0) l.
Proof.
  intros Hc Hrows Hin Hw Hs. rewrite (fda_pipeline_run E d c Hc), Hrows.
  assert (Hk : In (set_published td d0) (filter_some (fda_row_outcome E c) rows)).
  { apply in_filter_some. exists (u, Some td); split; [exact Hin|].
    cbn. rewrite Hw, Hs. reflexivity. }
  destruct (filter_some (fda_row_outcome E c) rows); [contradiction|eauto].
Qed.

Lemma fda_undated_isolation E d c rows u d0 :
  run (cutoff_localized E d) = Ok c -> run (fda_table_data E) = Ok rows ->
  In (u, None) rows -> run (FDA.scrape_document E u) = Ok (Some d0) ->
  is_within_date_range (published_at d0) c = true ->
  exists l, run (FDA.scrape_fda_guidance E d) = Ok l /\ In d0 l.
Proof.
  intros Hc Hrows Hin Hs Hw. rewrite (fda_pipeline_run E d c Hc), Hrows.
  assert (Hk : In d0 (filter_some (fda_row_outcome E c) rows)).
  { apply in_filter_some. exists (u, None); split; [exact Hin|].
    cbn. rewrite Hs, Hw. reflexivity. }
  destruct (filter_some (fda_row_outcome E c) rows); [contradiction|eauto].
Qed.

Lemma fda_fallback_isolation E d c rows us u d0 :
  run (cutoff_localized E d) = Ok c -> run (fda_table_data E) = Ok rows ->
  run (FDA.table_loop E c rows []) = Ok [] ->
  run (fda_guidance_urls E) = Ok us -> In u (firstn MAX_ARTICLES_TO_PROCESS us) ->
  run (FDA.scrape_document E u) = Ok (Some d0) ->
  is_within_date_range (published_at d0) c = true ->
  exists l, run (FDA.scrape_fda_guidance E d) = Ok l /\ In d0 l.
Proof.
  intros Hc Hrows Ht Hus Hin Hs Hw. rewrite (fda_pipeline_run E d c Hc), Hrows.
  rewrite fda_table_loop_run in Ht. simpl in Ht. injection Ht as ->.
  rewrite Hus. destruct us as [|u1 us']; [destruct MAX_ARTICLES_TO_PROCESS; contradiction|].
  eexists; split; [reflexivity|]. apply in_filter_some. exists u; split; [exact Hin|].
  unfold fda_fb_outcome. rewrite Hs, Hw. reflexivity.
Qed.

Lemma pmda_isolation E d c items it parsed dt :
  run (cutoff_localized E d) = Ok c -> run (PMDA.get_news_urls E) = Ok items ->
  In it (firstn MAX_ARTICLES_TO_PROCESS items) ->
  PMDA.parse_date_from_text E (PMDA.ni_date_text it) = Ok parsed ->
  let published := match parsed with Some p => p | None => now E end in
  is_within_date_range published c = true ->
  run (PMDA.scrape_article E (PMDA.ni_url it)) = Ok (Some dt) ->
  exists l, run (PMDA.scrape_pmda_news E d) = Ok l /\
    In (article_of_detail dt published (Some (PMDA.ni_category it))) l.
Proof.
  intros Hc Hi Hin Hp published Hw Hs.
  destruct (pmda_pipeline_run E d c Hc) as (items' & Hi' & Hr).
  rewrite Hi in Hi'. inversion Hi'; subst items'.
  eexists; split; [exact Hr|]. apply in_filter_some. exists it; split; [exact Hin|].
  unfold pmda_outcome. rewrite Hp. cbv zeta. fold published. rewrite Hw, Hs. reflexivity.
Qed.

Lemma who_isolation E d c items it parsed dt :
  run (cutoff_localized E d) = Ok c -> run (who_news_items E) = Ok items ->
  In it (firstn MAX_ARTICLES_TO_PROCESS items) ->
  WHO.parse_date_from_text E (wi_date_text it) = Ok parsed ->
  let published := match parsed with Some p => p | None => now E end in
  String.eqb (wi_date_text it) WHO.DATE_UNKNOWN || is_within_date_range published c = true ->
  run (WHO.scrape_article E (wi_url it)) = Ok (Some dt) ->
  exists l, run (WHO.scrape_who_news E d) = Ok l /\ In (article_of_detail dt published None) l.
Proof.
  intros Hc Hi Hin Hp published Hw Hs.
  rewrite (who_pipeline_run E d c Hc), Hi.
  eexists; split; [reflexivity|]. apply in_filter_some. exists it; split; [exact Hin|].
  unfold who_outcome. rewrite Hp. cbv zeta. fold published. rewrite Hw, Hs. reflexivity.
Qed.

(** C3 (corrected). A [days_back] beyond [timedelta]'s range makes all four
    entry points raise: the cutoff is computed before (outside) their
    [try]. *)
Lemma huge_days_back_raises :
  run (EMA.get_news_articles (env []) 1000000000) = Raise OverflowError /\
  run (FDA.scrape_fda_guidance (fda_env [] [] [] (fun _ => NOW)) 1000000000)
    = Raise OverflowError /\
  run (PMDA.scrape_pmda_news (env []) 1000000000) = Raise OverflowError /\
  run (WHO.scrape_who_news (who_env [] []) 1000000000) = Raise OverflowError.
Proof. vm_compute. repeat split. Qed.

(** C3 (amended). Each entry point either returns a list or raises
    [OverflowError] from the cutoff computation, and only when that
    computation raises; for the UI's [days_back] range (1 to 30) and a clock
    away from [datetime]'s limits the cutoff is computed. Once it is, an
    in-cap item whose own processing succeeds and passes the date test is in
    the returned list, whatever every other item and request does. For FDA
    this holds for a table row with a table date (kept with that date), for
    an undated table row (kept with the detail page's date), and, when no
    table row gave a document, for an in-cap URL of the fallback listing. *)
Theorem pipelines_return_lists :
  (forall E d, (exists l, run (EMA.get_news_articles E d) = Ok l) \/
     (run (cutoff_aware E d) = Raise OverflowError /\
      run (EMA.get_news_articles E d) = Raise OverflowError)) /\
  (forall E d, (exists l, run (FDA.scrape_fda_guidance E d) = Ok l) \/
     (run (cutoff_localized E d) = Raise OverflowError /\
      run (FDA.scrape_fda_guidance E d) = Raise OverflowError)) /\
  (forall E d, (exists l, run (PMDA.scrape_pmda_news E d) = Ok l) \/
     (run (cutoff_localized E d) = Raise OverflowError /\
      run (PMDA.scrape_pmda_news E d) = Raise OverflowError)) /\
  (forall E d, (exists l, run (WHO.scrape_who_news E d) = Ok l) \/
     (run (cutoff_localized E d) = Raise OverflowError /\
      run (WHO.scrape_who_news E d) = Raise OverflowError)) /\
  (forall E d, 1 <= d <= 30 -> DATETIME_MIN + 30 * DAY <= now E + JST_OFFSET <= DATETIME_MAX ->
     exists c, run (cutoff_aware E d) = Ok c) /\
  (forall E d, 1 <= d <= 30 ->
     DATETIME_MIN + 30 * DAY <= now E + machine_offset E <= DATETIME_MAX ->
     exists c, run (cutoff_localized E d) = Ok c) /\
  (forall E d c urls u a,
     run (cutoff_aware E d) = Ok c -> run (EMA.get_news_urls E) = Ok urls ->
     In u (firstn MAX_ARTICLES_TO_PROCESS urls) ->
     run (EMA.scrape_article E u) = Ok (Some a) ->
     is_within_date_range (published_at a) c = true ->
     exists l, run (EMA.get_news_articles E d) = Ok l /\ In a l) /\
  (forall E d c rows u td d0,
     run (cutoff_localized E d) = Ok c -> run (fda_table_data E) = Ok rows ->
     In (u, Some td) rows -> is_within_date_range td c = true ->
     run (FDA.scrape_document E u) = Ok (Some d0) ->
     exists l, run (FDA.scrape_fda_guidance E d) = Ok l /\ In (set_published td d0) l) /\
  (forall E d c rows u d0,
     run (cutoff_localized E d) = Ok c -> run (fda_table_data E) = Ok rows ->
     In (u, None) rows -> run (FDA.scrape_document E u) = Ok (Some d0) ->
     is_within_date_range (published_at d0) c = true ->
     exists l, run (FDA.scrape_fda_guidance E d) = Ok l /\ In d0 l) /\
  (forall E d c rows us u d0,
     run (cutoff_localized E d) = Ok c -> run (fda_table_data E) = Ok rows ->
     run (FDA.table_loop E c rows []) = Ok [] ->
     run (fda_guidance_urls E) = Ok us -> In u (firstn MAX_ARTICLES_TO_PROCESS us) ->
     run (FDA.scrape_document E u) = Ok (Some d0) ->
     is_within_date_range (published_at d0) c = true ->
     exists l, run (FDA.scrape_fda_guidance E d) = Ok l /\ In d0 l) /\
  (forall E d c items it parsed dt,
     run (cutoff_localized E d) = Ok c -> run (PMDA.get_news_urls E) = Ok items ->
     In it (firstn MAX_ARTICLES_TO_PROCESS items) ->
     PMDA.parse_date_from_text E (PMDA.ni_date_text it) = Ok parsed ->
     let published := match parsed with Some p => p | None => now E end in
     is_within_date_range published c = true ->
     run (PMDA.scrape_article E (PMDA.ni_url it)) = Ok (Some dt) ->
     exists l, run (PMDA.scrape_pmda_news E d) = Ok l /\
       In (article_of_detail dt published (Some (PMDA.ni_category it))) l) /\
  (forall E d c items it parsed dt,
     run (cutoff_localized E d) = Ok c -> run (who_news_items E) = Ok items ->
     In it (firstn MAX_ARTICLES_TO_PROCESS items) ->
     WHO.parse_date_from_text E (wi_date_text it) = Ok parsed ->
     let published := match parsed with Some p => p | None => now E end in
     String.eqb (wi_date_text it) WHO.DATE_UNKNOWN
       || is_within_date_range published c = true ->
     run (WHO.scrape_article E (wi_url it)) = Ok (Some dt) ->
     exists l, run (WHO.scrape_who_news E d) = Ok l /\ In (article_of_detail dt published None) l).
Proof.
  split; [exact ema_total|]. split; [exact fda_total|].
  split; [exact pmda_total|]. split; [exact who_total|].
  split; [exact cutoff_aware_ui_range|]. split; [exact cutoff_localized_ui_range|].
  split; [exact ema_isolation|]. split; [exact fda_table_isolation|].
  split; [exact fda_undated_isolation|]. split; [exact fda_fallback_isolation|].
  split; [exact pmda_isolation|exact who_isolation].
Qed.

(** Witness: seven days back with the fixture clock, and the WHO fixture's
    first item kept. *)
Lemma pipelines_return_lists_witness :
  (exists c, run (cutoff_aware (env []) 7) = Ok c) /\
  (exists c, run (cutoff_localized (env []) 7) = Ok c) /\
  (exists l, run (WHO.scrape_who_news who_21_env 7) = Ok l /\
     In (article_of_detail
           (mk_detail "Measles outbreak update" WHO_ITEM_URL "summary" "content")
           NOW None) l).
Proof.
  destruct pipelines_return_lists as (_ & _ & _ & _ & Ha & Hl & _ & _ & _ & _ & _ & Hw).
  split; [apply Ha; vm_compute; split; discriminate|].
  split; [apply Hl; vm_compute; split; discriminate|].
  apply (Hw who_21_env 7 (now who_21_env - 7 * DAY) (repeat who_item_k 21) who_item_k None).
  - vm_compute. reflexivity.
  - reflexivity.
  - left. reflexivity.
  - reflexivity.
  - reflexivity.
  - vm_compute. reflexivity.
Defined.

(* ------------------------------------------------------------------ *)
(** ** Rate limiting and the item cap *)

(** C4 (code bug). EMA sleeps after every processed article, the last one
    included. WHO (as PMDA and the FDA fallback) guards its sleep with
    [i < len(news_items) - 1], the length before the cap of 20: with 21
    items, 20 are fetched and a sleep still follows the 20th. The FDA table
    path sleeps after every row, the last one included. *)
Theorem sleep_after_last_item :
  snd (EMA.get_news_articles ema_error_env 7)
    = [Fetch EMA_NEWS_URL; Fetch (EMA_BASE_URL ++ "/en/news/x");
       Sleep SLEEP_BETWEEN_REQUESTS_MS] /\
  length (filter (String.eqb WHO_ITEM_URL) (fetches (snd (WHO.scrape_who_news who_21_env 7))))
    = 20%nat /\
  last (snd (WHO.scrape_who_news who_21_env 7)) (Fetch EmptyString)
    = Sleep SLEEP_BETWEEN_REQUESTS_MS /\
  last (snd (FDA.scrape_fda_guidance fda_21_env 7)) (Fetch EmptyString)
    = Sleep FDA_CRAWL_DELAY_MS.
Proof. vm_compute. repeat split. Qed.

(** C5 (code bug). The FDA table-data path has no cap: 21 in-range table
    rows give 21 detail fetches and 21 records, while the fallback path and
    the other sources slice to [MAX_ARTICLES_TO_PROCESS] (20). *)
Theorem fda_table_path_uncapped :
  (exists l, run (FDA.scrape_fda_guidance fda_21_env 7) = Ok l /\ length l = 21%nat) /\
  length (filter (String.eqb FDA_DOC_1) (fetches (snd (FDA.scrape_fda_guidance fda_21_env 7))))
    = 21%nat.
Proof. split; [eexists; split; [vm_compute; reflexivity | reflexivity] | vm_compute; reflexivity]. Qed.

(* ------------------------------------------------------------------ *)
(** ** Monotonicity in [days_back] *)

Lemma within_antitone p c1 c2 :
  c2 <= c1 -> is_within_date_range p c1 = true -> is_within_date_range p c2 = true.
Proof. unfold is_within_date_range. rewrite !Z.leb_le. lia. Qed.

Lemma cutoff_aware_antitone E d1 d2 c1 c2 :
  d1 < d2 -> run (cutoff_aware E d1) = Ok c1 -> run (cutoff_aware E d2) = Ok c2 -> c2 < c1.
Proof.
  intros Hd H1 H2. apply cutoff_aware_run in H1, H2. unfold DAY in *. lia.
Qed.

Lemma cutoff_localized_antitone E d1 d2 c1 c2 :
  d1 < d2 -> run (cutoff_localized E d1) = Ok c1 -> run (cutoff_localized E d2) = Ok c2 ->
  c2 < c1.
Proof.
  intros Hd H1 H2. apply cutoff_localized_run in H1, H2. unfold DAY in *. lia.
Qed.

Lemma filter_some_incl {A B} (f g : A -> option B) l :
  (forall x y, f x = Some y -> g x = Some y) -> incl (filter_some f l) (filter_some g l).
Proof.
  intros Hfg y Hy. apply in_filter_some in Hy. destruct Hy as (x & Hx & Hfx).
  apply in_filter_some. eauto.
Qed.

Lemma ema_outcome_antitone E c1 c2 u a :
  c2 <= c1 -> ema_outcome E c1 u = Some a -> ema_outcome E c2 u = Some a.
Proof.
  unfold ema_outcome. intros Hc.
  destruct (run (EMA.scrape_article E u)) as [[b|]|]; try discriminate.
  destruct (is_within_date_range (published_at b) c1) eqn:Hw; [|discriminate].
  rewrite (within_antitone _ _ _ Hc Hw). exact (fun H => H).
Qed.

Lemma pmda_outcome_antitone E c1 c2 it a :
  c2 <= c1 -> pmda_outcome E c1 it = Some a -> pmda_outcome E c2 it = Some a.
Proof.
  unfold pmda_outcome. intros Hc.
  destruct (PMDA.parse_date_from_text E (PMDA.ni_date_text it)) as [parsed|]; [|discriminate].
  destruct (is_within_date_range _ c1) eqn:Hw; [|discriminate].
  rewrite (within_antitone _ _ _ Hc Hw). exact (fun H => H).
Qed.

Lemma who_outcome_antitone E c1 c2 it a :
  c2 <= c1 -> who_outcome E c1 it = Some a -> who_outcome E c2 it = Some a.
Proof.
  unfold who_outcome. intros Hc.
  destruct (WHO.parse_date_from_text E (wi_date_text it)) as [parsed|]; [|discriminate].
  destruct (String.eqb (wi_date_text it) WHO.DATE_UNKNOWN); [exact (fun H => H)|].
  simpl. destruct (is_within_date_range _ c1) eqn:Hw; [|discriminate].
  rewrite (within_antitone _ _ _ Hc Hw). exact (fun H => H).
Qed.

Lemma ema_ok_cutoff E d l :
  run (EMA.get_news_articles E d) = Ok l -> exists c, run (cutoff_aware E d) = Ok c.
Proof.
  destruct (run (cutoff_aware E d)) eqn:Hc; [eauto|].
  unfold EMA.get_news_articles. loop_step. rewrite Hc. discriminate.
Qed.

Lemma pmda_ok_cutoff E d l :
  run (PMDA.scrape_pmda_news E d) = Ok l -> exists c, run (cutoff_localized E d) = Ok c.
Proof.
  destruct (run (cutoff_localized E d)) eqn:Hc; [eauto|].
  unfold PMDA.scrape_pmda_news. loop_step. rewrite Hc. discriminate.
Qed.

Lemma who_ok_cutoff E d l :
  run (WHO.scrape_who_news E d) = Ok l -> exists c, run (cutoff_localized E d) = Ok c.
Proof.
  destruct (run (cutoff_localized E d)) eqn:Hc; [eauto|].
  unfold WHO.scrape_who_news. loop_step. rewrite Hc. discriminate.
Qed.

Lemma ema_monotone E d1 d2 l1 l2 :
  d1 < d2 -> run (EMA.get_news_articles E d1) = Ok l1 ->
  run (EMA.get_news_articles E d2) = Ok l2 -> incl l1 l2.
Proof.
  intros Hd H1 H2.
  destruct (ema_ok_cutoff E d1 l1 H1) as [c1 Hc1].
  destruct (ema_ok_cutoff E d2 l2 H2) as [c2 Hc2].
  pose proof (cutoff_aware_antitone E d1 d2 c1 c2 Hd Hc1 Hc2) as Hlt.
  destruct (ema_pipeline_run E d1 c1 Hc1) as (u1 & Hu1 & R1).
  destruct (ema_pipeline_run E d2 c2 Hc2) as (u2 & Hu2 & R2).
  rewrite Hu1 in Hu2. inversion Hu2; subst u2.
  rewrite R1 in H1; rewrite R2 in H2. inversion H1; inversion H2; subst.
  apply filter_some_incl. intros x y. apply ema_outcome_antitone. lia.
Qed.

Lemma pmda_monotone E d1 d2 l1 l2 :
  d1 < d2 -> run (PMDA.scrape_pmda_news E d1) = Ok l1 ->
  run (PMDA.scrape_pmda_news E d2) = Ok l2 -> incl l1 l2.
Proof.
  intros Hd H1 H2.
  destruct (pmda_ok_cutoff E d1 l1 H1) as [c1 Hc1].
  destruct (pmda_ok_cutoff E d2 l2 H2) as [c2 Hc2].
  pose proof (cutoff_localized_antitone E d1 d2 c1 c2 Hd Hc1 Hc2) as Hlt.
  destruct (pmda_pipeline_run E d1 c1 Hc1) as (u1 & Hu1 & R1).
  destruct (pmda_pipeline_run E d2 c2 Hc2) as (u2 & Hu2 & R2).
  rewrite Hu1 in Hu2. inversion Hu2; subst u2.
  rewrite R1 in H1; rewrite R2 in H2. inversion H1; inversion H2; subst.
  apply filter_some_incl. intros x y. apply pmda_outcome_antitone. lia.
Qed.

Lemma who_monotone E d1 d2 l1 l2 :
  d1 < d2 -> run (WHO.scrape_who_news E d1) = Ok l1 ->
  run (WHO.scrape_who_news E d2) = Ok l2 -> incl l1 l2.
Proof.
  intros Hd H1 H2.
  destruct (who_ok_cutoff E d1 l1 H1) as [c1 Hc1].
  destruct (who_ok_cutoff E d2 l2 H2) as [c2 Hc2].
  pose proof (cutoff_localized_antitone E d1 d2 c1 c2 Hd Hc1 Hc2) as Hlt.
  rewrite (who_pipeline_run E d1 c1 Hc1) in H1.
  rewrite (who_pipeline_run E d2 c2 Hc2) in H2.
  inversion H1; inversion H2; subst.
  destruct (run (who_news_items E)); [|apply incl_refl].
  apply filter_some_incl. intros x y. apply who_outcome_antitone. lia.
Qed.

(** C6 (corrected). The FDA retained set is not monotone in [days_back]:
    with one table row dated five days ago and a fallback listing offering
    document two, [days_back = 1] retains document two (the table path keeps
    nothing, so the fallback runs) while [days_back = 10] retains document
    one only (the table path keeps it, so the fallback does not run). *)
Lemma fda_wider_window_loses_record :
  (match run (FDA.scrape_fda_guidance fda_fallback_env 1) with
   | Ok l => map url l | Raise _ => [] end) = [FDA_DOC_2] /\
  (match run (FDA.scrape_fda_guidance fda_fallback_env 10) with
   | Ok l => map url l | Raise _ => [] end) = [FDA_DOC_1].
Proof. split; vm_compute; reflexivity. Qed.

(** C6 (amended). The retention test [published_at >= cutoff] is monotone:
    a later cutoff keeps less, and a larger [days_back] gives an earlier
    cutoff. For EMA, PMDA and WHO, run twice on the same environment (same
    clock, same fetched documents), the records returned for [d1 < d2] are
    among those returned for [d2]. FDA is excluded: its fallback listing runs
    only when the table path keeps nothing. *)
Theorem retention_monotone :
  (forall p c1 c2, c2 <= c1 ->
     is_within_date_range p c1 = true -> is_within_date_range p c2 = true) /\
  (forall E d1 d2 c1 c2, d1 < d2 ->
     run (cutoff_aware E d1) = Ok c1 -> run (cutoff_aware E d2) = Ok c2 -> c2 < c1) /\
  (forall E d1 d2 c1 c2, d1 < d2 ->
     run (cutoff_localized E d1) = Ok c1 -> run (cutoff_localized E d2) = Ok c2 -> c2 < c1) /\
  (forall E d1 d2 l1 l2, d1 < d2 -> run (EMA.get_news_articles E d1) = Ok l1 ->
     run (EMA.get_news_articles E d2) = Ok l2 -> incl l1 l2) /\
  (forall E d1 d2 l1 l2, d1 < d2 -> run (PMDA.scrape_pmda_news E d1) = Ok l1 ->
     run (PMDA.scrape_pmda_news E d2) = Ok l2 -> incl l1 l2) /\
  (forall E d1 d2 l1 l2, d1 < d2 -> run (WHO.scrape_who_news E d1) = Ok l1 ->
     run (WHO.scrape_who_news E d2) = Ok l2 -> incl l1 l2).
Proof.
  split; [exact within_antitone|]. split; [exact cutoff_aware_antitone|].
  split; [exact cutoff_localized_antitone|]. split; [exact ema_monotone|].
  split; [exact pmda_monotone|exact who_monotone].
Qed.

(** Witness: the WHO fixture with one and seven days back. *)
Lemma retention_monotone_witness :
  match run (WHO.scrape_who_news who_21_env 1), run (WHO.scrape_who_news who_21_env 7) with
  | Ok l1, Ok l2 => incl l1 l2
  | _, _ => False
  end.
Proof.
  destruct retention_monotone as (_ & _ & _ & _ & _ & Hw).
  destruct (run (WHO.scrape_who_news who_21_env 1)) as [l1|e1] eqn:H1;
    [|vm_compute in H1; discriminate].
  destruct (run (WHO.scrape_who_news who_21_env 7)) as [l2|e2] eqn:H2;
    [|vm_compute in H2; discriminate].
  exact (Hw who_21_env 1 7 l1 l2 eq_refl H1 H2).
Defined.

(* ------------------------------------------------------------------ *)
(** ** The EMA candidate locator *)

Lemma mem_str_In x l : mem_str x l = true <-> In x l.
Proof.
  unfold mem_str. rewrite existsb_exists. split.
  - intros (y & Hy & He). apply String.eqb_eq in He. subst. exact Hy.
  - intros H. exists x. split; [exact H|apply String.eqb_refl].
Qed.

Lemma mem_str_snoc a acc x : mem_str a (acc ++ [x]) = mem_str a acc || String.eqb a x.
Proof. unfold mem_str. rewrite existsb_app. simpl. rewrite orb_false_r. reflexivity. Qed.

Lemma filter_unseen_remove_seen acc x l :
  In x acc ->
  filter (fun y => negb (mem_str y acc)) (remove string_dec x l)
  = filter (fun y => negb (mem_str y acc)) l.
Proof.
  intros Hx. induction l as [|a l IH]; [reflexivity|]. cbn [remove].
  destruct (string_dec x a) as [<-|Hne].
  - cbn [filter]. apply mem_str_In in Hx. rewrite Hx. exact IH.
  - cbn [filter]. rewrite IH. reflexivity.
Qed.

Lemma filter_unseen_snoc acc x l :
  mem_str x acc = false ->
  filter (fun y => negb (mem_str y (acc ++ [x]))) l
  = filter (fun y => negb (mem_str y acc)) (remove string_dec x l).
Proof.
  intros Hx. induction l as [|a l IH]; [reflexivity|]. cbn [remove].
  destruct (string_dec x a) as [<-|Hne].
  - cbn [filter]. rewrite mem_str_snoc, String.eqb_refl, orb_true_r. exact IH.
  - cbn [filter]. rewrite mem_str_snoc.
    assert (Hax : String.eqb a x = false) by (apply String.eqb_neq; congruence).
    rewrite Hax, orb_false_r, IH. reflexivity.
Qed.

Lemma collect_urls_first_occurrences E cards acc :
  (forall c, In c cards -> ema_card_raises E c = false) ->
  EMA.collect_urls E cards acc
  = Ok (acc ++ filter (fun y => negb (mem_str y acc))
                      (first_occurrences (ema_candidate_urls E cards)))%list.
Proof.
  unfold ema_candidate_urls. revert acc.
  induction cards as [|c cards IH]; intros acc Hnr.
  - cbn. rewrite app_nil_r. reflexivity.
  - assert (Hr : forall c', In c' cards -> ema_card_raises E c' = false)
      by (intros c' Hc'; apply Hnr; right; exact Hc').
    specialize (Hnr c (or_introl eq_refl)). unfold ema_card_raises in Hnr.
    cbn [EMA.collect_urls filter_some]. unfold ema_card_url at 1.
    destruct (EMA.card_link c) as [link|]; [|apply IH, Hr].
    destruct (get_attr link "href") as [href|]; [|apply IH, Hr].
    destruct (nonempty href && contains "/en/news/" href); [|apply IH, Hr].
    cbn [andb] in Hnr. rewrite Hnr.
    cbn [first_occurrences filter].
    destruct (mem_str (urljoin E EMA_BASE_URL href) acc) eqn:Hm; cbn [negb].
    + rewrite IH, filter_unseen_remove_seen; [reflexivity|apply mem_str_In; exact Hm|exact Hr].
    + rewrite IH, filter_unseen_snoc by (exact Hm || exact Hr). rewrite <- app_assoc. reflexivity.
Qed.

Lemma collect_urls_raises E cards acc c :
  In c cards -> ema_card_raises E c = true -> EMA.collect_urls E cards acc = Raise ValueError.
Proof.
  revert acc. induction cards as [|c' cards IH]; intros acc Hin Hc; [contradiction|].
  cbn [EMA.collect_urls].
  destruct Hin as [->|Hin].
  - unfold ema_card_raises in Hc.
    destruct (EMA.card_link c) as [link|]; [|discriminate].
    destruct (get_attr link "href") as [href|]; [|discriminate].
    apply andb_true_iff in Hc as [Hk Hr]. rewrite Hk, Hr. reflexivity.
  - match goal with
    | |- match ?r with Ok _ => _ | Raise _ => _ end = _ =>
        destruct r as [urls'|e] eqn:Hr
    end.
    + apply IH; assumption.
    + revert Hr. destruct (EMA.card_link c') as [link|]; [|discriminate].
      destruct (get_attr link "href") as [href|]; [|discriminate].
      destruct (nonempty href && contains "/en/news/" href); [|discriminate].
      destruct (urljoin_raises E EMA_BASE_URL href); [|discriminate].
      congruence.
Qed.

Lemma first_occurrences_In x l : In x (first_occurrences l) <-> In x l.
Proof.
  induction l as [|a l IH]; cbn [first_occurrences In]; [tauto|]. split.
  - intros [<-|H]; [left; reflexivity|]. apply in_remove in H.
    right. apply IH. apply H.
  - intros [<-|H]; [left; reflexivity|].
    destruct (string_dec a x) as [<-|Hne]; [left; reflexivity|].
    right. apply in_in_remove; [congruence|apply IH; exact H].
Qed.

Lemma NoDup_remove_string y l : NoDup l -> NoDup (remove string_dec y l).
Proof.
  induction 1 as [|a l Ha Hl IH]; cbn [remove]; [constructor|].
  destruct (string_dec y a); [exact IH|].
  constructor; [|exact IH]. intros H. apply in_remove in H. tauto.
Qed.

Lemma first_occurrences_NoDup l : NoDup (first_occurrences l).
Proof.
  induction l as [|a l IH]; cbn [first_occurrences]; constructor.
  - apply remove_In.
  - apply NoDup_remove_string. exact IH.
Qed.

Lemma first_cards_nth soup sels k :
  (k < length sels)%nat ->
  (forall j, (j < k)%nat -> select soup (nth j sels EmptyString) = []) ->
  select soup (nth k sels EmptyString) <> [] ->
  EMA.first_cards soup sels = Some (select soup (nth k sels EmptyString)).
Proof.
  revert k; induction sels as [|s sels IH]; intros k Hk Hpre Hne; cbn in Hk; [lia|].
  destruct k as [|k]; cbn [EMA.first_cards nth] in *.
  - destruct (select soup s); [contradiction|reflexivity].
  - rewrite (Hpre 0%nat ltac:(lia)). apply IH; [lia| |exact Hne].
    intros j Hj. apply (Hpre (S j)). lia.
Qed.

Lemma first_cards_none soup sels :
  (forall s, In s sels -> select soup s = []) -> EMA.first_cards soup sels = None.
Proof.
  induction sels as [|s sels IH]; intros H; cbn [EMA.first_cards]; [reflexivity|].
  rewrite (H s (or_introl eq_refl)). apply IH. intros s' Hs'. apply H. right; exact Hs'.
Qed.

Lemma fallback_cards_In soup a :
  In a (EMA.fallback_cards soup) <->
  In a (select soup "a[href]") /\
  exists h, get_attr a "href" = Some h /\ contains "/en/news/" h = true.
Proof.
  unfold EMA.fallback_cards. rewrite filter_In.
  destruct (get_attr a "href") as [h|]; split.
  - intros [Hin Hc]. eauto.
  - intros [Hin (h' & Hh & Hc)]. inversion Hh; subst. auto.
  - intros [_ Hc]. discriminate.
  - intros [_ (h' & Hh & _)]. discriminate.
Qed.

(** C7 (corrected). EMA's [_get_news_urls] tries the card selectors in
    order and uses the matches of the first selector that has any, never
    merging later ones; when none matches it scans every [<a href>] and
    keeps those whose [href] contains ["/en/news/"]. When [urljoin]
    accepts every kept [href], the URL list is the first occurrences, in
    document order, of the absolute URLs of the chosen cards. When it
    raises on one, the card loop stops, and the [except] around the whole
    function returns an empty list. *)
Theorem ema_locator_first_strategy_dedup :
  (forall soup k, (k < length NEWS_CARD_SELECTORS)%nat ->
     (forall j, (j < k)%nat -> select soup (nth j NEWS_CARD_SELECTORS EmptyString) = []) ->
     select soup (nth k NEWS_CARD_SELECTORS EmptyString) <> [] ->
     EMA.cards_of soup = select soup (nth k NEWS_CARD_SELECTORS EmptyString)) /\
  (forall soup, (forall s, In s NEWS_CARD_SELECTORS -> select soup s = []) ->
     EMA.cards_of soup = EMA.fallback_cards soup) /\
  (forall soup a, In a (EMA.fallback_cards soup) <->
     In a (select soup "a[href]") /\
     exists h, get_attr a "href" = Some h /\ contains "/en/news/" h = true) /\
  (forall E soup, (forall c, In c (EMA.cards_of soup) -> ema_card_raises E c = false) ->
     EMA.urls_of_listing E soup
     = Ok (first_occurrences (ema_candidate_urls E (EMA.cards_of soup)))) /\
  (forall E soup c, In c (EMA.cards_of soup) -> ema_card_raises E c = true ->
     EMA.urls_of_listing E soup = Raise ValueError) /\
  (forall E soup l, EMA.urls_of_listing E soup = Ok l ->
     NoDup l /\ forall u, In u l <-> In u (ema_candidate_urls E (EMA.cards_of soup))) /\
  (forall E p, web E EMA_NEWS_URL = Some p -> status p < 400 ->
     run (EMA.get_news_urls E)
     = match EMA.urls_of_listing E (content p) with Ok l => Ok l | Raise _ => Ok [] end).
Proof.
  split.
  { intros soup k Hk Hpre Hne. unfold EMA.cards_of.
    rewrite (first_cards_nth soup NEWS_CARD_SELECTORS k Hk Hpre Hne). reflexivity. }
  split.
  { intros soup H. unfold EMA.cards_of. rewrite first_cards_none by exact H. reflexivity. }
  split; [exact fallback_cards_In|].
  assert (Hu : forall E soup,
    (forall c, In c (EMA.cards_of soup) -> ema_card_raises E c = false) ->
    EMA.urls_of_listing E soup = Ok (first_occurrences (ema_candidate_urls E (EMA.cards_of soup)))).
  { intros E soup Hnr. unfold EMA.urls_of_listing. rewrite collect_urls_first_occurrences by exact Hnr.
    cbn [app]. f_equal. induction (first_occurrences _) as [|x l IH]; [reflexivity|].
    cbn [filter]. rewrite IH. reflexivity. }
  assert (Hr : forall E soup c, In c (EMA.cards_of soup) -> ema_card_raises E c = true ->
     EMA.urls_of_listing E soup = Raise ValueError).
  { intros E soup c Hin Hc. exact (collect_urls_raises E _ [] c Hin Hc). }
  split; [exact Hu|]. split; [exact Hr|]. split.
  - intros E soup l Hl.
    destruct (existsb (ema_card_raises E) (EMA.cards_of soup)) eqn:He.
    + apply existsb_exists in He as (c & Hin & Hc). rewrite (Hr E soup c Hin Hc) in Hl.
      discriminate.
    + assert (Hnr : forall c, In c (EMA.cards_of soup) -> ema_card_raises E c = false).
      { intros c Hin. destruct (ema_card_raises E c) eqn:Hc; [|reflexivity].
        assert (Hx : existsb (ema_card_raises E) (EMA.cards_of soup) = true)
          by (apply existsb_exists; eauto).
        congruence. }
      rewrite (Hu E soup Hnr) in Hl. injection Hl as <-. split.
      * apply first_occurrences_NoDup.
      * intros u. apply first_occurrences_In.
  - intros E p Hw Hs.
    unfold EMA.get_news_urls, session_get_checked, try_except, bind, emit, of_res, run.
    rewrite Hw. replace (400 <=? status p) with false by lia. cbn.
    destruct (EMA.urls_of_listing E (content p)); reflexivity.
Qed.

(** Witness: a listing where no card selector matches, with five anchors
    of which three are EMA news links; the locator returns those three, in
    document order. *)
Lemma ema_locator_first_strategy_dedup_witness :
  EMA.cards_of five_anchor_listing = EMA.fallback_cards five_anchor_listing /\
  EMA.urls_of_listing (env []) five_anchor_listing
  = Ok [EMA_BASE_URL ++ "/en/news/first-item"; EMA_BASE_URL ++ "/en/news/second-item";
        EMA_BASE_URL ++ "/en/news/third-item"].
Proof.
  destruct ema_locator_first_strategy_dedup as (_ & Hf & _ & Hu & _).
  assert (Hc : EMA.cards_of five_anchor_listing = EMA.fallback_cards five_anchor_listing).
  { apply Hf. intros s Hs. simpl in Hs.
    repeat destruct Hs as [<-|Hs]; try contradiction; vm_compute; reflexivity. }
  split; [exact Hc|].
  rewrite (Hu (env []) five_anchor_listing).
  - vm_compute. reflexivity.
  - intros c Hin. rewrite Hc in Hin. vm_compute in Hin.
    repeat destruct Hin as [<-|Hin]; try contradiction; vm_compute; reflexivity.
Defined.

(** C7 (counterexample). No card selector matches a listing whose anchors
    link [/en/news/first-item], [//[/en/news/x] and [/en/news/third-item],
    so all three are candidates. The [urljoin] of the second raises
    [ValueError], and [_get_news_urls] returns an empty list rather than
    the two valid news URLs. *)
Lemma ema_bad_href_empties_listing :
  EMA.cards_of bad_href_listing = select bad_href_listing "a[href]" /\
  map (fun a => get_attr a "href") (EMA.cards_of bad_href_listing)
    = [Some "/en/news/first-item"; Some "//[/en/news/x"; Some "/en/news/third-item"] /\
  map (ema_card_raises (env [])) (EMA.cards_of bad_href_listing) = [false; true; false] /\
  run (EMA.get_news_urls (env [(EMA_NEWS_URL, ok_page bad_href_listing)])) = Ok [].
Proof. repeat split; vm_compute; reflexivity. Qed.

(* ------------------------------------------------------------------ *)
(** ** FDA table dates *)

Lemma fda_row_outcome_spec E c row a :
  fda_row_outcome E c row = Some a <->
  exists d0, run (FDA.scrape_document E (fst row)) = Ok (Some d0) /\
    match snd row with
    | Some t => is_within_date_range t c = true /\ a = set_published t d0
    | None => is_within_date_range (published_at d0) c = true /\ a = d0
    end.
Proof.
  destruct row as [u [t|]]; cbn [fda_row_outcome fst snd].
  - destruct (is_within_date_range t c) eqn:Hw.
    + destruct (run (FDA.scrape_document E u)) as [[d0|]|e]; split.
      * intros H; inversion H; subst. eauto.
      * intros (d1 & Hd & _ & ->). inversion Hd; subst. reflexivity.
      * discriminate.
      * intros (d1 & Hd & _). discriminate.
      * discriminate.
      * intros (d1 & Hd & _). discriminate.
    + split; [discriminate|]. intros (d1 & _ & H & _). discriminate.
  - destruct (run (FDA.scrape_document E u)) as [[d0|]|e]; split.
    + destruct (is_within_date_range (published_at d0) c) eqn:Hw; [|discriminate].
      intros H; inversion H; subst. eauto.
    + intros (d1 & Hd & Hw & ->). inversion Hd; subst. rewrite Hw. reflexivity.
    + discriminate.
    + intros (d1 & Hd & _). discriminate.
    + discriminate.
    + intros (d1 & Hd & _). discriminate.
Qed.

(** C8 (corrected). A document the table dated, but which reaches the
    output through the fallback listing, carries the detail page's date:
    with one table row dated five days ago, [days_back = 1] drops the row,
    the fallback runs and emits the same document dated now. *)
Lemma fda_fallback_ignores_table_date :
  run (fda_table_data fda_same_url_env) = Ok [(FDA_DOC_1, Some FIVE_DAYS_AGO)] /\
  (match run (FDA.scrape_fda_guidance fda_same_url_env 1) with
   | Ok l => map (fun a => (url a, published_at a)) l
   | Raise _ => [] end) = [(FDA_DOC_1, NOW)].
Proof. split; vm_compute; reflexivity. Qed.

(** C8 (amended). In the table-data path a row with a parsed table date is
    kept iff that date passes the cutoff, and then the record's
    [published_at] and [published_at_iso] are the table date; a row whose
    date did not parse ([None]) is kept iff the detail page's date passes
    the cutoff, with that date. When the table path keeps something that is
    the result; otherwise the records come from the fallback listing and
    carry the detail page's date, whatever the table said. *)
Theorem fda_table_date_override :
  (forall t d0, published_at (set_published t d0) = t /\ published_at_iso (set_published t d0) = t) /\
  (forall E d c rows,
     run (cutoff_localized E d) = Ok c -> run (fda_table_data E) = Ok rows ->
     exists docs, run (FDA.table_loop E c rows []) = Ok docs /\
     (forall a, In a docs <->
        exists u td d0, In (u, td) rows /\ run (FDA.scrape_document E u) = Ok (Some d0) /\
          match td with
          | Some t => is_within_date_range t c = true /\ a = set_published t d0
          | None => is_within_date_range (published_at d0) c = true /\ a = d0
          end) /\
     (docs <> [] -> run (FDA.scrape_fda_guidance E d) = Ok docs) /\
     (docs = [] -> forall out a, run (FDA.scrape_fda_guidance E d) = Ok out -> In a out ->
        exists u, run (FDA.scrape_document E u) = Ok (Some a) /\
          is_within_date_range (published_at a) c = true)).
Proof.
  split; [intros; split; reflexivity|].
  intros E d c rows Hc Hrows.
  exists (filter_some (fda_row_outcome E c) rows).
  split; [rewrite fda_table_loop_run; reflexivity|]. split.
  { intros a. rewrite in_filter_some. split.
    - intros ([u td] & Hin & Ho). apply fda_row_outcome_spec in Ho.
      destruct Ho as (d0 & Hd & Hm). exists u, td, d0. auto.
    - intros (u & td & d0 & Hin & Hd & Hm). exists (u, td). split; [exact Hin|].
      apply fda_row_outcome_spec. exists d0. auto. }
  rewrite (fda_pipeline_run E d c Hc), Hrows. split.
  - destruct (filter_some (fda_row_outcome E c) rows); [contradiction|reflexivity].
  - intros Hnil out a. rewrite Hnil.
    destruct (run (fda_guidance_urls E)) as [[|u us]|e];
      [intros H; inversion H; subst; contradiction| |intros H; inversion H; subst; contradiction].
    generalize (firstn MAX_ARTICLES_TO_PROCESS (u :: us)) as l.
    intros l H Hin. injection H as <-.
    apply in_filter_some in Hin. destruct Hin as (v & _ & Hv). unfold fda_fb_outcome in Hv.
    destruct (run (FDA.scrape_document E v)) as [[d0|]|] eqn:Hs; try discriminate.
    destruct (is_within_date_range (published_at d0) c) eqn:Hw; [|discriminate].
    inversion Hv; subst. eauto.
Qed.

(** Witness: ten days back on the fixture whose only table row is dated
    five days ago: the table path keeps it with the table date. *)
Lemma fda_table_date_override_witness :
  exists docs, run (FDA.scrape_fda_guidance fda_fallback_env 10) = Ok docs /\
    map published_at docs = [FIVE_DAYS_AGO].
Proof.
  destruct (proj2 fda_table_date_override fda_fallback_env 10 (NOW - 10 * DAY)
              [(FDA_DOC_1, Some FIVE_DAYS_AGO)])
    as (docs & Hd & _ & Hne & _); [vm_compute; reflexivity | vm_compute; reflexivity |].
  vm_compute in Hd. inversion Hd; subst docs.
  eexists; split; [apply Hne; discriminate | vm_compute; reflexivity].
Defined.

(* ------------------------------------------------------------------ *)
(** ** EMA content extraction *)

Lemma keep_paragraphs_long els : Forall (fun p => EMA.long_paragraph p = true) (EMA.keep_paragraphs els).
Proof.
  apply Forall_forall. intros p Hp. unfold EMA.keep_paragraphs in Hp.
  apply filter_In in Hp. apply Hp.
Qed.

Lemma content_loop_long soup sels :
  Forall (fun p => EMA.long_paragraph p = true) (EMA.content_loop soup sels).
Proof.
  induction sels as [|s sels IH]; cbn [EMA.content_loop]; [constructor|].
  destruct (select soup s) as [|e es]; [exact IH|apply keep_paragraphs_long].
Qed.

Lemma content_loop_nth soup sels k :
  (k < length sels)%nat ->
  (forall j, (j < k)%nat -> select soup (nth j sels EmptyString) = []) ->
  select soup (nth k sels EmptyString) <> [] ->
  EMA.content_loop soup sels = EMA.keep_paragraphs (select soup (nth k sels EmptyString)).
Proof.
  revert k; induction sels as [|s sels IH]; intros k Hk Hpre Hne; cbn in Hk; [lia|].
  destruct k as [|k]; cbn [EMA.content_loop nth] in *.
  - destruct (select soup s); [contradiction|reflexivity].
  - rewrite (Hpre 0%nat ltac:(lia)). apply IH; [lia| |exact Hne].
    intros j Hj. apply (Hpre (S j)). lia.
Qed.

Lemma keep_paragraphs_nil els :
  (forall el, In el (firstn MAX_PARAGRAPHS_PER_ARTICLE els) ->
     EMA.long_paragraph (get_text el) = false) ->
  EMA.keep_paragraphs els = [].
Proof.
  intros H. unfold EMA.keep_paragraphs.
  induction (firstn MAX_PARAGRAPHS_PER_ARTICLE els) as [|e l IH]; [reflexivity|].
  cbn [map filter]. rewrite (H e (or_introl eq_refl)). apply IH.
  intros el Hel. apply H. right; exact Hel.
Qed.

Lemma content_loop_nil soup sels :
  (forall s el, In s sels -> In el (firstn MAX_PARAGRAPHS_PER_ARTICLE (select soup s)) ->
     EMA.long_paragraph (get_text el) = false) ->
  EMA.content_loop soup sels = [].
Proof.
  induction sels as [|s sels IH]; intros H; cbn [EMA.content_loop]; [reflexivity|].
  destruct (select soup s) as [|e es] eqn:Hs.
  - apply IH. intros s' el Hs' Hel. exact (H s' el (or_intror Hs') Hel).
  - rewrite <- Hs. apply keep_paragraphs_nil. intros el Hel.
    exact (H s el (or_introl eq_refl) Hel).
Qed.

(** C9. EMA's [_extract_content] yields either the sentinel
    "Content not available" or the blank-line join of a non-empty list of
    paragraphs each longer than 50 code points. Those paragraphs are the
    kept ones among the first three elements of the first content selector
    that matches anything (or, when that keeps none, of the document's
    [<p>] elements); when no such element anywhere qualifies the result is
    the sentinel. *)
Theorem ema_content_threshold_join :
  (forall t, EMA.long_paragraph t = true <-> (50 < pylen t)%nat) /\
  (forall soup, EMA.extract_content soup = EMA.CONTENT_NOT_AVAILABLE \/
     exists ps, ps <> [] /\ Forall (fun p => EMA.long_paragraph p = true) ps /\
       EMA.extract_content soup = join EMA.PARA_SEP ps) /\
  (forall soup k, (k < length CONTENT_SELECTORS)%nat ->
     (forall j, (j < k)%nat -> select soup (nth j CONTENT_SELECTORS EmptyString) = []) ->
     select soup (nth k CONTENT_SELECTORS EmptyString) <> [] ->
     let kept := filter EMA.long_paragraph
                   (map get_text (firstn MAX_PARAGRAPHS_PER_ARTICLE
                                    (select soup (nth k CONTENT_SELECTORS EmptyString)))) in
     kept <> [] -> EMA.extract_content soup = join EMA.PARA_SEP kept) /\
  (forall soup,
     (forall s el, In s CONTENT_SELECTORS ->
        In el (firstn MAX_PARAGRAPHS_PER_ARTICLE (select soup s)) ->
        EMA.long_paragraph (get_text el) = false) ->
     (forall el, In el (firstn MAX_PARAGRAPHS_PER_ARTICLE (select soup "p")) ->
        EMA.long_paragraph (get_text el) = false) ->
     EMA.extract_content soup = EMA.CONTENT_NOT_AVAILABLE).
Proof.
  split.
  { intros t. unfold EMA.long_paragraph, nonempty. rewrite andb_true_iff, Nat.ltb_lt.
    split; [tauto|]. intros H. split; [|exact H].
    destruct (String.eqb t EmptyString) eqn:He; [|reflexivity].
    apply String.eqb_eq in He. subst. cbn in H. lia. }
  split.
  { intros soup. unfold EMA.extract_content.
    pose proof (content_loop_long soup CONTENT_SELECTORS) as Hl.
    destruct (EMA.content_loop soup CONTENT_SELECTORS) as [|p ps] eqn:Hc.
    - pose proof (keep_paragraphs_long (select soup "p")) as Hk.
      destruct (EMA.keep_paragraphs (select soup "p")) as [|q qs]; [left; reflexivity|].
      right. exists (q :: qs). split; [discriminate|]. split; [exact Hk|reflexivity].
    - right. exists (p :: ps). split; [discriminate|]. split; [exact Hl|reflexivity]. }
  split.
  { intros soup k Hk Hpre Hne kept Hkept. unfold EMA.extract_content.
    rewrite (content_loop_nth soup CONTENT_SELECTORS k Hk Hpre Hne).
    change (EMA.keep_paragraphs (select soup (nth k CONTENT_SELECTORS EmptyString))) with kept.
    destruct kept; [contradiction|reflexivity]. }
  intros soup Hs Hp. unfold EMA.extract_content.
  rewrite content_loop_nil by exact Hs. rewrite keep_paragraphs_nil by exact Hp.
  reflexivity.
Qed.

(** Witness: a content block with a 10- and an 80-code-point paragraph;
    only the 80-code-point one is kept. *)
Lemma ema_content_threshold_join_witness :
  pylen P10 = 10%nat /\ pylen P80 = 80%nat /\
  EMA.extract_content two_paragraph_page = P80.
Proof.
  split; [reflexivity|]. split; [reflexivity|].
  rewrite ((proj1 (proj2 (proj2 ema_content_threshold_join))) two_paragraph_page 0%nat);
    [reflexivity | vm_compute; lia | intros j Hj; lia | vm_compute; discriminate
    | vm_compute; discriminate].
Defined.

(* ------------------------------------------------------------------ *)
(** ** PMDA category exclusion *)

Lemma pmda_main_item_category E li n :
  PMDA.main_item E li = Some n ->
  PMDA.ni_category n = PMDA.text_of_opt (select_one li "p.category") /\
  mem_str (PMDA.ni_category n) PMDA.EXCLUDED_CATEGORIES = false.
Proof.
  unfold PMDA.main_item.
  destruct (select_one li "p.date"); [|discriminate].
  destruct (mem_str (PMDA.text_of_opt (select_one li "p.category")) PMDA.EXCLUDED_CATEGORIES)
    eqn:Hm; [discriminate|].
  destruct (select_one li "a[href]"); [|discriminate].
  destruct (get_attr e0 "href"); [|discriminate].
  destruct (_ && _); [|discriminate].
  destruct (urljoin_raises E PMDA.PMDA_BASE_URL _); [discriminate|].
  intros H; inversion H; subst. cbn. auto.
Qed.

Lemma pmda_main_item_excluded E li :
  mem_str (PMDA.text_of_opt (select_one li "p.category")) PMDA.EXCLUDED_CATEGORIES = true ->
  PMDA.main_item E li = None.
Proof.
  intros Hm. unfold PMDA.main_item.
  destruct (select_one li "p.date"); [|reflexivity]. rewrite Hm. reflexivity.
Qed.

Lemma pmda_main_items_In E lis n :
  In n (PMDA.main_items E lis) -> exists li, In li lis /\ PMDA.main_item E li = Some n.
Proof.
  induction lis as [|li lis IH]; cbn [PMDA.main_items]; [contradiction|].
  destruct (PMDA.main_item E li) as [m|] eqn:Hm.
  - intros Hin. destruct Hin as [Heq|Hin].
    + subst m. exists li. split; [left; reflexivity|exact Hm].
    + destruct (IH Hin) as (li' & Hl & He). exists li'. split; [right; exact Hl|exact He].
  - intros Hin. destruct (IH Hin) as (li' & Hl & He).
    exists li'. split; [right; exact Hl|exact He].
Qed.

Lemma pmda_fallback_links_other E t links n :
  In n (PMDA.fallback_links E t links) -> PMDA.ni_category n = PMDA.CATEGORY_OTHER.
Proof.
  induction links as [|l links IH]; cbn [PMDA.fallback_links]; [contradiction|].
  destruct (get_attr l "href"); [|exact IH].
  destruct (_ && _); [|exact IH].
  destruct (urljoin_raises E PMDA.PMDA_BASE_URL _); [contradiction|].
  intros [<-|H]; [reflexivity|exact (IH H)].
Qed.

Lemma pmda_listing_categories E soup n :
  In n (PMDA.items_of_listing E soup) ->
  ~ In (PMDA.ni_category n) PMDA.EXCLUDED_CATEGORIES.
Proof.
  unfold PMDA.items_of_listing.
  destruct (flat_map _ (select soup "ul.list__news")) as [|m ms] eqn:Hmain.
  - intros H. apply in_flat_map in H. destruct H as (li & _ & H).
    unfold PMDA.fallback_item in H. destruct (has_jp_date (get_text li)); [|contradiction].
    rewrite (pmda_fallback_links_other _ _ _ _ H). cbn. intuition discriminate.
  - rewrite <- Hmain. intros H. apply in_flat_map in H. destruct H as (ul & _ & H).
    apply pmda_main_items_In in H. destruct H as (li & _ & Hli).
    apply pmda_main_item_category in Hli. destruct Hli as [_ Hm].
    intros Hin. apply mem_str_In in Hin. congruence.
Qed.

Lemma pmda_get_news_urls_categories E items n :
  run (PMDA.get_news_urls E) = Ok items -> In n items ->
  ~ In (PMDA.ni_category n) PMDA.EXCLUDED_CATEGORIES.
Proof.
  unfold PMDA.get_news_urls. loop_step.
  destruct (run (session_get_checked E PMDA.PMDA_NEWS_URL)); loop_step;
    intros H Hn; inversion H; subst; [exact (pmda_listing_categories _ _ _ Hn)|contradiction].
Qed.

Lemma In_firstn_In {A} k (l : list A) x : In x (firstn k l) -> In x l.
Proof. intros H. rewrite <- (firstn_skipn k l). apply in_or_app. left; exact H. Qed.

Lemma pmda_outcome_category E c it a :
  pmda_outcome E c it = Some a -> category a = Some (PMDA.ni_category it).
Proof.
  unfold pmda_outcome.
  destruct (PMDA.parse_date_from_text E (PMDA.ni_date_text it)); [|discriminate].
  destruct (is_within_date_range _ c); [|discriminate].
  destruct (run (PMDA.scrape_article E (PMDA.ni_url it))) as [[dt|]|]; try discriminate.
  intros H; inversion H; subst. reflexivity.
Qed.

(** C10 (corrected). A recruitment (採用) item is not always excluded: the
    listing's only [ul.list__news] item is a 採用 one, so the primary path
    yields nothing, the general-list fallback re-scans the same [<li>]
    without reading its category, and the record is emitted under
    "その他". *)
Lemma pmda_recruit_item_emitted :
  PMDA.text_of_opt (select_one recruit_li "p.category") = "採用" /\
  (match run (PMDA.scrape_pmda_news pmda_recruit_env 7) with
   | Ok l => map (fun a => (url a, category a)) l
   | Raise _ => [] end)
  = [(PMDA.PMDA_BASE_URL ++ PMDA_RECRUIT_HREF, Some PMDA.CATEGORY_OTHER)].
Proof. split; vm_compute; reflexivity. Qed.

(** C10 (amended). The primary [ul.list__news] path drops every item whose
    category text is exactly 採用 or 調達, and when it yields any item it
    is the whole listing. When it yields none, the general-list fallback
    takes every dated list item's links without reading categories and
    labels them "その他", so a 採用/調達 item can then be emitted, under
    that label. No emitted record's category is 採用 or 調達. *)
Theorem pmda_category_exclusion :
  (forall E li,
     mem_str (PMDA.text_of_opt (select_one li "p.category")) PMDA.EXCLUDED_CATEGORIES = true ->
     PMDA.main_item E li = None) /\
  (forall E soup,
     let main := flat_map (fun l => PMDA.main_items E (select l "li")) (select soup "ul.list__news") in
     main <> [] -> PMDA.items_of_listing E soup = main) /\
  (forall E soup,
     flat_map (fun l => PMDA.main_items E (select l "li")) (select soup "ul.list__news") = [] ->
     PMDA.items_of_listing E soup = flat_map (PMDA.fallback_item E) (select soup "ul li, ol li") /\
     forall n, In n (PMDA.items_of_listing E soup) -> PMDA.ni_category n = PMDA.CATEGORY_OTHER) /\
  (forall E d l a, run (PMDA.scrape_pmda_news E d) = Ok l -> In a l ->
     exists cat, category a = Some cat /\ ~ In cat PMDA.EXCLUDED_CATEGORIES).
Proof.
  split; [exact pmda_main_item_excluded|].
  split.
  { intros E soup main Hne. unfold PMDA.items_of_listing. fold main.
    destruct main; [contradiction|reflexivity]. }
  split.
  { intros E soup Hnil. unfold PMDA.items_of_listing. rewrite Hnil. split; [reflexivity|].
    intros n Hn. apply in_flat_map in Hn. destruct Hn as (li & _ & Hn).
    unfold PMDA.fallback_item in Hn. destruct (has_jp_date (get_text li)); [|contradiction].
    exact (pmda_fallback_links_other _ _ _ _ Hn). }
  intros E d l a Hl Ha.
  destruct (pmda_ok_cutoff E d l Hl) as [c Hc].
  destruct (pmda_pipeline_run E d c Hc) as (items & Hi & R).
  rewrite R in Hl. injection Hl as <-.
  apply in_filter_some in Ha. destruct Ha as (it & Hit & Ho).
  exists (PMDA.ni_category it). split; [exact (pmda_outcome_category _ _ _ _ Ho)|].
  exact (pmda_get_news_urls_categories E items it Hi (In_firstn_In MAX_ARTICLES_TO_PROCESS items it Hit)).
Qed.

(** Witness: the recruitment item of the fixture listing is dropped by the
    primary path. *)
Lemma pmda_category_exclusion_witness : PMDA.main_item (env []) recruit_li = None.
Proof. apply (proj1 pmda_category_exclusion). vm_compute. reflexivity. Defined.

(* ------------------------------------------------------------------ *)
(** ** Case-insensitive search: lemmas *)

Lemma str_app_nil_r s : (s ++ EmptyString)%string = s.
Proof. induction s as [|c s IH]; simpl; [reflexivity|rewrite IH; reflexivity]. Qed.

Lemma str_app_assoc a b c : ((a ++ b) ++ c)%string = (a ++ (b ++ c))%string.
Proof. induction a as [|x a IH]; simpl; [reflexivity|rewrite IH; reflexivity]. Qed.

(** Every byte matches its ASCII-lowered form under [re.I]. *)
Lemma match_alt_lower c r : match_alt (ci_alts (lower_ascii c)) (String c r) = Some r.
Proof. destruct c as [[] [] [] [] [] [] [] []]; reflexivity. Qed.

Lemma ci_prefix_lower s t : ci_prefix (lower s) (s ++ t) = Some t.
Proof.
  induction s as [|c s IH]; [reflexivity|].
  cbn [lower append ci_prefix]. rewrite match_alt_lower. exact IH.
Qed.

Lemma lower_split u a' b' :
  lower u = (a' ++ b')%string ->
  exists a b, u = (a ++ b)%string /\ lower a = a' /\ lower b = b'.
Proof.
  revert u. induction a' as [|c a' IH]; intros u H.
  - exists EmptyString, u. auto.
  - destruct u as [|d u]; simpl in H; [discriminate|]. injection H as Hc Hu.
    destruct (IH u Hu) as (a & b & -> & Ha & Hb).
    exists (String d a), b. simpl. rewrite Hc, Ha. auto.
Qed.

Lemma prefix_app_ex n h : String.prefix n h = true -> exists b, h = (n ++ b)%string.
Proof.
  revert h. induction n as [|c n IH]; intros h H; [exists h; reflexivity|].
  destruct h as [|d h]; simpl in H; [discriminate|].
  destruct (ascii_dec c d) as [<-|]; [|discriminate].
  destruct (IH h H) as [b ->]. exists b. reflexivity.
Qed.

Lemma contains_app_ex n s :
  contains n s = true -> exists a b, s = (a ++ n ++ b)%string.
Proof.
  induction s as [|c s IH]; intros H; cbn [contains] in H.
  - destruct (String.prefix n EmptyString) eqn:Hp; [|discriminate].
    destruct (prefix_app_ex _ _ Hp) as [b Hb]. exists EmptyString, b. exact Hb.
  - destruct (String.prefix n (String c s)) eqn:Hp.
    + destruct (prefix_app_ex _ _ Hp) as [b Hb]. exists EmptyString, b. exact Hb.
    + destruct (IH H) as (a & b & ->). exists (String c a), b. reflexivity.
Qed.

Lemma ends_with_app_ex suf s : ends_with suf s = true -> exists a, s = (a ++ suf)%string.
Proof.
  induction s as [|c s IH]; intros H; cbn [ends_with] in H.
  - destruct (String.eqb suf EmptyString) eqn:He; [|discriminate].
    apply String.eqb_eq in He. subst. exists EmptyString. reflexivity.
  - destruct (String.eqb suf (String c s)) eqn:He.
    + apply String.eqb_eq in He. subst. exists EmptyString. reflexivity.
    + destruct (IH H) as [a ->]. exists (String c a). reflexivity.
Qed.

Lemma search_from_eq x s :
  search_from x s = rx_at x s || match s with
                                 | EmptyString => false
                                 | String _ s' => search_from x s'
                                 end.
Proof. destruct s; reflexivity. Qed.

Lemma search_from_app x a b : rx_at x b = true -> search_from x (a ++ b) = true.
Proof.
  intros H. induction a as [|c a IH]; simpl append; rewrite search_from_eq.
  - rewrite H. reflexivity.
  - rewrite IH. apply orb_true_r.
Qed.

Lemma search_from_split x s :
  search_from x s = true -> exists pre suf, s = (pre ++ suf)%string /\ rx_at x suf = true.
Proof.
  induction s as [|c s IH]; rewrite search_from_eq; intros H.
  - rewrite orb_false_r in H. exists EmptyString, EmptyString. auto.
  - apply orb_true_iff in H as [H|H].
    + exists EmptyString, (String c s). auto.
    + destruct (IH H) as (pre & suf & -> & Hs). exists (String c pre), suf. auto.
Qed.

Lemma strip_prefix_suffix a s r : strip_prefix a s = Some r -> exists pre, s = (pre ++ r)%string.
Proof.
  revert s. induction a as [|c a IH]; intros s H.
  - injection H as <-. exists EmptyString. reflexivity.
  - destruct s as [|d s]; simpl in H; [discriminate|].
    destruct (Ascii.eqb c d); [|discriminate].
    destruct (IH s H) as [pre ->]. exists (String d pre). reflexivity.
Qed.

Lemma match_alt_suffix alts s r : match_alt alts s = Some r -> exists pre, s = (pre ++ r)%string.
Proof.
  induction alts as [|a alts IH]; simpl; intros H; [discriminate|].
  destruct (strip_prefix a s) eqn:Hs.
  - injection H as <-. exact (strip_prefix_suffix _ _ _ Hs).
  - exact (IH H).
Qed.

Lemma ci_prefix_suffix p s r : ci_prefix p s = Some r -> exists pre, s = (pre ++ r)%string.
Proof.
  revert s. induction p as [|c p IH]; intros s H; simpl in H.
  - injection H as <-. exists EmptyString. reflexivity.
  - destruct (match_alt (ci_alts c) s) as [r1|] eqn:Hm; [|discriminate].
    destruct (match_alt_suffix _ _ _ Hm) as [pre1 ->].
    destruct (IH r1 H) as [pre2 ->]. exists (pre1 ++ pre2)%string.
    rewrite str_app_assoc. reflexivity.
Qed.

Lemma ci_prefix_app p q s :
  ci_prefix (p ++ q) s = match ci_prefix p s with Some r => ci_prefix q r | None => None end.
Proof.
  revert s. induction p as [|c p IH]; intros s; [reflexivity|].
  simpl. destruct (match_alt (ci_alts c) s); [apply IH|reflexivity].
Qed.

(* ------------------------------------------------------------------ *)
(** ** FDA locators: lemmas *)

Lemma excluded_rejects url x :
  In x FDALocate.exclude_patterns -> re_search_ci x url = true ->
  FDALocate.is_guidance_document_url url = false.
Proof.
  intros Hin Hx. unfold FDALocate.is_guidance_document_url.
  destruct (negb (nonempty url)); [reflexivity|].
  destruct (negb (existsb (fun p => re_search_ci p url) FDALocate.guidance_patterns));
    [reflexivity|].
  assert (existsb (fun p => re_search_ci p url) FDALocate.exclude_patterns = true) as ->
    by (apply existsb_exists; eauto).
  reflexivity.
Qed.

Lemma NoDup_snoc {A} (l : list A) x : NoDup l -> ~ In x l -> NoDup (l ++ [x]).
Proof.
  induction l as [|y l IH]; simpl; intros Hnd Hx.
  - constructor; [intros []|constructor].
  - inversion Hnd as [|? ? Hy Hl]; subst. constructor.
    + rewrite in_app_iff. intros [H|[H|[]]]; [contradiction|]. subst. tauto.
    + apply IH; tauto.
Qed.

(** The shape of one link step: [urls] unchanged, cut short by the
    [ValueError] of [urljoin], or extended by the joined URL of an accepted
    href that was not yet present. *)
Lemma add_link_cases E acc link urls :
  FDALocate.add_link E acc link urls = (urls, None) \/
  FDALocate.add_link E acc link urls = (urls, Some ValueError) \/
  exists href, get_attr link "href" = Some href /\ nonempty href = true /\
    acc href = true /\ ~ In (urljoin E FDA_BASE_URL href) urls /\
    FDALocate.add_link E acc link urls = ((urls ++ [urljoin E FDA_BASE_URL href])%list, None).
Proof.
  unfold FDALocate.add_link. destruct (get_attr link "href") as [href|]; [|auto].
  destruct (nonempty href) eqn:Hn; simpl; [|auto].
  destruct (acc href) eqn:Ha; [|auto].
  destruct (urljoin_raises E FDA_BASE_URL href); [auto|].
  destruct (mem_str (urljoin E FDA_BASE_URL href) urls) eqn:Hm; [auto|].
  right. right. exists href. repeat split; auto.
  intros Hin. apply mem_str_In in Hin. congruence.
Qed.

(** [add_links] only appends, keeps [urls] duplicate-free, and every URL
    it appends is the joined href of an accepted link of [links]. *)
Lemma add_links_spec E acc links urls :
  exists ext st, FDALocate.add_links E acc links urls = ((urls ++ ext)%list, st) /\
    (NoDup urls -> NoDup (urls ++ ext)%list) /\
    forall u, In u ext -> exists link href, In link links /\
      get_attr link "href" = Some href /\ acc href = true /\
      u = urljoin E FDA_BASE_URL href.
Proof.
  revert urls. induction links as [|link links IH]; intros urls; cbn [FDALocate.add_links].
  - exists [], None. rewrite app_nil_r. repeat split; auto. intros u [].
  - destruct (add_link_cases E acc link urls)
      as [Heq|[Heq|(href & Hh & _ & Ha & Hni & Heq)]]; rewrite Heq.
    + destruct (IH urls) as (ext & st & -> & Hnd & Hsrc). exists ext, st. repeat split; auto.
      intros u Hu. destruct (Hsrc u Hu) as (l' & h & ? & ? & ? & ?). exists l', h. simpl; auto.
    + exists [], (Some ValueError). rewrite app_nil_r. repeat split; auto. intros u [].
    + destruct (IH (urls ++ [urljoin E FDA_BASE_URL href])%list)
        as (ext & st & -> & Hnd & Hsrc).
      exists (urljoin E FDA_BASE_URL href :: ext), st. rewrite <- app_assoc in *. simpl in *.
      split; [reflexivity|split].
      * intros H. apply Hnd. apply NoDup_snoc; assumption.
      * intros u [<-|Hu]; [exists link, href; auto|].
        destruct (Hsrc u Hu) as (l' & h & ? & ? & ? & ?). exists l', h. auto.
Qed.

Lemma table_rows_loop_spec E rows urls :
  exists ext st, FDALocate.table_rows_loop E rows urls = ((urls ++ ext)%list, st) /\
    (NoDup urls -> NoDup (urls ++ ext)%list) /\
    forall u, In u ext -> exists row link href, In row rows /\
      FDALocate.summary_link row = Some link /\ get_attr link "href" = Some href /\
      FDALocate.is_guidance_document_url href = true /\ u = urljoin E FDA_BASE_URL href.
Proof.
  revert urls. induction rows as [|row rows IH]; intros urls; cbn [FDALocate.table_rows_loop].
  - exists [], None. rewrite app_nil_r. repeat split; auto. intros u [].
  - destruct (FDALocate.summary_link row) as [link|] eqn:Hl.
    + destruct (add_link_cases E FDALocate.is_guidance_document_url link urls)
        as [Heq|[Heq|(href & Hh & _ & Ha & Hni & Heq)]]; rewrite Heq.
      * destruct (IH urls) as (ext & st & -> & Hnd & Hsrc). exists ext, st.
        repeat split; auto.
        intros u Hu. destruct (Hsrc u Hu) as (r & l' & h & ? & ? & ? & ? & ?).
        exists r, l', h. simpl; auto.
      * exists [], (Some ValueError). rewrite app_nil_r. repeat split; auto. intros u [].
      * destruct (IH (urls ++ [urljoin E FDA_BASE_URL href])%list)
          as (ext & st & -> & Hnd & Hsrc).
        exists (urljoin E FDA_BASE_URL href :: ext), st. rewrite <- app_assoc in *. simpl in *.
        split; [reflexivity|split].
        -- intros H. apply Hnd. apply NoDup_snoc; assumption.
        -- intros u [<-|Hu]; [exists row, link, href; auto|].
           destruct (Hsrc u Hu) as (r & l' & h & ? & ? & ? & ? & ?). exists r, l', h. auto.
    + destruct (IH urls) as (ext & st & -> & Hnd & Hsrc). exists ext, st. repeat split; auto.
      intros u Hu. destruct (Hsrc u Hu) as (r & l' & h & ? & ? & ? & ? & ?).
      exists r, l', h. simpl; auto.
Qed.

Lemma extract_urls_from_table_spec E soup :
  NoDup (FDALocate.extract_urls_from_table E soup) /\
  forall u, In u (FDALocate.extract_urls_from_table E soup) ->
    exists link href, get_attr link "href" = Some href /\
      FDALocate.is_guidance_document_url href = true /\ u = urljoin E FDA_BASE_URL href /\
      ((exists row, In row (select soup FDALocate.TABLE_ROWS) /\
                    FDALocate.summary_link row = Some link) \/
       (FDALocate.table_rows_loop E (select soup FDALocate.TABLE_ROWS) [] = ([], None) /\
        In link (select soup FDALocate.RESULT_LINKS) /\
        contains "search-fda-guidance-documents" href = true)).
Proof.
  unfold FDALocate.extract_urls_from_table.
  destruct (table_rows_loop_spec E (select soup FDALocate.TABLE_ROWS) [])
    as (ext & st & Heq & Hnd & Hsrc).
  simpl in Heq, Hnd.
  assert (Hrows : NoDup ext /\ forall u, In u ext ->
    exists link href, get_attr link "href" = Some href /\
      FDALocate.is_guidance_document_url href = true /\ u = urljoin E FDA_BASE_URL href /\
      ((exists row, In row (select soup FDALocate.TABLE_ROWS) /\
                    FDALocate.summary_link row = Some link) \/
       (FDALocate.table_rows_loop E (select soup FDALocate.TABLE_ROWS) [] = ([], None) /\
        In link (select soup FDALocate.RESULT_LINKS) /\
        contains "search-fda-guidance-documents" href = true))).
  { split; [apply Hnd; constructor|].
    intros u Hu. destruct (Hsrc u Hu) as (row & link & href & Hr & Hl & Hh & Hg & ->).
    exists link, href. repeat split; eauto. }
  rewrite Heq in Hrows |- *.
  destruct st as [e|]; [destruct ext; exact Hrows|].
  destruct ext as [|x ext']; [|exact Hrows].
  destruct (add_links_spec E FDALocate.is_result_href (select soup FDALocate.RESULT_LINKS) [])
    as (ext2 & st2 & -> & Hnd2 & Hsrc2).
  simpl in *. split; [apply Hnd2; constructor|].
  intros u Hu. destruct (Hsrc2 u Hu) as (link & href & Hin & Hh & Ha & ->).
  unfold FDALocate.is_result_href in Ha. apply andb_true_iff in Ha as [Hg Hc].
  exists link, href. repeat split; auto.
Qed.

Lemma selector_loop_spec E soup sels urls :
  exists ext st, FDALocate.selector_loop E soup sels urls = ((urls ++ ext)%list, st) /\
    (NoDup urls -> NoDup (urls ++ ext)%list) /\
    forall u, In u ext -> exists href,
      FDALocate.is_guidance_document_url href = true /\ u = urljoin E FDA_BASE_URL href.
Proof.
  revert urls. induction sels as [|sel sels IH]; intros urls; cbn [FDALocate.selector_loop].
  - exists [], None. rewrite app_nil_r. repeat split; auto. intros u [].
  - destruct (add_links_spec E FDALocate.is_guidance_document_url (select soup sel) urls)
      as (ext1 & st1 & -> & Hnd1 & Hsrc1).
    assert (Hsrc1' : forall u, In u ext1 -> exists href,
      FDALocate.is_guidance_document_url href = true /\ u = urljoin E FDA_BASE_URL href).
    { intros u Hu. destruct (Hsrc1 u Hu) as (l' & h & _ & _ & ? & ?). eauto. }
    destruct st1 as [e|].
    + exists ext1, (Some e). auto.
    + destruct (IH (urls ++ ext1)%list) as (ext2 & st2 & -> & Hnd2 & Hsrc2).
      exists (ext1 ++ ext2)%list, st2. rewrite app_assoc. repeat split; auto.
      intros u Hu. apply in_app_iff in Hu as [Hu|Hu]; [exact (Hsrc1' u Hu)|exact (Hsrc2 u Hu)].
Qed.

Lemma page_urls_spec E soup :
  NoDup (fst (FDALocate.page_urls E soup)) /\
  forall u, In u (fst (FDALocate.page_urls E soup)) -> exists href,
    FDALocate.is_guidance_document_url href = true /\ u = urljoin E FDA_BASE_URL href.
Proof.
  unfold FDALocate.page_urls.
  destruct (extract_urls_from_table_spec E soup) as [Hnd Hsrc].
  destruct (FDALocate.extract_urls_from_table E soup) as [|x xs] eqn:Hx.
  - destruct (selector_loop_spec E soup FDALocate.GUIDANCE_SELECTORS [])
      as (ext & st & -> & Hnd2 & Hsrc2).
    simpl in *. split; [apply Hnd2; constructor|exact Hsrc2].
  - split; [exact Hnd|]. intros u Hu.
    destruct (Hsrc u Hu) as (link & href & _ & Hg & -> & _). eauto.
Qed.

Lemma add_categories_spec cats urls :
  exists ext, FDALocate.add_categories cats urls = (urls ++ ext)%list /\
    (NoDup urls -> NoDup (urls ++ ext)%list) /\
    incl cats (urls ++ ext)%list /\ incl ext cats.
Proof.
  revert urls. induction cats as [|c cats IH]; intros urls; simpl.
  - exists []. rewrite app_nil_r. repeat split; auto; intros u [].
  - destruct (mem_str c urls) eqn:Hm.
    + destruct (IH urls) as (ext & -> & Hnd & Hi & He). exists ext. repeat split; auto.
      * intros u [<-|Hu]; [|auto]. apply in_or_app. left. apply mem_str_In. exact Hm.
      * intros u Hu. right. auto.
    + destruct (IH (urls ++ [c])%list) as (ext & -> & Hnd & Hi & He).
      exists (c :: ext). rewrite <- app_assoc in *. simpl in *. repeat split.
      * intros H. apply Hnd. apply NoDup_snoc; [exact H|].
        intros Hin. apply mem_str_In in Hin. congruence.
      * intros u [<-|Hu]; [|auto]. apply in_or_app. right. left. reflexivity.
      * intros u [<-|Hu]; [left; reflexivity|right; auto].
Qed.

Lemma check_url_exists_200 hs u :
  FDALocate.check_url_exists hs u = true -> hs u = Some 200%Z.
Proof.
  unfold FDALocate.check_url_exists. destruct (hs u) as [st|]; [|discriminate].
  intros H. apply Z.eqb_eq in H. subst. reflexivity.
Qed.

Lemma add_recent_spec hs recents urls :
  exists ext, FDALocate.add_recent hs recents urls = (urls ++ ext)%list /\
    (NoDup urls -> NoDup (urls ++ ext)%list) /\
    forall u, In u ext -> In u recents /\ hs u = Some 200%Z.
Proof.
  revert urls. induction recents as [|r recents IH]; intros urls; simpl.
  - exists []. rewrite app_nil_r. split; [reflexivity|split; [auto|intros u' []]].
  - destruct (mem_str r urls) eqn:Hm.
    + destruct (IH urls) as (ext & -> & Hnd & He). exists ext.
      split; [reflexivity|split; [exact Hnd|]].
      intros u' Hu. destruct (He u' Hu). split; [right|]; assumption.
    + destruct (FDALocate.check_url_exists hs r) eqn:Hc.
      * destruct (IH (urls ++ [r])%list) as (ext & -> & Hnd & He).
        exists (r :: ext). rewrite <- app_assoc in *. simpl in *.
        split; [reflexivity|split].
        -- intros H. apply Hnd. apply NoDup_snoc; [exact H|].
           intros Hin. apply mem_str_In in Hin. congruence.
        -- intros u' [<-|Hu].
           ++ split; [left; reflexivity|exact (check_url_exists_200 _ _ Hc)].
           ++ destruct (He u' Hu). split; [right|]; assumption.
      * destruct (IH urls) as (ext & -> & Hnd & He). exists ext.
        split; [reflexivity|split; [exact Hnd|]].
        intros u' Hu. destruct (He u' Hu). split; [right|]; assumption.
Qed.

(** [_get_guidance_urls] after a successful [driver.get]. *)
Lemma get_guidance_urls_shape E hs p :
  web E FDALocate.FDA_GUIDANCE_URL = Some p ->
  run (FDALocate.get_guidance_urls E hs) =
  match FDALocate.page_urls E (content p) with
  | (_, Some _) => Ok []
  | (urls, None) =>
      Ok (FDALocate.add_recent hs FDALocate.RECENT_GUIDANCE_URLS
            (FDALocate.add_categories FDALocate.CATEGORY_URLS urls))
  end.
Proof.
  intros Hw. unfold FDALocate.get_guidance_urls, session_get, FDALocate.wait_for_body.
  rewrite Hw. cbn [run try_except bind emit ret raise fst snd].
  destruct (select_one (content p) "body");
    destruct (FDALocate.page_urls E (content p)) as [urls [ex|]]; reflexivity.
Qed.

Lemma get_guidance_urls_down E hs :
  web E FDALocate.FDA_GUIDANCE_URL = None -> run (FDALocate.get_guidance_urls E hs) = Ok [].
Proof.
  intros Hw. unfold FDALocate.get_guidance_urls, session_get. rewrite Hw. reflexivity.
Qed.





(* ------------------------------------------------------------------ *)
(** ** FDA locators: properties *)

(** X1: [_is_guidance_document_url] rejects every URL that ends in
    [.pdf] or contains [/media/], in any mix of ASCII letter case. *)
Theorem fda_guidance_rejects_pdf_media url :
  ends_with ".pdf" (lower url) = true \/ contains "/media/" (lower url) = true ->
  FDALocate.is_guidance_document_url url = false.
Proof.
  intros [H|H].
  - destruct (ends_with_app_ex _ _ H) as [a' Ha].
    destruct (lower_split _ _ _ Ha) as (a & b & -> & _ & Hb).
    apply (excluded_rejects _ (REnd ".pdf"));
      [unfold FDALocate.exclude_patterns; repeat (first [left; reflexivity | right])|].
    simpl re_search_ci. apply search_from_app. unfold rx_at. rewrite <- Hb.
    pose proof (ci_prefix_lower b EmptyString) as Hc. rewrite str_app_nil_r in Hc.
    rewrite Hc. reflexivity.
  - destruct (contains_app_ex _ _ H) as (a' & c' & Ha).
    destruct (lower_split _ _ _ Ha) as (a & bc & -> & _ & Hbc).
    destruct (lower_split _ _ _ Hbc) as (b & c & -> & Hb & _).
    apply (excluded_rejects _ (RLit "/media/"));
      [unfold FDALocate.exclude_patterns; repeat (first [left; reflexivity | right])|].
    simpl re_search_ci. apply search_from_app. unfold rx_at. rewrite <- Hb.
    rewrite ci_prefix_lower. reflexivity.
Qed.

Lemma fda_guidance_rejects_pdf_media_witness :
  ends_with ".pdf" (lower "/guidance-documents/Draft.PDF") = true /\
  FDALocate.is_guidance_document_url "/guidance-documents/Draft.PDF" = false.
Proof.
  split; [reflexivity|].
  apply fda_guidance_rejects_pdf_media. left. reflexivity.
Defined.

(** X2: every URL [_is_guidance_document_url] accepts contains
    [guidance], matched as [re.search('guidance', url, re.I)] matches it. *)
Theorem fda_guidance_url_mentions_guidance url :
  FDALocate.is_guidance_document_url url = true -> re_search_ci (RLit "guidance") url = true.
Proof.
  unfold FDALocate.is_guidance_document_url. intros H.
  destruct (existsb (fun p => re_search_ci p url) FDALocate.guidance_patterns) eqn:Hg;
    [|destruct (negb (nonempty url)); discriminate].
  apply existsb_exists in Hg as (x & Hx & Hs).
  unfold FDALocate.guidance_patterns in Hx. apply in_map_iff in Hx as (p & <- & Hp).
  assert (Hc : contains "guidance" p = true).
  { refine (proj1 (forallb_forall (contains "guidance") _) _ p Hp). reflexivity. }
  destruct (contains_app_ex _ _ Hc) as (a & b & Hab). clear Hc Hp. subst p.
  cbn [re_search_ci] in Hs |- *.
  destruct (search_from_split _ _ Hs) as (pre & suf & -> & Hr).
  unfold rx_at in Hr. rewrite ci_prefix_app in Hr.
  destruct (ci_prefix a suf) as [r1|] eqn:H1; [|discriminate].
  rewrite ci_prefix_app in Hr.
  destruct (ci_prefix "guidance" r1) as [r2|] eqn:H2; [|discriminate].
  destruct (ci_prefix_suffix _ _ _ H1) as [pre2 ->].
  rewrite <- str_app_assoc. apply search_from_app. unfold rx_at. rewrite H2. reflexivity.
Qed.

Lemma fda_guidance_url_mentions_guidance_witness :
  FDALocate.is_guidance_document_url "/Vaccines/Guidance-Documents/x" = true /\
  re_search_ci (RLit "guidance") "/Vaccines/Guidance-Documents/x" = true.
Proof.
  split; [reflexivity|].
  apply fda_guidance_url_mentions_guidance. reflexivity.
Defined.



(** X5: once the search page loads, [_get_guidance_urls] reads URLs off
    the page (table links, else the selector loop). When no [urljoin] of
    that reading raises, it returns those URLs followed by additions; the
    list has no duplicate and always contains the four category URLs, and
    every addition is a category URL or a recent URL whose [HEAD] check
    returned 200. When a [urljoin] of the selector loop raises, the
    function's [except] returns an empty list. *)
Theorem fda_guidance_urls_categories E hs p :
  web E FDALocate.FDA_GUIDANCE_URL = Some p ->
  (snd (FDALocate.page_urls E (content p)) = None ->
   exists extra,
    run (FDALocate.get_guidance_urls E hs) =
      Ok (fst (FDALocate.page_urls E (content p)) ++ extra)%list /\
    NoDup (fst (FDALocate.page_urls E (content p)) ++ extra)%list /\
    incl FDALocate.CATEGORY_URLS (fst (FDALocate.page_urls E (content p)) ++ extra)%list /\
    (forall u, In u extra -> In u FDALocate.CATEGORY_URLS \/
       (In u FDALocate.RECENT_GUIDANCE_URLS /\ hs u = Some 200%Z))) /\
  (snd (FDALocate.page_urls E (content p)) <> None ->
   run (FDALocate.get_guidance_urls E hs) = Ok []).
Proof.
  intros Hw. rewrite (get_guidance_urls_shape _ _ _ Hw).
  destruct (page_urls_spec E (content p)) as [Hnd _].
  destruct (FDALocate.page_urls E (content p)) as [urls st]. cbn [fst snd] in *.
  split; intros Hst.
  - subst st.
    destruct (add_categories_spec FDALocate.CATEGORY_URLS urls)
      as (ext1 & -> & Hnd1 & Hi1 & He1).
    destruct (add_recent_spec hs FDALocate.RECENT_GUIDANCE_URLS (urls ++ ext1)%list)
      as (ext2 & -> & Hnd2 & He2).
    exists (ext1 ++ ext2)%list. rewrite app_assoc. repeat split; auto.
    + intros u Hu. apply in_app_iff. left. apply Hi1. exact Hu.
    + intros u Hu. apply in_app_iff in Hu as [Hu|Hu]; [left; apply He1; exact Hu|].
      right. apply He2. exact Hu.
  - destruct st as [e|]; [reflexivity|congruence].
Qed.

Lemma fda_guidance_urls_categories_witness :
  (exists extra,
    run (FDALocate.get_guidance_urls (LocateFixtures.locate_env LocateFixtures.links_page)
           (fun _ => Some 200%Z)) =
      Ok (fst (FDALocate.page_urls (LocateFixtures.locate_env LocateFixtures.links_page)
            LocateFixtures.links_page) ++ extra)%list /\
    NoDup (fst (FDALocate.page_urls (LocateFixtures.locate_env LocateFixtures.links_page)
             LocateFixtures.links_page) ++ extra)%list /\
    incl FDALocate.CATEGORY_URLS
      (fst (FDALocate.page_urls (LocateFixtures.locate_env LocateFixtures.links_page)
         LocateFixtures.links_page) ++ extra)%list /\
    (forall u, In u extra -> In u FDALocate.CATEGORY_URLS \/
       (In u FDALocate.RECENT_GUIDANCE_URLS /\ Some 200%Z = Some 200%Z))) /\
  run (FDALocate.get_guidance_urls (LocateFixtures.locate_env LocateFixtures.bad_href_page)
         (fun _ => Some 200%Z)) = Ok [].
Proof.
  split.
  - apply (proj1 (fda_guidance_urls_categories
                    (LocateFixtures.locate_env LocateFixtures.links_page)
                    (fun _ => Some 200%Z) (ok_page LocateFixtures.links_page) eq_refl)).
    vm_compute. reflexivity.
  - apply (proj2 (fda_guidance_urls_categories
                    (LocateFixtures.locate_env LocateFixtures.bad_href_page)
                    (fun _ => Some 200%Z) (ok_page LocateFixtures.bad_href_page) eq_refl)).
    vm_compute. discriminate.
Defined.

(** X6: every URL [_get_guidance_urls] returns is a category URL, a recent
    URL whose [HEAD] check returned 200, or [urljoin(FDA_BASE_URL, href)]
    for an href the guidance filter accepts. *)
Theorem fda_guidance_urls_provenance E hs l u :
  run (FDALocate.get_guidance_urls E hs) = Ok l -> In u l ->
  In u FDALocate.CATEGORY_URLS \/
  (In u FDALocate.RECENT_GUIDANCE_URLS /\ hs u = Some 200%Z) \/
  exists href, FDALocate.is_guidance_document_url href = true /\ u = urljoin E FDA_BASE_URL href.
Proof.
  destruct (web E FDALocate.FDA_GUIDANCE_URL) as [p|] eqn:Hw.
  - rewrite (get_guidance_urls_shape _ _ _ Hw).
    destruct (page_urls_spec E (content p)) as [_ Hsrc].
    destruct (FDALocate.page_urls E (content p)) as [urls [e|]]; simpl in Hsrc;
      [intros H; injection H as <-; intros []|].
    destruct (add_categories_spec FDALocate.CATEGORY_URLS urls)
      as (ext1 & -> & _ & _ & He1).
    destruct (add_recent_spec hs FDALocate.RECENT_GUIDANCE_URLS (urls ++ ext1)%list)
      as (ext2 & -> & _ & He2).
    intros H. assert (Hl : l = ((urls ++ ext1) ++ ext2)%list) by congruence.
    subst l. intros Hu. apply in_app_iff in Hu as [Hu|Hu]; [apply in_app_iff in Hu as [Hu|Hu]|].
    + right. right. exact (Hsrc u Hu).
    + left. apply He1. exact Hu.
    + right. left. apply He2. exact Hu.
  - rewrite (get_guidance_urls_down _ _ Hw). intros H. injection H as <-. intros [].
Qed.

Lemma fda_guidance_urls_provenance_witness :
  In LocateFixtures.E6_HREF [LocateFixtures.E6_HREF] /\
  (In (FDA_BASE_URL ++ LocateFixtures.E6_HREF) FDALocate.CATEGORY_URLS \/
   (In (FDA_BASE_URL ++ LocateFixtures.E6_HREF) FDALocate.RECENT_GUIDANCE_URLS /\
    Some 200%Z = Some 200%Z) \/
   exists href, FDALocate.is_guidance_document_url href = true /\
     (FDA_BASE_URL ++ LocateFixtures.E6_HREF)%string =
       urljoin (LocateFixtures.locate_env LocateFixtures.links_page) FDA_BASE_URL href).
Proof.
  split; [left; reflexivity|].
  apply (fda_guidance_urls_provenance (LocateFixtures.locate_env LocateFixtures.links_page)
           (fun _ => Some 200%Z)
           (FDALocate.add_recent (fun _ => Some 200%Z) FDALocate.RECENT_GUIDANCE_URLS
              (FDALocate.add_categories FDALocate.CATEGORY_URLS
                 (fst (FDALocate.page_urls (LocateFixtures.locate_env LocateFixtures.links_page)
                    LocateFixtures.links_page))))).
  - vm_compute. reflexivity.
  - vm_compute. left. reflexivity.
Defined.





(* ------------------------------------------------------------------ *)
(** ** Text helpers: lemmas *)

Lemma string_of_list_app l1 l2 :
  string_of_list_ascii (l1 ++ l2) = (string_of_list_ascii l1 ++ string_of_list_ascii l2)%string.
Proof. induction l1 as [|c l1 IH]; simpl; [reflexivity|rewrite IH; reflexivity]. Qed.

Lemma list_of_string_app a b :
  list_ascii_of_string (a ++ b) = (list_ascii_of_string a ++ list_ascii_of_string b)%list.
Proof. induction a as [|c a IH]; simpl; [reflexivity|rewrite IH; reflexivity]. Qed.

Lemma string_rev_app a b : string_rev (a ++ b) = (string_rev b ++ string_rev a)%string.
Proof.
  unfold string_rev. rewrite list_of_string_app, rev_app_distr, string_of_list_app.
  reflexivity.
Qed.

Lemma string_rev_involutive s : string_rev (string_rev s) = s.
Proof.
  unfold string_rev.
  rewrite list_ascii_of_string_of_list_ascii, rev_involutive, string_of_list_ascii_of_string.
  reflexivity.
Qed.

Lemma strip_leading_suffix ws fuel s : exists a, s = (a ++ strip_leading ws fuel s)%string.
Proof.
  revert s. induction fuel as [|fuel IH]; intros s; simpl; [exists EmptyString; reflexivity|].
  destruct (match_alt ws s) as [r|] eqn:Hm; [|exists EmptyString; reflexivity].
  destruct (match_alt_suffix _ _ _ Hm) as [pre ->].
  destruct (IH r) as [a Ha]. exists (pre ++ a)%string.
  rewrite str_app_assoc, <- Ha. reflexivity.
Qed.

(** [s.strip()] is a piece of [s]. *)
Lemma py_strip_inside s : exists a c, s = (a ++ py_strip s ++ c)%string.
Proof.
  unfold py_strip.
  destruct (strip_leading_suffix PY_WHITESPACE (String.length s) s) as [a Ha].
  remember (strip_leading PY_WHITESPACE (String.length s) s) as l eqn:El. clear El.
  destruct (strip_leading_suffix (map string_rev PY_WHITESPACE) (String.length l) (string_rev l))
    as [b Hb].
  remember (strip_leading (map string_rev PY_WHITESPACE) (String.length l) (string_rev l))
    as t eqn:Et. clear Et.
  exists a, (string_rev b).
  assert (Hl : l = (string_rev t ++ string_rev b)%string).
  { rewrite <- (string_rev_involutive l), Hb, string_rev_app. reflexivity. }
  rewrite Ha, Hl. reflexivity.
Qed.

Lemma pylen_app a b : pylen (a ++ b) = (pylen a + pylen b)%nat.
Proof. induction a as [|c a IH]; simpl; [reflexivity|rewrite IH; lia]. Qed.

Lemma pylen_take_cp n s : pylen (take_cp n s) = Nat.min n (pylen s).
Proof.
  revert n. induction s as [|c s IH]; intros n; [destruct n; reflexivity|].
  cbn [take_cp]. destruct (is_cont_byte c) eqn:Hc.
  - cbn [pylen]. rewrite Hc, IH. reflexivity.
  - destruct n as [|n]; cbn [pylen]; rewrite Hc; [reflexivity|]. rewrite IH. reflexivity.
Qed.

Lemma take_cp_prefix n s : exists r, s = (take_cp n s ++ r)%string.
Proof.
  revert n. induction s as [|c s IH]; intros n; simpl; [exists EmptyString; reflexivity|].
  destruct (is_cont_byte c).
  - destruct (IH n) as [r Hr]. exists r. simpl. rewrite <- Hr. reflexivity.
  - destruct n as [|n]; [exists (String c s); reflexivity|].
    destruct (IH n) as [r Hr]. exists r. simpl. rewrite <- Hr. reflexivity.
Qed.


Lemma contains_eq b s :
  contains b s = String.prefix b s || match s with
                                      | EmptyString => false
                                      | String _ s' => contains b s'
                                      end.
Proof. destruct s; reflexivity. Qed.

Lemma prefix_app_l b x y : String.prefix b x = true -> String.prefix b (x ++ y) = true.
Proof.
  revert b. induction x as [|e x IH]; intros b H; destruct b as [|d b]; simpl in *.
  - destruct y; reflexivity.
  - discriminate.
  - reflexivity.
  - destruct (ascii_dec d e); [apply IH; exact H|discriminate].
Qed.

Lemma contains_app_l b x y : contains b x = true -> contains b (x ++ y) = true.
Proof.
  induction x as [|c x IH]; intros H; rewrite contains_eq in H.
  - rewrite orb_false_r in H. simpl. rewrite contains_eq.
    assert (Hp : String.prefix b y = true) by exact (prefix_app_l b EmptyString y H).
    rewrite Hp. reflexivity.
  - cbn [append]. rewrite contains_eq. apply orb_true_iff in H as [H|H].
    + assert (Hp : String.prefix b (String c (x ++ y)) = true)
        by exact (prefix_app_l b (String c x) y H).
      rewrite Hp. reflexivity.
    + rewrite (IH H). apply orb_true_r.
Qed.

Lemma contains_app_r b x y : contains b y = true -> contains b (x ++ y) = true.
Proof.
  intros H. induction x as [|c x IH]; [exact H|].
  cbn [append]. rewrite contains_eq, IH. apply orb_true_r.
Qed.

Lemma contains_inside b a s c : contains b s = true -> contains b (a ++ s ++ c) = true.
Proof. intros H. apply contains_app_r, contains_app_l, H. Qed.

Lemma contains_nil b : b <> EmptyString -> contains b EmptyString = false.
Proof. destruct b; [congruence|reflexivity]. Qed.

Lemma prefix_cut b x c z :
  String.prefix b (x ++ String c z) = true -> ~ In c (list_ascii_of_string b) ->
  String.prefix b x = true.
Proof.
  revert x. induction b as [|d b IH]; intros x H Hn; [destruct x; reflexivity|].
  destruct x as [|e x]; simpl in H.
  - destruct (ascii_dec d c) as [<-|]; [simpl in Hn; tauto|discriminate].
  - destruct (ascii_dec d e) as [<-|]; [|discriminate].
    simpl. destruct (ascii_dec d d); [|congruence].
    apply IH; [exact H|]. simpl in Hn. tauto.
Qed.

(** An occurrence of [b] in [x ++ c :: z], where the byte [c] is not in
    [b], lies in [x] or in [z]. *)
Lemma contains_cut b x c z :
  contains b (x ++ String c z) = true -> ~ In c (list_ascii_of_string b) ->
  b <> EmptyString -> contains b x = true \/ contains b z = true.
Proof.
  intros H Hn Hb. induction x as [|d x IH].
  - cbn [append] in H. rewrite contains_eq in H. apply orb_true_iff in H as [H|H]; [|right; exact H].
    destruct b as [|e b]; [congruence|]. simpl in H.
    destruct (ascii_dec e c) as [<-|]; [simpl in Hn; tauto|discriminate].
  - cbn [append] in H. rewrite contains_eq in H. apply orb_true_iff in H as [H|H].
    + left. rewrite contains_eq. apply orb_true_iff. left.
      exact (prefix_cut b (String d x) c z H Hn).
    + destruct (IH H) as [H'|H']; [left|right; exact H'].
      rewrite contains_eq. apply orb_true_iff. right. exact H'.
Qed.

Lemma contains_head b c z :
  contains b (String c z) = true -> ~ In c (list_ascii_of_string b) ->
  b <> EmptyString -> contains b z = true.
Proof.
  intros H Hn Hb. destruct (contains_cut b EmptyString c z H Hn Hb) as [H'|H']; [|exact H'].
  rewrite contains_nil in H'; [discriminate|exact Hb].
Qed.

Lemma contains_py_strip b s : contains b (py_strip s) = true -> contains b s = true.
Proof.
  intros H. destruct (py_strip_inside s) as (a & c & Hs). rewrite Hs.
  apply contains_inside, H.
Qed.

Lemma contains_take_cp b n s : contains b (take_cp n s) = true -> contains b s = true.
Proof.
  intros H. destruct (take_cp_prefix n s) as [r Hr]. rewrite Hr. apply contains_app_l, H.
Qed.

Lemma contains_ellipsis b x :
  ~ In "."%char (list_ascii_of_string b) -> b <> EmptyString ->
  contains b (x ++ "...") = true -> contains b x = true.
Proof.
  intros Hn Hb H. destruct (contains_cut b x "." ".." H Hn Hb) as [H'|H']; [exact H'|].
  apply contains_head in H'; [|exact Hn|exact Hb].
  apply contains_head in H'; [|exact Hn|exact Hb].
  rewrite contains_nil in H'; [discriminate|exact Hb].
Qed.

Lemma contains_para_sep b x y :
  ~ In NEWLINE (list_ascii_of_string b) -> b <> EmptyString ->
  contains b (x ++ EMA.PARA_SEP ++ y) = true -> contains b x = true \/ contains b y = true.
Proof.
  intros Hn Hb H. destruct (contains_cut b x NEWLINE (String NEWLINE y) H Hn Hb) as [H'|H'];
    [left; exact H'|right].
  exact (contains_head b NEWLINE y H' Hn Hb).
Qed.

(* ------------------------------------------------------------------ *)
(** ** Summary and first paragraphs: lemmas *)

Lemma cut_300_len s : (pylen (PWText.cut_300 s) <= 303)%nat /\
  ((20 < pylen s)%nat -> (20 < pylen (PWText.cut_300 s))%nat).
Proof.
  unfold PWText.cut_300. destruct (Nat.ltb 300 (pylen s)) eqn:H.
  - apply Nat.ltb_lt in H. rewrite pylen_app, pylen_take_cp. simpl pylen.
    rewrite Nat.min_l by lia. lia.
  - apply Nat.ltb_ge in H. lia.
Qed.

Lemma contains_cut_300 b s :
  ~ In "."%char (list_ascii_of_string b) -> b <> EmptyString ->
  contains b (PWText.cut_300 s) = true -> contains b s = true.
Proof.
  intros Hn Hb. unfold PWText.cut_300. destruct (Nat.ltb 300 (pylen s)); [|auto].
  intros H. apply contains_ellipsis in H; [|exact Hn|exact Hb].
  exact (contains_take_cp b 300 s H).
Qed.

Lemma meta_summary_spec keep soup sels s :
  PWText.meta_summary keep soup sels = Some s -> (20 < pylen s)%nat /\ keep s = true.
Proof.
  induction sels as [|sel sels IH]; simpl; [discriminate|].
  destruct (select_one soup sel) as [el|]; [|exact IH].
  match goal with
  | |- (if ?c then _ else _) = _ -> _ => destruct c eqn:Hc; [|exact IH]
  end.
  intros H. injection H as <-. apply andb_true_iff in Hc as [Hc Hk].
  apply andb_true_iff in Hc as [_ Hl]. apply Nat.ltb_lt in Hl. auto.
Qed.

Lemma selector_summary_spec keep soup sels s :
  PWText.selector_summary keep soup sels = Some s ->
  exists t, s = PWText.cut_300 t /\ (20 < pylen t)%nat /\ keep t = true.
Proof.
  induction sels as [|sel sels IH]; simpl; [discriminate|].
  destruct (select_one soup sel) as [el|]; [|exact IH].
  destruct (nonempty (get_text el) && Nat.ltb 20 (pylen (get_text el)) && keep (get_text el))
    eqn:Hc; [|exact IH].
  intros H. injection H as <-. apply andb_true_iff in Hc as [Hc Hk].
  apply andb_true_iff in Hc as [_ Hl]. apply Nat.ltb_lt in Hl. eauto.
Qed.

Lemma paragraph_summary_spec keep ps s :
  PWText.paragraph_summary keep ps = Some s ->
  exists t, s = PWText.cut_300 t /\ (30 < pylen t)%nat /\ keep t = true.
Proof.
  induction ps as [|p ps IH]; simpl; [discriminate|].
  destruct (nonempty (get_text p) && Nat.ltb 30 (pylen (get_text p)) && keep (get_text p))
    eqn:Hc; [|exact IH].
  intros H. injection H as <-. apply andb_true_iff in Hc as [Hc Hk].
  apply andb_true_iff in Hc as [_ Hl]. apply Nat.ltb_lt in Hl. eauto.
Qed.

(** The three ways [_extract_summary] can end. *)
Lemma extract_summary_cases keep soup :
  let r := PWText.extract_summary keep soup in
  PWText.meta_summary keep soup PWText.META_SELECTORS = Some r \/
  (exists t, r = PWText.cut_300 t /\ (20 < pylen t)%nat /\ keep t = true) \/
  r = PWText.NO_SUMMARY.
Proof.
  unfold PWText.extract_summary.
  destruct (PWText.meta_summary keep soup PWText.META_SELECTORS) as [s|] eqn:Hm; [left; reflexivity|].
  right. destruct (PWText.selector_summary keep soup PWText.SUMMARY_SELECTORS) as [s|] eqn:Hs.
  { left. exact (selector_summary_spec _ _ _ _ Hs). }
  destruct (PWText.paragraph_summary keep (select soup "p")) as [s|] eqn:Hp; [|right; reflexivity].
  left. destruct (paragraph_summary_spec _ _ _ Hp) as (t & -> & Hl & Hk).
  exists t. repeat split; auto. lia.
Qed.

Lemma paragraphs_text_contains keep b ps :
  ~ In NEWLINE (list_ascii_of_string b) -> b <> EmptyString ->
  contains b (PWText.paragraphs_text keep ps) = true ->
  exists p, In p ps /\ keep (get_text p) = true /\ contains b (get_text p) = true.
Proof.
  intros Hn Hb. induction ps as [|p ps IH]; cbn [PWText.paragraphs_text].
  - rewrite contains_nil by exact Hb. discriminate.
  - destruct (nonempty (get_text p) && Nat.ltb 30 (pylen (get_text p)) && keep (get_text p))
      eqn:Hc.
    + rewrite str_app_assoc. intros H.
      apply andb_true_iff in Hc as [_ Hk].
      destruct (contains_para_sep b _ _ Hn Hb H) as [H'|H']; [exists p; simpl; tauto|].
      destruct (IH H') as (q & ? & ? & ?). exists q. simpl; tauto.
    + cbn [append]. intros H. destruct (IH H) as (q & ? & ? & ?). exists q. simpl; tauto.
Qed.

Lemma first_lines_keep keep lines acc :
  (forall x, In x acc -> keep x = true) ->
  forall x, In x (PWText.first_lines keep lines acc) -> keep x = true.
Proof.
  revert acc. induction lines as [|l lines IH]; intros acc Hacc; simpl; [exact Hacc|].
  destruct (nonempty (py_strip l) && Nat.ltb 30 (pylen (py_strip l)) && keep (py_strip l))
    eqn:Hc; [|apply IH; exact Hacc].
  apply andb_true_iff in Hc as [_ Hk].
  assert (Hacc' : forall x, In x (acc ++ [py_strip l])%list -> keep x = true).
  { intros x Hx. apply in_app_iff in Hx as [Hx|[<-|[]]]; [apply Hacc; exact Hx|exact Hk]. }
  match goal with
  | |- forall x, In x (if ?c then _ else _) -> _ => destruct c
  end; [exact Hacc'|apply IH; exact Hacc'].
Qed.

Lemma join_contains b xs :
  ~ In NEWLINE (list_ascii_of_string b) -> b <> EmptyString ->
  contains b (join EMA.PARA_SEP xs) = true -> exists x, In x xs /\ contains b x = true.
Proof.
  intros Hn Hb. unfold join. induction xs as [|x xs IH].
  - change (String.concat EMA.PARA_SEP []) with EmptyString.
    rewrite contains_nil by exact Hb. discriminate.
  - destruct xs as [|y ys].
    + change (String.concat EMA.PARA_SEP [x]) with x. intros H. exists x. simpl; tauto.
    + change (String.concat EMA.PARA_SEP (x :: y :: ys))
        with (x ++ EMA.PARA_SEP ++ String.concat EMA.PARA_SEP (y :: ys))%string.
      intros H. destruct (contains_para_sep b _ _ Hn Hb H) as [H'|H']; [exists x; simpl; tauto|].
      destruct (IH H') as (z & ? & ?). exists z. simpl in *. tauto.
Qed.

(** A text neither filter keeps never appears in [_extract_content]'s
    result. *)
Lemma extract_content_avoids kp kl all_text soup b :
  ~ In NEWLINE (list_ascii_of_string b) -> ~ In "."%char (list_ascii_of_string b) ->
  b <> EmptyString ->
  (forall t, kp t = true -> contains b t = false) ->
  (forall t, kl t = true -> contains b t = false) ->
  contains b (PWText.extract_content kp kl all_text soup) = false.
Proof.
  intros Hn Hd Hb Hkp Hkl. unfold PWText.extract_content.
  destruct (contains b _) eqn:H; [exfalso|reflexivity].
  apply contains_py_strip in H.
  destruct (nonempty (PWText.paragraphs_text kp _)) eqn:Hne.
  - destruct (paragraphs_text_contains kp b _ Hn Hb H) as (p & _ & Hk & Hc).
    rewrite (Hkp _ Hk) in Hc. discriminate.
  - match type of H with
    | contains b (if ?c then _ else _) = true => destruct c
    end.
    + apply contains_ellipsis in H; [|exact Hd|exact Hb].
      apply contains_take_cp in H.
      destruct (join_contains b _ Hn Hb H) as (x & Hx & Hc).
      apply first_lines_keep in Hx; [|intros ? []].
      rewrite (Hkl _ Hx) in Hc. discriminate.
    + destruct (join_contains b _ Hn Hb H) as (x & Hx & Hc).
      apply first_lines_keep in Hx; [|intros ? []].
      rewrite (Hkl _ Hx) in Hc. discriminate.
Qed.

(* ------------------------------------------------------------------ *)
(** ** Summary and first paragraphs: properties *)

(** X9: [_extract_summary] of PMDA and WHO (any extra filter [keep])
    returns the fixed placeholder or a text of more than 20 code points,
    and a text of at most 303 code points unless it is the meta-tag
    summary, which is never shortened. *)
Theorem summary_shape keep soup :
  let r := PWText.extract_summary keep soup in
  (r = PWText.NO_SUMMARY \/ (20 < pylen r)%nat) /\
  ((pylen r <= 303)%nat \/ PWText.meta_summary keep soup PWText.META_SELECTORS = Some r).
Proof.
  cbv zeta. pose proof (extract_summary_cases keep soup) as Hc. cbv zeta in Hc.
  destruct Hc as [Hm|[(t & Ht & Hl & _)|Hn]].
  - split; [right|right; exact Hm]. exact (proj1 (meta_summary_spec _ _ _ _ Hm)).
  - rewrite Ht. destruct (cut_300_len t) as [H1 H2]. split; [right; auto|left; exact H1].
  - rewrite Hn. split; [left; reflexivity|left; vm_compute; lia].
Qed.

(** X10: the summary PMDA extracts never contains the organisation's
    boilerplate sentence. *)
Theorem pmda_summary_no_blurb soup :
  contains PWText.PMDA_ORG_BLURB (PWText.pmda_extract_summary soup) = false.
Proof.
  unfold PWText.pmda_extract_summary.
  pose proof (extract_summary_cases PWText.pmda_keep_summary soup) as Hc. cbv zeta in Hc.
  destruct Hc as [Hm|[(t & Ht & _ & Hk)|Hn]].
  - destruct (meta_summary_spec _ _ _ _ Hm) as [_ Hk].
    unfold PWText.pmda_keep_summary in Hk. apply negb_true_iff in Hk. exact Hk.
  - rewrite Ht. unfold PWText.pmda_keep_summary in Hk. apply negb_true_iff in Hk.
    destruct (contains _ (PWText.cut_300 t)) eqn:H; [|reflexivity].
    apply contains_cut_300 in H; [congruence|vm_compute; intuition discriminate|discriminate].
  - rewrite Hn. reflexivity.
Qed.

(** X11: the first paragraphs PMDA extracts never contain the
    organisation's boilerplate sentence nor its Japanese name, whatever
    the page text. *)
Theorem pmda_content_no_boilerplate all_text soup :
  contains PWText.PMDA_ORG_BLURB (PWText.pmda_extract_content all_text soup) = false /\
  contains PWText.PMDA_NAME (PWText.pmda_extract_content all_text soup) = false.
Proof.
  unfold PWText.pmda_extract_content. split; apply extract_content_avoids;
    try (vm_compute; intuition discriminate); try discriminate;
    unfold PWText.pmda_keep_paragraph, PWText.pmda_keep_line; intros t Ht;
    repeat (apply andb_true_iff in Ht as [Ht ?]); apply negb_true_iff; assumption.
Qed.


